(** * Mine closure costing: the calculation engine (calcEngine.ts)

    A shallow embedding of the calculation engine and of the validation
    schema (validation.ts), with the properties the specification states
    about them.

    Numbers.  The engine computes on JavaScript numbers.  Here every
    [number] is an exact rational ([Q]); the eight phase durations, which
    the schema validates as integers and which the engine uses as loop
    bounds and array indices, are integers ([Z]).  Equalities between
    computed amounts are stated up to [Qeq] ([==]).  On a validated input
    no division of the engine has a zero divisor, so that [Q]'s total
    division never differs from the arithmetic one there. *)

From Stdlib Require Import QArith Qabs Qround Qpower Qminmax ZArith List Permutation String Bool Lia Lqa Psatz.
Import ListNotations.

Local Open Scope Q_scope.

(** ** JavaScript primitives *)

(** [x > y] on numbers. *)
Definition Qgtb (x y : Q) : bool := negb (Qle_bool x y).

(** [x === y] on numbers. *)
Definition Qeqb (x y : Q) : bool := Qeq_bool x y.

(** [Math.round]: nearest integer, ties towards plus infinity. *)
Definition Math_round (x : Q) : Q := inject_Z (Qfloor (x + (1 # 2))).

(** [Math.pow] at a non-negative integer exponent. *)
Definition Math_pow (x : Q) (n : Z) : Q := Qpower x n.

(** [Math.abs]. *)
Definition Math_abs (x : Q) : Q := Qabs x.

(** The indices [0, 1, ..., n-1] of a counting loop. *)
Definition Zrange (n : Z) : list Z := map Z.of_nat (seq 0 (Z.to_nat n)).

(** Array read at an integer index: [None] is JavaScript's [undefined]. *)
Definition arr_get {A : Type} (l : list A) (i : Z) : option A :=
  if (i <? 0)%Z then None else nth_error l (Z.to_nat i).

(** In-place update of the element at a natural index. *)
Fixpoint list_update {A : Type} (l : list A) (n : nat) (f : A -> A) : list A :=
  match l, n with
  | [], _ => []
  | x :: t, O => f x :: t
  | x :: t, S k => x :: list_update t k f
  end.

Definition arr_update {A : Type} (l : list A) (i : Z) (f : A -> A) : list A :=
  if (i <? 0)%Z then l else list_update l (Z.to_nat i) f.

(** [Array.prototype.push]. *)
Definition push {A : Type} (l : list A) (x : A) : list A := l ++ [x].

(** [Array.prototype.sort] with a comparator: the sort is stable; a positive
    comparison result puts the second argument first. *)
Section Sort.
Context {A : Type} (cmp : A -> A -> Q).

Fixpoint sort_insert (x : A) (l : list A) : list A :=
  match l with
  | [] => [x]
  | y :: t => if Qgtb (cmp x y) 0 then y :: sort_insert x t else x :: y :: t
  end.

Definition array_sort (l : list A) : list A := fold_right sort_insert [] l.
End Sort.

(** A JavaScript [Map]: keys in insertion order, [set] on a present key
    keeps its position. *)
Section JsMap.
Context {K : Type} (K_eqb : K -> K -> bool).

Fixpoint map_get (m : list (K * Q)) (k : K) : option Q :=
  match m with
  | [] => None
  | (k', v) :: t => if K_eqb k k' then Some v else map_get t k
  end.

Fixpoint map_set (m : list (K * Q)) (k : K) (v : Q) : list (K * Q) :=
  match m with
  | [] => [(k, v)]
  | (k', v') :: t =>
      if K_eqb k k' then (k', v) :: t else (k', v') :: map_set t k v
  end.
End JsMap.

(** The [??] operator on a possibly undefined number. *)
Definition orElse (o : option Q) (d : Q) : Q :=
  match o with Some v => v | None => d end.

(** ** Domain types (types.ts) *)

Inductive ClosurePhase : Type :=
| PlanningApprovals
| DecommissioningDemolition
| EarthworksLandform
| TailingsWRDRehabilitation
| WaterManagement
| RevegetationEcosystem
| MonitoringMaintenance
| RelinquishmentPostClosure.

Definition CLOSURE_PHASES : list ClosurePhase :=
  [ PlanningApprovals; DecommissioningDemolition; EarthworksLandform;
    TailingsWRDRehabilitation; WaterManagement; RevegetationEcosystem;
    MonitoringMaintenance; RelinquishmentPostClosure ].

Definition ClosurePhase_eqb (a b : ClosurePhase) : bool :=
  match a, b with
  | PlanningApprovals, PlanningApprovals
  | DecommissioningDemolition, DecommissioningDemolition
  | EarthworksLandform, EarthworksLandform
  | TailingsWRDRehabilitation, TailingsWRDRehabilitation
  | WaterManagement, WaterManagement
  | RevegetationEcosystem, RevegetationEcosystem
  | MonitoringMaintenance, MonitoringMaintenance
  | RelinquishmentPostClosure, RelinquishmentPostClosure => true
  | _, _ => false
  end.

Inductive CostCategory : Type :=
| Mobilisation
| SiteEstablishment
| Demolition
| Earthworks
| TSFClosure
| WRDRehabilitation
| WaterTreatmentCapex
| WaterTreatmentOpex
| Revegetation
| ErosionControls
| RoadRehabilitation
| HazardousMaterials
| Monitoring
| CommunityHeritage
| Contingency
| RiskUplift
| OwnersCosts
| ContractorMargin.

Definition CostCategory_eqb (a b : CostCategory) : bool :=
  match a, b with
  | Mobilisation, Mobilisation
  | SiteEstablishment, SiteEstablishment
  | Demolition, Demolition
  | Earthworks, Earthworks
  | TSFClosure, TSFClosure
  | WRDRehabilitation, WRDRehabilitation
  | WaterTreatmentCapex, WaterTreatmentCapex
  | WaterTreatmentOpex, WaterTreatmentOpex
  | Revegetation, Revegetation
  | ErosionControls, ErosionControls
  | RoadRehabilitation, RoadRehabilitation
  | HazardousMaterials, HazardousMaterials
  | Monitoring, Monitoring
  | CommunityHeritage, CommunityHeritage
  | Contingency, Contingency
  | RiskUplift, RiskUplift
  | OwnersCosts, OwnersCosts
  | ContractorMargin, ContractorMargin => true
  | _, _ => false
  end.

Inductive MonitoringIntensity : Type := low | medium | high.

Definition MonitoringIntensity_text (m : MonitoringIntensity) : string :=
  match m with
  | low => "low"
  | medium => "medium"
  | high => "high"
  end.

Inductive DiscountRateMode : Type := real | nominal.

Definition DiscountRateMode_eqb (a b : DiscountRateMode) : bool :=
  match a, b with
  | real, real | nominal, nominal => true
  | _, _ => false
  end.

(** [PhaseDurations]: one integer number of years per phase. *)
Record PhaseDurations : Type := {
  planningYears : Z;
  decommYears : Z;
  earthworksYears : Z;
  tsfWrdYears : Z;
  waterYears : Z;
  revegYears : Z;
  monitoringYears : Z;
  relinquishmentYears : Z
}.

(** [durations[phase]]. *)
Definition durationOf (d : PhaseDurations) (phase : ClosurePhase) : Z :=
  match phase with
  | PlanningApprovals => planningYears d
  | DecommissioningDemolition => decommYears d
  | EarthworksLandform => earthworksYears d
  | TailingsWRDRehabilitation => tsfWrdYears d
  | WaterManagement => waterYears d
  | RevegetationEcosystem => revegYears d
  | MonitoringMaintenance => monitoringYears d
  | RelinquishmentPostClosure => relinquishmentYears d
  end.

Record DirectWorksQuantities : Type := {
  disturbedAreaHa : Q;
  tsfAreaHa : Q;
  tsfCoverThicknessM : Q;
  wrdFootprintHa : Q;
  wrdReshapingDepthM : Q;
  earthworksVolumeM3Override : option Q;
  topsoilThicknessM : Q;
  recontouringAreaHa : Q;
  roadLengthKm : Q;
  numberOfBuildings : Q;
  waterTreatmentFlowMLPerDay : Q;
  waterTreatmentDurationYears : Q;
  waterTreatmentIntensityFactor : Q;
  monitoringDurationYears : Q;
  monitoringIntensity : MonitoringIntensity;
  hazardousMaterialsEnabled : bool;
  hazardousMaterialsAreaHa : Q;
  communityHeritageEnabled : bool
}.

Record UnitRates : Type := {
  earthworksPerM3 : Q;
  cappingBasePerM2 : Q;
  cappingThicknessFactor : Q;
  topsoilPerM3 : Q;
  revegetationPerHa : Q;
  revegetationComplexityFactor : Q;
  demolitionPerBuilding : Q;
  roadRehabPerKm : Q;
  waterTreatmentCapex : Q;
  waterTreatmentOpexPerML : Q;
  monitoringPerYearLow : Q;
  monitoringPerYearMedium : Q;
  monitoringPerYearHigh : Q;
  hazardousMaterialsPerHa : Q;
  communityHeritageLumpSum : Q;
  bulkingFactor : Q;
  erosionControlsPerHa : Q;
  mobilisationLumpSum : Q
}.

Record IndirectCostRates : Type := {
  siteEstablishmentPercent : Q;
  contractorMarginPercent : Q;
  contingencyPercent : Q;
  ownersCostsPercent : Q
}.

Record RiskFactors : Type := {
  contaminationUncertainty : Q;
  geotechUncertainty : Q;
  waterQualityUncertainty : Q;
  regulatoryUncertainty : Q;
  logisticsComplexity : Q
}.

Record FinancialParams : Type := {
  closureStartYear : Z;
  escalationRatePercent : Q;
  discountRatePercent : Q;
  discountRateMode : DiscountRateMode
}.

Record InputState : Type := {
  quantities : DirectWorksQuantities;
  unitRates : UnitRates;
  indirectRates : IndirectCostRates;
  riskFactors : RiskFactors;
  financialParams : FinancialParams;
  phaseDurations : PhaseDurations;
  scenarioName : string
}.

Record DerivedQuantities : Type := {
  tsfAreaM2 : Q;
  wrdAreaM2 : Q;
  tsfCappingVolumeM3 : Q;
  wrdEarthworksVolumeM3 : Q;
  totalEarthworksVolumeM3 : Q;
  topsoilVolumeM3 : Q;
  disturbedAreaM2 : Q;
  recontouringAreaM2 : Q;
  totalWaterTreatmentML : Q;
  riskScore : Q;
  riskUpliftPercent : Q
}.

(** A piece of a template literal: literal text or an interpolated number. *)
Inductive TextPart : Type :=
| Lit (s : string)
| Num (n : Q).

Module LineItemCost.
Record t : Type := mk {
  category : CostCategory;
  description : list TextPart;
  quantity : Q;
  unit : string;
  unitRate : Q;
  subtotal : Q;
  phase : ClosurePhase
}.
End LineItemCost.

(** [Record<ClosurePhase, number>]: every phase has an amount. *)
Record PhaseRecord : Type := {
  pr_planning : Q;
  pr_decomm : Q;
  pr_earthworks : Q;
  pr_tsfWrd : Q;
  pr_water : Q;
  pr_reveg : Q;
  pr_monitoring : Q;
  pr_relinquishment : Q
}.

Definition pr_get (r : PhaseRecord) (phase : ClosurePhase) : Q :=
  match phase with
  | PlanningApprovals => pr_planning r
  | DecommissioningDemolition => pr_decomm r
  | EarthworksLandform => pr_earthworks r
  | TailingsWRDRehabilitation => pr_tsfWrd r
  | WaterManagement => pr_water r
  | RevegetationEcosystem => pr_reveg r
  | MonitoringMaintenance => pr_monitoring r
  | RelinquishmentPostClosure => pr_relinquishment r
  end.

Definition pr_set (r : PhaseRecord) (phase : ClosurePhase) (v : Q) : PhaseRecord :=
  match phase with
  | PlanningApprovals =>
      {| pr_planning := v; pr_decomm := pr_decomm r; pr_earthworks := pr_earthworks r;
         pr_tsfWrd := pr_tsfWrd r; pr_water := pr_water r; pr_reveg := pr_reveg r;
         pr_monitoring := pr_monitoring r; pr_relinquishment := pr_relinquishment r |}
  | DecommissioningDemolition =>
      {| pr_planning := pr_planning r; pr_decomm := v; pr_earthworks := pr_earthworks r;
         pr_tsfWrd := pr_tsfWrd r; pr_water := pr_water r; pr_reveg := pr_reveg r;
         pr_monitoring := pr_monitoring r; pr_relinquishment := pr_relinquishment r |}
  | EarthworksLandform =>
      {| pr_planning := pr_planning r; pr_decomm := pr_decomm r; pr_earthworks := v;
         pr_tsfWrd := pr_tsfWrd r; pr_water := pr_water r; pr_reveg := pr_reveg r;
         pr_monitoring := pr_monitoring r; pr_relinquishment := pr_relinquishment r |}
  | TailingsWRDRehabilitation =>
      {| pr_planning := pr_planning r; pr_decomm := pr_decomm r;
         pr_earthworks := pr_earthworks r; pr_tsfWrd := v; pr_water := pr_water r;
         pr_reveg := pr_reveg r; pr_monitoring := pr_monitoring r;
         pr_relinquishment := pr_relinquishment r |}
  | WaterManagement =>
      {| pr_planning := pr_planning r; pr_decomm := pr_decomm r;
         pr_earthworks := pr_earthworks r; pr_tsfWrd := pr_tsfWrd r; pr_water := v;
         pr_reveg := pr_reveg r; pr_monitoring := pr_monitoring r;
         pr_relinquishment := pr_relinquishment r |}
  | RevegetationEcosystem =>
      {| pr_planning := pr_planning r; pr_decomm := pr_decomm r;
         pr_earthworks := pr_earthworks r; pr_tsfWrd := pr_tsfWrd r;
         pr_water := pr_water r; pr_reveg := v; pr_monitoring := pr_monitoring r;
         pr_relinquishment := pr_relinquishment r |}
  | MonitoringMaintenance =>
      {| pr_planning := pr_planning r; pr_decomm := pr_decomm r;
         pr_earthworks := pr_earthworks r; pr_tsfWrd := pr_tsfWrd r;
         pr_water := pr_water r; pr_reveg := pr_reveg r; pr_monitoring := v;
         pr_relinquishment := pr_relinquishment r |}
  | RelinquishmentPostClosure =>
      {| pr_planning := pr_planning r; pr_decomm := pr_decomm r;
         pr_earthworks := pr_earthworks r; pr_tsfWrd := pr_tsfWrd r;
         pr_water := pr_water r; pr_reveg := pr_reveg r;
         pr_monitoring := pr_monitoring r; pr_relinquishment := v |}
  end.

Module AnnualCashflow.
Record t : Type := mk {
  year : Z;
  nominalCost : Q;
  escalatedCost : Q;
  discountedCost : Q;
  cumulativeNominal : Q;
  cumulativeDiscounted : Q;
  phaseBreakdown : PhaseRecord
}.
End AnnualCashflow.

Module SensitivityResult.
Record t : Type := mk {
  driverName : string;
  driverKey : string;
  baseValue : Q;
  unit : string;
  lowValue : Q;
  highValue : Q;
  lowTotalCost : Q;
  highTotalCost : Q;
  lowNPV : Q;
  highNPV : Q;
  deltaCost : Q;
  deltaNPV : Q
}.
End SensitivityResult.

Module PhaseCostSummary.
Record t : Type := mk {
  phase : ClosurePhase;
  totalCost : Q;
  percentOfTotal : Q
}.
End PhaseCostSummary.

Module CategoryCostSummary.
Record t : Type := mk {
  category : CostCategory;
  totalCost : Q;
  percentOfTotal : Q
}.
End CategoryCostSummary.

Record Results : Type := {
  derivedQuantities : DerivedQuantities;
  lineItems : list LineItemCost.t;
  directWorksCost : Q;
  indirectCosts : Q;
  totalNominalCost : Q;
  totalDiscountedCost : Q;
  peakAnnualCashflow : Q;
  peakCashflowYear : Z;
  annualCashflows : list AnnualCashflow.t;
  phaseBreakdown : list PhaseCostSummary.t;
  categoryBreakdown : list CategoryCostSummary.t;
  sensitivityResults : list SensitivityResult.t;
  monitoringCostShare : Q;
  totalDurationYears : Z
}.


(** ** Unit conversions *)

Definition haToM2 (ha : Q) : Q := ha * 10000.


(** ** Derived quantities *)

Definition calculateRiskScore (factors : RiskFactors) : Q :=
  let score :=
    contaminationUncertainty factors * 0.25 +
    geotechUncertainty factors * 0.2 +
    waterQualityUncertainty factors * 0.25 +
    regulatoryUncertainty factors * 0.15 +
    logisticsComplexity factors * 0.15 in
  Math_round (score * 10) / 10.

Definition riskScoreToUplift (riskScore : Q) : Q :=
  if Qle_bool riskScore 20 then
    (riskScore / 20) * 5
  else if Qle_bool riskScore 40 then
    5 + ((riskScore - 20) / 20) * 5
  else if Qle_bool riskScore 60 then
    10 + ((riskScore - 40) / 20) * 10
  else if Qle_bool riskScore 80 then
    20 + ((riskScore - 60) / 20) * 15
  else
    35 + ((riskScore - 80) / 20) * 15.

Definition calculateDerivedQuantities (inputs : InputState) : DerivedQuantities :=
  let quantities := quantities inputs in
  let unitRates := unitRates inputs in
  let riskFactors := riskFactors inputs in
  let tsfAreaM2 := haToM2 (tsfAreaHa quantities) in
  let wrdAreaM2 := haToM2 (wrdFootprintHa quantities) in
  let disturbedAreaM2 := haToM2 (disturbedAreaHa quantities) in
  let recontouringAreaM2 := haToM2 (recontouringAreaHa quantities) in
  let tsfCappingVolumeM3 := tsfAreaM2 * tsfCoverThicknessM quantities in
  let wrdEarthworksVolumeM3 :=
    wrdAreaM2 * wrdReshapingDepthM quantities * bulkingFactor unitRates in
  let totalEarthworksVolumeM3 :=
    match earthworksVolumeM3Override quantities with
    | Some override => override
    | None => tsfCappingVolumeM3 + wrdEarthworksVolumeM3
    end in
  let topsoilVolumeM3 := disturbedAreaM2 * topsoilThicknessM quantities in
  let totalWaterTreatmentML :=
    waterTreatmentFlowMLPerDay quantities * 365 * waterTreatmentDurationYears quantities in
  let riskScore := calculateRiskScore riskFactors in
  let riskUpliftPercent := riskScoreToUplift riskScore in
  {| tsfAreaM2 := tsfAreaM2;
     wrdAreaM2 := wrdAreaM2;
     tsfCappingVolumeM3 := tsfCappingVolumeM3;
     wrdEarthworksVolumeM3 := wrdEarthworksVolumeM3;
     totalEarthworksVolumeM3 := totalEarthworksVolumeM3;
     topsoilVolumeM3 := topsoilVolumeM3;
     disturbedAreaM2 := disturbedAreaM2;
     recontouringAreaM2 := recontouringAreaM2;
     totalWaterTreatmentML := totalWaterTreatmentML;
     riskScore := riskScore;
     riskUpliftPercent := riskUpliftPercent |}.

(** ** Line items *)

Definition getMonitoringRate (intensity : MonitoringIntensity)
    (rates_low rates_medium rates_high : Q) : Q :=
  match intensity with
  | low => rates_low
  | medium => rates_medium
  | high => rates_high
  end.

(** [if (cond) { items.push(item) }] *)
Definition push_if {A : Type} (cond : bool) (items : list A) (item : A) : list A :=
  if cond then push items item else items.

Definition calculateDirectWorksCosts (inputs : InputState) (derived : DerivedQuantities)
    : list LineItemCost.t :=
  let quantities := quantities inputs in
  let unitRates := unitRates inputs in
  let items : list LineItemCost.t := [] in
  (* Mobilisation/Demobilisation *)
  let items := push items
    (LineItemCost.mk Mobilisation [Lit "Site mobilisation and demobilisation"]
       1 "lump sum" (mobilisationLumpSum unitRates) (mobilisationLumpSum unitRates)
       DecommissioningDemolition) in
  (* Demolition *)
  let items := push_if (Qgtb (numberOfBuildings quantities) 0) items
    (LineItemCost.mk Demolition [Lit "Building and structure demolition"]
       (numberOfBuildings quantities) "buildings" (demolitionPerBuilding unitRates)
       (numberOfBuildings quantities * demolitionPerBuilding unitRates)
       DecommissioningDemolition) in
  (* Earthworks *)
  let items := push_if (Qgtb (totalEarthworksVolumeM3 derived) 0) items
    (LineItemCost.mk Earthworks [Lit "General earthworks (recontouring, reshaping)"]
       (totalEarthworksVolumeM3 derived) "m³" (earthworksPerM3 unitRates)
       (totalEarthworksVolumeM3 derived * earthworksPerM3 unitRates)
       EarthworksLandform) in
  (* Topsoil placement *)
  let items := push_if (Qgtb (topsoilVolumeM3 derived) 0) items
    (LineItemCost.mk Earthworks [Lit "Topsoil placement"]
       (topsoilVolumeM3 derived) "m³" (topsoilPerM3 unitRates)
       (topsoilVolumeM3 derived * topsoilPerM3 unitRates)
       EarthworksLandform) in
  (* TSF Closure (capping) *)
  let cappingCostPerM2 :=
    cappingBasePerM2 unitRates *
    (tsfCoverThicknessM quantities * cappingThicknessFactor unitRates) in
  let items := push_if (Qgtb (tsfAreaHa quantities) 0) items
    (LineItemCost.mk TSFClosure [Lit "TSF capping and closure"]
       (tsfAreaM2 derived) "m²" cappingCostPerM2
       (tsfAreaM2 derived * cappingCostPerM2)
       TailingsWRDRehabilitation) in
  (* WRD Rehabilitation *)
  let wrdCostPerM2 :=
    cappingBasePerM2 unitRates *
    (wrdReshapingDepthM quantities * cappingThicknessFactor unitRates * 0.5) in
  let items := push_if (Qgtb (wrdFootprintHa quantities) 0) items
    (LineItemCost.mk WRDRehabilitation [Lit "WRD reshaping and cover"]
       (wrdAreaM2 derived) "m²" wrdCostPerM2
       (wrdAreaM2 derived * wrdCostPerM2)
       TailingsWRDRehabilitation) in
  (* Water Treatment - Capex, then Opex, under one test *)
  let items :=
    if Qgtb (waterTreatmentDurationYears quantities) 0 &&
       Qgtb (waterTreatmentFlowMLPerDay quantities) 0
    then
      let capexAdjusted :=
        waterTreatmentCapex unitRates * waterTreatmentIntensityFactor quantities in
      let items := push items
        (LineItemCost.mk WaterTreatmentCapex [Lit "Water treatment plant (capex)"]
           1 "plant" capexAdjusted capexAdjusted
           WaterManagement) in
      let annualOpex :=
        waterTreatmentFlowMLPerDay quantities *
        365 *
        waterTreatmentOpexPerML unitRates *
        waterTreatmentIntensityFactor quantities in
      push items
        (LineItemCost.mk WaterTreatmentOpex [Lit "Water treatment operations (opex)"]
           (waterTreatmentDurationYears quantities) "years" annualOpex
           (annualOpex * waterTreatmentDurationYears quantities)
           WaterManagement)
    else items in
  (* Revegetation *)
  let revegRate :=
    revegetationPerHa unitRates * revegetationComplexityFactor unitRates in
  let items := push_if (Qgtb (disturbedAreaHa quantities) 0) items
    (LineItemCost.mk Revegetation [Lit "Revegetation and ecosystem establishment"]
       (disturbedAreaHa quantities) "ha" revegRate
       (disturbedAreaHa quantities * revegRate)
       RevegetationEcosystem) in
  (* Erosion controls *)
  let items := push_if (Qgtb (disturbedAreaHa quantities) 0) items
    (LineItemCost.mk ErosionControls [Lit "Erosion and sediment controls"]
       (disturbedAreaHa quantities) "ha" (erosionControlsPerHa unitRates)
       (disturbedAreaHa quantities * erosionControlsPerHa unitRates)
       EarthworksLandform) in
  (* Road rehabilitation *)
  let items := push_if (Qgtb (roadLengthKm quantities) 0) items
    (LineItemCost.mk RoadRehabilitation [Lit "Road and access rehabilitation"]
       (roadLengthKm quantities) "km" (roadRehabPerKm unitRates)
       (roadLengthKm quantities * roadRehabPerKm unitRates)
       EarthworksLandform) in
  (* Hazardous materials *)
  let items := push_if (hazardousMaterialsEnabled quantities &&
                        Qgtb (hazardousMaterialsAreaHa quantities) 0) items
    (LineItemCost.mk HazardousMaterials [Lit "Hazardous materials handling and disposal"]
       (hazardousMaterialsAreaHa quantities) "ha" (hazardousMaterialsPerHa unitRates)
       (hazardousMaterialsAreaHa quantities * hazardousMaterialsPerHa unitRates)
       DecommissioningDemolition) in
  (* Monitoring *)
  let monitoringRate :=
    getMonitoringRate (monitoringIntensity quantities)
      (monitoringPerYearLow unitRates)
      (monitoringPerYearMedium unitRates)
      (monitoringPerYearHigh unitRates) in
  let items := push items
    (LineItemCost.mk Monitoring
       [Lit "Environmental monitoring (";
        Lit (MonitoringIntensity_text (monitoringIntensity quantities));
        Lit " intensity)"]
       (monitoringDurationYears quantities) "years" monitoringRate
       (monitoringDurationYears quantities * monitoringRate)
       MonitoringMaintenance) in
  (* Community/Heritage *)
  let items := push_if (communityHeritageEnabled quantities) items
    (LineItemCost.mk CommunityHeritage [Lit "Community and heritage management"]
       1 "lump sum" (communityHeritageLumpSum unitRates)
       (communityHeritageLumpSum unitRates)
       PlanningApprovals) in
  items.

Definition calculateIndirectCosts (directWorksTotal : Q) (inputs : InputState)
    (derived : DerivedQuantities) : list LineItemCost.t :=
  let indirectRates := indirectRates inputs in
  let items : list LineItemCost.t := [] in
  (* Site establishment / Project management *)
  let siteEstCost :=
    directWorksTotal * (siteEstablishmentPercent indirectRates / 100) in
  let items := push items
    (LineItemCost.mk SiteEstablishment
       [Lit "Site establishment, HSE, and project management"]
       (siteEstablishmentPercent indirectRates) "% of direct"
       (directWorksTotal / 100) siteEstCost PlanningApprovals) in
  (* Contractor margin (on direct + site establishment) *)
  let subtotalForMargin := directWorksTotal + siteEstCost in
  let contractorMargin :=
    subtotalForMargin * (contractorMarginPercent indirectRates / 100) in
  let items := push items
    (LineItemCost.mk ContractorMargin [Lit "Contractor margin"]
       (contractorMarginPercent indirectRates) "% of subtotal"
       (subtotalForMargin / 100) contractorMargin DecommissioningDemolition) in
  (* Subtotal for contingency/risk *)
  let subtotalForContingency := directWorksTotal + siteEstCost + contractorMargin in
  (* Base contingency *)
  let contingency := subtotalForContingency * (contingencyPercent indirectRates / 100) in
  let items := push items
    (LineItemCost.mk Contingency [Lit "Base contingency"]
       (contingencyPercent indirectRates) "% of subtotal"
       (subtotalForContingency / 100) contingency PlanningApprovals) in
  (* Risk uplift *)
  let riskUplift := subtotalForContingency * (riskUpliftPercent derived / 100) in
  let items := push items
    (LineItemCost.mk RiskUplift
       [Lit "Risk-based uplift (score: "; Num (riskScore derived); Lit ")"]
       (riskUpliftPercent derived) "% of subtotal"
       (subtotalForContingency / 100) riskUplift PlanningApprovals) in
  (* Owner's costs *)
  let totalBeforeOwners :=
    directWorksTotal + siteEstCost + contractorMargin + contingency + riskUplift in
  let ownersCosts := totalBeforeOwners * (ownersCostsPercent indirectRates / 100) in
  let items := push items
    (LineItemCost.mk OwnersCosts [Lit "Owner's costs and overheads"]
       (ownersCostsPercent indirectRates) "% of total"
       (totalBeforeOwners / 100) ownersCosts PlanningApprovals) in
  items.

(** ** Scheduling and cashflow *)

Definition calculateTotalDuration (phaseDurations : PhaseDurations) : Z :=
  let planningYears := durationOf phaseDurations PlanningApprovals in
  let decommYears := durationOf phaseDurations DecommissioningDemolition in
  let earthworksYears := durationOf phaseDurations EarthworksLandform in
  let tsfWrdYears := durationOf phaseDurations TailingsWRDRehabilitation in
  let waterYears := durationOf phaseDurations WaterManagement in
  let revegYears := durationOf phaseDurations RevegetationEcosystem in
  let monitoringYears := durationOf phaseDurations MonitoringMaintenance in
  let relinquishmentYears := durationOf phaseDurations RelinquishmentPostClosure in
  let activeWorks :=
    (planningYears + decommYears + Z.max earthworksYears tsfWrdYears + revegYears)%Z in
  let waterMonitoring := Z.max waterYears monitoringYears in
  (activeWorks + waterMonitoring + relinquishmentYears)%Z.

Definition getPhaseStartYear (phase : ClosurePhase) (durations : PhaseDurations) : Z :=
  let d := durationOf durations in
  match phase with
  | PlanningApprovals => 0
  | DecommissioningDemolition => d PlanningApprovals
  | EarthworksLandform => d PlanningApprovals + d DecommissioningDemolition
  | TailingsWRDRehabilitation => d PlanningApprovals + d DecommissioningDemolition
  | WaterManagement => d PlanningApprovals + d DecommissioningDemolition
  | RevegetationEcosystem =>
      d PlanningApprovals + d DecommissioningDemolition +
      Z.max (d EarthworksLandform) (d TailingsWRDRehabilitation)
  | MonitoringMaintenance =>
      d PlanningApprovals + d DecommissioningDemolition +
      Z.max (d EarthworksLandform) (d TailingsWRDRehabilitation) +
      d RevegetationEcosystem
  | RelinquishmentPostClosure =>
      d PlanningApprovals + d DecommissioningDemolition +
      Z.max (d EarthworksLandform) (d TailingsWRDRehabilitation) +
      d RevegetationEcosystem +
      Z.max (d WaterManagement) (d MonitoringMaintenance)
  end%Z.

(** The all-zero per-phase record every year starts from. *)
Definition zeroPhaseBreakdown : PhaseRecord :=
  {| pr_planning := 0; pr_decomm := 0; pr_earthworks := 0; pr_tsfWrd := 0;
     pr_water := 0; pr_reveg := 0; pr_monitoring := 0; pr_relinquishment := 0 |}.

(** [yearlyPhaseBreakdown[year][phase] += amount] *)
Definition addToYear (yearly : list PhaseRecord) (year : Z) (phase : ClosurePhase)
    (amount : Q) : list PhaseRecord :=
  arr_update yearly year (fun r => pr_set r phase (pr_get r phase + amount)).

(** Whether [yearlyPhaseBreakdown[year]] is defined. *)
Definition hasYear (yearly : list PhaseRecord) (year : Z) : bool :=
  match arr_get yearly year with Some _ => true | None => false end.

(** The body of the loop that distributes one line item. *)
Definition distributeItem (phaseDurations : PhaseDurations) (totalDuration : Z)
    (yearly : list PhaseRecord) (item : LineItemCost.t) : list PhaseRecord :=
  let phaseStart := getPhaseStartYear (LineItemCost.phase item) phaseDurations in
  let phaseDuration := durationOf phaseDurations (LineItemCost.phase item) in
  if (phaseDuration >? 0)%Z then
    let annualCost := LineItemCost.subtotal item / inject_Z phaseDuration in
    fold_left
      (fun yearly y =>
         let year := (phaseStart + y)%Z in
         if (year <=? totalDuration)%Z && hasYear yearly year
         then addToYear yearly year (LineItemCost.phase item) annualCost
         else yearly)
      (Zrange phaseDuration) yearly
  else if hasYear yearly phaseStart then
    addToYear yearly phaseStart (LineItemCost.phase item) (LineItemCost.subtotal item)
  else yearly.

(** The sum over [CLOSURE_PHASES] of one year's record. *)
Definition yearNominalCost (phaseBreakdown : PhaseRecord) : Q :=
  fold_left (fun nominalCost phase => nominalCost + pr_get phaseBreakdown phase)
    CLOSURE_PHASES 0.

(** The loop state while the cashflow entries are built. *)
Record CashflowAcc : Type := {
  acc_cumulativeNominal : Q;
  acc_cumulativeDiscounted : Q;
  acc_cashflows : list AnnualCashflow.t
}.

(** One [phaseBreakdown] object, all zero, per year [0..totalDuration]. *)
Definition initYearlyPhaseBreakdown (totalDuration : Z) : list PhaseRecord :=
  map (fun _ => zeroPhaseBreakdown) (Zrange (totalDuration + 1)).

(** The loop over the line items. *)
Definition distributeLineItems (phaseDurations : PhaseDurations) (totalDuration : Z)
    (lineItems : list LineItemCost.t) (yearly : list PhaseRecord) : list PhaseRecord :=
  fold_left (distributeItem phaseDurations totalDuration) lineItems yearly.

(** The body of the loop that builds the cashflow entry of year [i]. *)
Definition cashflowStep (closureStartYear : Z)
    (escalationRate effectiveDiscountRate : Q)
    (yearlyPhaseBreakdown : list PhaseRecord) (acc : CashflowAcc) (i : Z)
    : CashflowAcc :=
  match arr_get yearlyPhaseBreakdown i with
  | None => acc
  | Some phaseBreakdown =>
      let nominalCost := yearNominalCost phaseBreakdown in
      let escalatedCost := nominalCost * Math_pow (1 + escalationRate) i in
      let discountedCost := escalatedCost / Math_pow (1 + effectiveDiscountRate) i in
      let cumulativeNominal := acc_cumulativeNominal acc + nominalCost in
      let cumulativeDiscounted := acc_cumulativeDiscounted acc + discountedCost in
      {| acc_cumulativeNominal := cumulativeNominal;
         acc_cumulativeDiscounted := cumulativeDiscounted;
         acc_cashflows :=
           push (acc_cashflows acc)
             (AnnualCashflow.mk (closureStartYear + i)%Z
                nominalCost escalatedCost discountedCost
                cumulativeNominal cumulativeDiscounted phaseBreakdown) |}
  end.

Definition calculateAnnualCashflows (lineItems : list LineItemCost.t)
    (inputs : InputState) : list AnnualCashflow.t :=
  let financialParams := financialParams inputs in
  let phaseDurations := phaseDurations inputs in
  let totalDuration := calculateTotalDuration phaseDurations in
  (* initialize cashflows for each year *)
  let yearlyPhaseBreakdown := initYearlyPhaseBreakdown totalDuration in
  (* distribute each line item across its phase duration *)
  let yearlyPhaseBreakdown :=
    distributeLineItems phaseDurations totalDuration lineItems yearlyPhaseBreakdown in
  (* build cashflow entries with escalation and discounting *)
  let escalationRate := escalationRatePercent financialParams / 100 in
  let discountRate := discountRatePercent financialParams / 100 in
  let effectiveDiscountRate :=
    if DiscountRateMode_eqb (discountRateMode financialParams) nominal
    then discountRate
    else discountRate in
  let final :=
    fold_left
      (cashflowStep (closureStartYear financialParams) escalationRate
         effectiveDiscountRate yearlyPhaseBreakdown)
      (Zrange (totalDuration + 1))
      {| acc_cumulativeNominal := 0; acc_cumulativeDiscounted := 0;
         acc_cashflows := [] |} in
  acc_cashflows final.

(** ** Breakdown summaries *)

Definition calculatePhaseBreakdown (lineItems : list LineItemCost.t) (totalCost : Q)
    : list PhaseCostSummary.t :=
  let phaseTotals : list (ClosurePhase * Q) :=
    fold_left (fun m phase => map_set ClosurePhase_eqb m phase 0) CLOSURE_PHASES [] in
  let phaseTotals :=
    fold_left
      (fun m item =>
         let current := orElse (map_get ClosurePhase_eqb m (LineItemCost.phase item)) 0 in
         map_set ClosurePhase_eqb m (LineItemCost.phase item)
           (current + LineItemCost.subtotal item))
      lineItems phaseTotals in
  map (fun phase =>
         PhaseCostSummary.mk phase
           (orElse (map_get ClosurePhase_eqb phaseTotals phase) 0)
           (if Qgtb totalCost 0
            then (orElse (map_get ClosurePhase_eqb phaseTotals phase) 0 / totalCost) * 100
            else 0))
    CLOSURE_PHASES.

Definition calculateCategoryBreakdown (lineItems : list LineItemCost.t) (totalCost : Q)
    : list CategoryCostSummary.t :=
  let categoryTotals : list (CostCategory * Q) :=
    fold_left
      (fun m item =>
         let current :=
           orElse (map_get CostCategory_eqb m (LineItemCost.category item)) 0 in
         map_set CostCategory_eqb m (LineItemCost.category item)
           (current + LineItemCost.subtotal item))
      lineItems [] in
  let summaries : list CategoryCostSummary.t :=
    fold_left
      (fun summaries entry =>
         let '(category, cost) := entry in
         if Qgtb cost 0 then
           push summaries
             (CategoryCostSummary.mk category cost
                (if Qgtb totalCost 0 then (cost / totalCost) * 100 else 0))
         else summaries)
      categoryTotals [] in
  array_sort
    (fun a b => CategoryCostSummary.totalCost b - CategoryCostSummary.totalCost a)
    summaries.

(** ** Sensitivity analysis *)

(** Object spreads [{ ...i, field: v }], one per field the engine replaces. *)
Definition with_quantities (i : InputState) (v : DirectWorksQuantities) : InputState :=
  {| quantities := v; unitRates := unitRates i; indirectRates := indirectRates i;
     riskFactors := riskFactors i; financialParams := financialParams i;
     phaseDurations := phaseDurations i; scenarioName := scenarioName i |}.

Definition with_unitRates (i : InputState) (v : UnitRates) : InputState :=
  {| quantities := quantities i; unitRates := v; indirectRates := indirectRates i;
     riskFactors := riskFactors i; financialParams := financialParams i;
     phaseDurations := phaseDurations i; scenarioName := scenarioName i |}.

Definition with_indirectRates (i : InputState) (v : IndirectCostRates) : InputState :=
  {| quantities := quantities i; unitRates := unitRates i; indirectRates := v;
     riskFactors := riskFactors i; financialParams := financialParams i;
     phaseDurations := phaseDurations i; scenarioName := scenarioName i |}.

Definition with_financialParams (i : InputState) (v : FinancialParams) : InputState :=
  {| quantities := quantities i; unitRates := unitRates i;
     indirectRates := indirectRates i; riskFactors := riskFactors i;
     financialParams := v; phaseDurations := phaseDurations i;
     scenarioName := scenarioName i |}.

Definition with_disturbedAreaHa (q : DirectWorksQuantities) (v : Q)
    : DirectWorksQuantities :=
  {| disturbedAreaHa := v; tsfAreaHa := tsfAreaHa q;
     tsfCoverThicknessM := tsfCoverThicknessM q; wrdFootprintHa := wrdFootprintHa q;
     wrdReshapingDepthM := wrdReshapingDepthM q;
     earthworksVolumeM3Override := earthworksVolumeM3Override q;
     topsoilThicknessM := topsoilThicknessM q;
     recontouringAreaHa := recontouringAreaHa q; roadLengthKm := roadLengthKm q;
     numberOfBuildings := numberOfBuildings q;
     waterTreatmentFlowMLPerDay := waterTreatmentFlowMLPerDay q;
     waterTreatmentDurationYears := waterTreatmentDurationYears q;
     waterTreatmentIntensityFactor := waterTreatmentIntensityFactor q;
     monitoringDurationYears := monitoringDurationYears q;
     monitoringIntensity := monitoringIntensity q;
     hazardousMaterialsEnabled := hazardousMaterialsEnabled q;
     hazardousMaterialsAreaHa := hazardousMaterialsAreaHa q;
     communityHeritageEnabled := communityHeritageEnabled q |}.

Definition with_tsfAreaHa (q : DirectWorksQuantities) (v : Q) : DirectWorksQuantities :=
  {| disturbedAreaHa := disturbedAreaHa q; tsfAreaHa := v;
     tsfCoverThicknessM := tsfCoverThicknessM q; wrdFootprintHa := wrdFootprintHa q;
     wrdReshapingDepthM := wrdReshapingDepthM q;
     earthworksVolumeM3Override := earthworksVolumeM3Override q;
     topsoilThicknessM := topsoilThicknessM q;
     recontouringAreaHa := recontouringAreaHa q; roadLengthKm := roadLengthKm q;
     numberOfBuildings := numberOfBuildings q;
     waterTreatmentFlowMLPerDay := waterTreatmentFlowMLPerDay q;
     waterTreatmentDurationYears := waterTreatmentDurationYears q;
     waterTreatmentIntensityFactor := waterTreatmentIntensityFactor q;
     monitoringDurationYears := monitoringDurationYears q;
     monitoringIntensity := monitoringIntensity q;
     hazardousMaterialsEnabled := hazardousMaterialsEnabled q;
     hazardousMaterialsAreaHa := hazardousMaterialsAreaHa q;
     communityHeritageEnabled := communityHeritageEnabled q |}.

Definition with_tsfCoverThicknessM (q : DirectWorksQuantities) (v : Q)
    : DirectWorksQuantities :=
  {| disturbedAreaHa := disturbedAreaHa q; tsfAreaHa := tsfAreaHa q;
     tsfCoverThicknessM := v; wrdFootprintHa := wrdFootprintHa q;
     wrdReshapingDepthM := wrdReshapingDepthM q;
     earthworksVolumeM3Override := earthworksVolumeM3Override q;
     topsoilThicknessM := topsoilThicknessM q;
     recontouringAreaHa := recontouringAreaHa q; roadLengthKm := roadLengthKm q;
     numberOfBuildings := numberOfBuildings q;
     waterTreatmentFlowMLPerDay := waterTreatmentFlowMLPerDay q;
     waterTreatmentDurationYears := waterTreatmentDurationYears q;
     waterTreatmentIntensityFactor := waterTreatmentIntensityFactor q;
     monitoringDurationYears := monitoringDurationYears q;
     monitoringIntensity := monitoringIntensity q;
     hazardousMaterialsEnabled := hazardousMaterialsEnabled q;
     hazardousMaterialsAreaHa := hazardousMaterialsAreaHa q;
     communityHeritageEnabled := communityHeritageEnabled q |}.

Definition with_waterTreatmentDurationYears (q : DirectWorksQuantities) (v : Q)
    : DirectWorksQuantities :=
  {| disturbedAreaHa := disturbedAreaHa q; tsfAreaHa := tsfAreaHa q;
     tsfCoverThicknessM := tsfCoverThicknessM q; wrdFootprintHa := wrdFootprintHa q;
     wrdReshapingDepthM := wrdReshapingDepthM q;
     earthworksVolumeM3Override := earthworksVolumeM3Override q;
     topsoilThicknessM := topsoilThicknessM q;
     recontouringAreaHa := recontouringAreaHa q; roadLengthKm := roadLengthKm q;
     numberOfBuildings := numberOfBuildings q;
     waterTreatmentFlowMLPerDay := waterTreatmentFlowMLPerDay q;
     waterTreatmentDurationYears := v;
     waterTreatmentIntensityFactor := waterTreatmentIntensityFactor q;
     monitoringDurationYears := monitoringDurationYears q;
     monitoringIntensity := monitoringIntensity q;
     hazardousMaterialsEnabled := hazardousMaterialsEnabled q;
     hazardousMaterialsAreaHa := hazardousMaterialsAreaHa q;
     communityHeritageEnabled := communityHeritageEnabled q |}.

Definition with_earthworksPerM3 (u : UnitRates) (v : Q) : UnitRates :=
  {| earthworksPerM3 := v; cappingBasePerM2 := cappingBasePerM2 u;
     cappingThicknessFactor := cappingThicknessFactor u; topsoilPerM3 := topsoilPerM3 u;
     revegetationPerHa := revegetationPerHa u;
     revegetationComplexityFactor := revegetationComplexityFactor u;
     demolitionPerBuilding := demolitionPerBuilding u;
     roadRehabPerKm := roadRehabPerKm u; waterTreatmentCapex := waterTreatmentCapex u;
     waterTreatmentOpexPerML := waterTreatmentOpexPerML u;
     monitoringPerYearLow := monitoringPerYearLow u;
     monitoringPerYearMedium := monitoringPerYearMedium u;
     monitoringPerYearHigh := monitoringPerYearHigh u;
     hazardousMaterialsPerHa := hazardousMaterialsPerHa u;
     communityHeritageLumpSum := communityHeritageLumpSum u;
     bulkingFactor := bulkingFactor u; erosionControlsPerHa := erosionControlsPerHa u;
     mobilisationLumpSum := mobilisationLumpSum u |}.

Definition with_revegetationPerHa (u : UnitRates) (v : Q) : UnitRates :=
  {| earthworksPerM3 := earthworksPerM3 u; cappingBasePerM2 := cappingBasePerM2 u;
     cappingThicknessFactor := cappingThicknessFactor u; topsoilPerM3 := topsoilPerM3 u;
     revegetationPerHa := v;
     revegetationComplexityFactor := revegetationComplexityFactor u;
     demolitionPerBuilding := demolitionPerBuilding u;
     roadRehabPerKm := roadRehabPerKm u; waterTreatmentCapex := waterTreatmentCapex u;
     waterTreatmentOpexPerML := waterTreatmentOpexPerML u;
     monitoringPerYearLow := monitoringPerYearLow u;
     monitoringPerYearMedium := monitoringPerYearMedium u;
     monitoringPerYearHigh := monitoringPerYearHigh u;
     hazardousMaterialsPerHa := hazardousMaterialsPerHa u;
     communityHeritageLumpSum := communityHeritageLumpSum u;
     bulkingFactor := bulkingFactor u; erosionControlsPerHa := erosionControlsPerHa u;
     mobilisationLumpSum := mobilisationLumpSum u |}.

Definition with_contingencyPercent (r : IndirectCostRates) (v : Q) : IndirectCostRates :=
  {| siteEstablishmentPercent := siteEstablishmentPercent r;
     contractorMarginPercent := contractorMarginPercent r;
     contingencyPercent := v;
     ownersCostsPercent := ownersCostsPercent r |}.

Definition with_discountRatePercent (f : FinancialParams) (v : Q) : FinancialParams :=
  {| closureStartYear := closureStartYear f;
     escalationRatePercent := escalationRatePercent f;
     discountRatePercent := v;
     discountRateMode := discountRateMode f |}.

Definition with_discountRateMode (f : FinancialParams) (v : DiscountRateMode)
    : FinancialParams :=
  {| closureStartYear := closureStartYear f;
     escalationRatePercent := escalationRatePercent f;
     discountRatePercent := discountRatePercent f;
     discountRateMode := v |}.

Module SensitivityDriver.
Record t : Type := mk {
  name : string;
  key : string;
  getValue : InputState -> Q;
  setValue : InputState -> Q -> InputState;
  unit : string
}.
End SensitivityDriver.

Definition SENSITIVITY_DRIVERS : list SensitivityDriver.t :=
  [ SensitivityDriver.mk "Disturbed Area" "disturbedArea"
      (fun i => disturbedAreaHa (quantities i))
      (fun i v => with_quantities i (with_disturbedAreaHa (quantities i) v))
      "ha";
    SensitivityDriver.mk "Earthworks Rate" "earthworksRate"
      (fun i => earthworksPerM3 (unitRates i))
      (fun i v => with_unitRates i (with_earthworksPerM3 (unitRates i) v))
      "$/m³";
    SensitivityDriver.mk "TSF Area" "tsfArea"
      (fun i => tsfAreaHa (quantities i))
      (fun i v => with_quantities i (with_tsfAreaHa (quantities i) v))
      "ha";
    SensitivityDriver.mk "TSF Cover Thickness" "tsfThickness"
      (fun i => tsfCoverThicknessM (quantities i))
      (fun i v => with_quantities i (with_tsfCoverThicknessM (quantities i) v))
      "m";
    SensitivityDriver.mk "Water Treatment Duration" "waterDuration"
      (fun i => waterTreatmentDurationYears (quantities i))
      (fun i v => with_quantities i (with_waterTreatmentDurationYears (quantities i) v))
      "years";
    SensitivityDriver.mk "Contingency %" "contingency"
      (fun i => contingencyPercent (indirectRates i))
      (fun i v => with_indirectRates i (with_contingencyPercent (indirectRates i) v))
      "%";
    SensitivityDriver.mk "Discount Rate" "discountRate"
      (fun i => discountRatePercent (financialParams i))
      (fun i v => with_financialParams i (with_discountRatePercent (financialParams i) v))
      "%";
    SensitivityDriver.mk "Revegetation Rate" "revegRate"
      (fun i => revegetationPerHa (unitRates i))
      (fun i v => with_unitRates i (with_revegetationPerHa (unitRates i) v))
      "$/ha" ].

(** [items.reduce((sum, item) => sum + item.subtotal, 0)] *)
Definition sumSubtotals (items : list LineItemCost.t) : Q :=
  fold_left (fun sum item => sum + LineItemCost.subtotal item) items 0.

(** [arr[arr.length - 1]?.cumulativeDiscounted ?? 0] *)
Definition lastCumulativeDiscounted (cashflows : list AnnualCashflow.t) : Q :=
  orElse
    (option_map AnnualCashflow.cumulativeDiscounted
       (arr_get cashflows (Z.of_nat (List.length cashflows) - 1)))
    0.

(** The object [{ total, npv }] the simplified pipeline returns. *)
Record SensitivityTotals : Type := { total : Q; npv : Q }.

Definition calculateTotalForSensitivity (inputs : InputState) : SensitivityTotals :=
  let derived := calculateDerivedQuantities inputs in
  let directItems := calculateDirectWorksCosts inputs derived in
  let directTotal := sumSubtotals directItems in
  let indirectItems := calculateIndirectCosts directTotal inputs derived in
  let allItems := directItems ++ indirectItems in
  let total := sumSubtotals allItems in
  let cashflows := calculateAnnualCashflows allItems inputs in
  let npv :=
    if (Z.of_nat (List.length cashflows) >? 0)%Z
    then lastCumulativeDiscounted cashflows
    else 0 in
  {| total := total; npv := npv |}.

(** The result pushed for a driver whose base value is not zero. *)
Definition perturbDriver (inputs : InputState) (variationPercent : Q)
    (driver : SensitivityDriver.t) (baseValue : Q) : SensitivityResult.t :=
  let lowValue := baseValue * (1 - variationPercent / 100) in
  let highValue := baseValue * (1 + variationPercent / 100) in
  let lowInputs := SensitivityDriver.setValue driver inputs lowValue in
  let highInputs := SensitivityDriver.setValue driver inputs highValue in
  let lowResults := calculateTotalForSensitivity lowInputs in
  let highResults := calculateTotalForSensitivity highInputs in
  SensitivityResult.mk
    (SensitivityDriver.name driver)
    (SensitivityDriver.key driver)
    baseValue
    (SensitivityDriver.unit driver)
    lowValue
    highValue
    (total lowResults)
    (total highResults)
    (npv lowResults)
    (npv highResults)
    (total highResults - total lowResults)
    (npv highResults - npv lowResults).

(** The body of the loop over the drivers. *)
Definition sensitivityStep (inputs : InputState) (variationPercent : Q)
    (results : list SensitivityResult.t) (driver : SensitivityDriver.t)
    : list SensitivityResult.t :=
  let baseValue := SensitivityDriver.getValue driver inputs in
  (* skip if base value is zero *)
  if Qeqb baseValue 0 then results
  else push results (perturbDriver inputs variationPercent driver baseValue).

(** The base-case totals that the source computes first and discards play
    no part in the result. *)
Definition calculateSensitivity (inputs : InputState) (variationPercent : Q)
    : list SensitivityResult.t :=
  let results := fold_left (sensitivityStep inputs variationPercent)
                   SENSITIVITY_DRIVERS [] in
  array_sort
    (fun a b => Math_abs (SensitivityResult.deltaCost b) -
                Math_abs (SensitivityResult.deltaCost a))
    results.

(** The default of the [variationPercent] parameter. *)
Definition defaultVariationPercent : Q := 10.

(** ** Main entry point *)

(** The loop that finds the peak cashflow: (peak value, peak year). *)
Definition findPeak (startYear : Z) (cashflows : list AnnualCashflow.t) : Q * Z :=
  fold_left
    (fun peak cf =>
       if Qgtb (AnnualCashflow.nominalCost cf) (fst peak)
       then (AnnualCashflow.nominalCost cf, AnnualCashflow.year cf)
       else peak)
    cashflows (0, startYear).

Definition calculateClosureCosts (inputs : InputState) : Results :=
  let derivedQuantities := calculateDerivedQuantities inputs in
  let directItems := calculateDirectWorksCosts inputs derivedQuantities in
  let directWorksCost := sumSubtotals directItems in
  let indirectItems := calculateIndirectCosts directWorksCost inputs derivedQuantities in
  let indirectCosts := sumSubtotals indirectItems in
  let lineItems := directItems ++ indirectItems in
  let totalNominalCost := directWorksCost + indirectCosts in
  let annualCashflows := calculateAnnualCashflows lineItems inputs in
  let totalDiscountedCost := lastCumulativeDiscounted annualCashflows in
  let peak := findPeak (closureStartYear (financialParams inputs)) annualCashflows in
  let phaseBreakdown := calculatePhaseBreakdown lineItems totalNominalCost in
  let categoryBreakdown := calculateCategoryBreakdown lineItems totalNominalCost in
  let sensitivityResults := calculateSensitivity inputs defaultVariationPercent in
  let monitoringCost :=
    sumSubtotals
      (filter (fun item => CostCategory_eqb (LineItemCost.category item) Monitoring)
         lineItems) in
  let monitoringCostShare :=
    if Qgtb totalNominalCost 0 then (monitoringCost / totalNominalCost) * 100 else 0 in
  let totalDurationYears := calculateTotalDuration (phaseDurations inputs) in
  {| derivedQuantities := derivedQuantities;
     lineItems := lineItems;
     directWorksCost := directWorksCost;
     indirectCosts := indirectCosts;
     totalNominalCost := totalNominalCost;
     totalDiscountedCost := totalDiscountedCost;
     peakAnnualCashflow := fst peak;
     peakCashflowYear := snd peak;
     annualCashflows := annualCashflows;
     phaseBreakdown := phaseBreakdown;
     categoryBreakdown := categoryBreakdown;
     sensitivityResults := sensitivityResults;
     monitoringCostShare := monitoringCostShare;
     totalDurationYears := totalDurationYears |}.

(** ** Validation schema (validation.ts) *)

(** [z.number().min(lo).max(hi)] *)
Definition inRange (lo hi x : Q) : bool := Qle_bool lo x && Qle_bool x hi.

(** [positiveNumber.max(hi)]: non-negative and at most [hi]. *)
Definition positiveNumberMax (hi x : Q) : bool := inRange 0 hi x.

(** [z.number().int()] *)
Definition isInt (x : Q) : bool := Qeq_bool x (inject_Z (Qfloor x)).

(** [z.number().int().min(lo).max(hi)] on an integer field. *)
Definition intRange (lo hi x : Z) : bool := ((lo <=? x) && (x <=? hi))%Z.

Definition percentage (x : Q) : bool := inRange 0 100 x.

Definition riskFactor (x : Q) : bool := inRange 0 100 x.

Definition DirectWorksQuantitiesSchema (q : DirectWorksQuantities) : bool :=
  positiveNumberMax 100000 (disturbedAreaHa q) &&
  positiveNumberMax 10000 (tsfAreaHa q) &&
  positiveNumberMax 5 (tsfCoverThicknessM q) &&
  positiveNumberMax 50000 (wrdFootprintHa q) &&
  positiveNumberMax 20 (wrdReshapingDepthM q) &&
  positiveNumberMax 2 (topsoilThicknessM q) &&
  positiveNumberMax 100000 (recontouringAreaHa q) &&
  positiveNumberMax 500 (roadLengthKm q) &&
  (isInt (numberOfBuildings q) && inRange 0 500 (numberOfBuildings q)) &&
  positiveNumberMax 100 (waterTreatmentFlowMLPerDay q) &&
  positiveNumberMax 100 (waterTreatmentDurationYears q) &&
  inRange 0.5 3 (waterTreatmentIntensityFactor q) &&
  (isInt (monitoringDurationYears q) && inRange 1 100 (monitoringDurationYears q)) &&
  positiveNumberMax 1000 (hazardousMaterialsAreaHa q).

Definition UnitRatesSchema (u : UnitRates) : bool :=
  positiveNumberMax 100 (earthworksPerM3 u) &&
  positiveNumberMax 500 (cappingBasePerM2 u) &&
  inRange 0.5 3 (cappingThicknessFactor u) &&
  positiveNumberMax 100 (topsoilPerM3 u) &&
  positiveNumberMax 100000 (revegetationPerHa u) &&
  inRange 0.5 3 (revegetationComplexityFactor u) &&
  positiveNumberMax 5000000 (demolitionPerBuilding u) &&
  positiveNumberMax 1000000 (roadRehabPerKm u) &&
  positiveNumberMax 500000000 (waterTreatmentCapex u) &&
  positiveNumberMax 10000 (waterTreatmentOpexPerML u) &&
  positiveNumberMax 5000000 (monitoringPerYearLow u) &&
  positiveNumberMax 10000000 (monitoringPerYearMedium u) &&
  positiveNumberMax 20000000 (monitoringPerYearHigh u) &&
  positiveNumberMax 1000000 (hazardousMaterialsPerHa u) &&
  positiveNumberMax 50000000 (communityHeritageLumpSum u) &&
  inRange 1 2 (bulkingFactor u) &&
  positiveNumberMax 50000 (erosionControlsPerHa u) &&
  positiveNumberMax 50000000 (mobilisationLumpSum u).

Definition IndirectCostRatesSchema (r : IndirectCostRates) : bool :=
  percentage (siteEstablishmentPercent r) &&
  percentage (contractorMarginPercent r) &&
  percentage (contingencyPercent r) &&
  percentage (ownersCostsPercent r).

Definition RiskFactorsSchema (f : RiskFactors) : bool :=
  riskFactor (contaminationUncertainty f) &&
  riskFactor (geotechUncertainty f) &&
  riskFactor (waterQualityUncertainty f) &&
  riskFactor (regulatoryUncertainty f) &&
  riskFactor (logisticsComplexity f).

Definition FinancialParamsSchema (f : FinancialParams) : bool :=
  intRange 2020 2100 (closureStartYear f) &&
  inRange 0 20 (escalationRatePercent f) &&
  inRange 0 30 (discountRatePercent f).

Definition PhaseDurationsSchema (d : PhaseDurations) : bool :=
  intRange 0 10 (durationOf d PlanningApprovals) &&
  intRange 0 10 (durationOf d DecommissioningDemolition) &&
  intRange 0 20 (durationOf d EarthworksLandform) &&
  intRange 0 20 (durationOf d TailingsWRDRehabilitation) &&
  intRange 0 50 (durationOf d WaterManagement) &&
  intRange 0 20 (durationOf d RevegetationEcosystem) &&
  intRange 0 100 (durationOf d MonitoringMaintenance) &&
  intRange 0 10 (durationOf d RelinquishmentPostClosure).

Definition InputStateSchema (i : InputState) : bool :=
  DirectWorksQuantitiesSchema (quantities i) &&
  UnitRatesSchema (unitRates i) &&
  IndirectCostRatesSchema (indirectRates i) &&
  RiskFactorsSchema (riskFactors i) &&
  FinancialParamsSchema (financialParams i) &&
  PhaseDurationsSchema (phaseDurations i) &&
  ((1 <=? String.length (scenarioName i)) && (String.length (scenarioName i) <=? 100))%nat.

(** A valid input state: one the schema accepts. *)
Definition validInputState (i : InputState) : Prop := InputStateSchema i = true.

(** ** Defaults (defaults.ts) *)

Definition DEFAULT_QUANTITIES : DirectWorksQuantities :=
  {| disturbedAreaHa := 500;
     tsfAreaHa := 100;
     tsfCoverThicknessM := 0.5;
     wrdFootprintHa := 200;
     wrdReshapingDepthM := 1.0;
     earthworksVolumeM3Override := None;
     topsoilThicknessM := 0.15;
     recontouringAreaHa := 300;
     roadLengthKm := 20;
     numberOfBuildings := 15;
     waterTreatmentFlowMLPerDay := 2;
     waterTreatmentDurationYears := 10;
     waterTreatmentIntensityFactor := 1.0;
     monitoringDurationYears := 15;
     monitoringIntensity := medium;
     hazardousMaterialsEnabled := false;
     hazardousMaterialsAreaHa := 0;
     communityHeritageEnabled := true |}.

Definition DEFAULT_UNIT_RATES : UnitRates :=
  {| earthworksPerM3 := 8;
     cappingBasePerM2 := 25;
     cappingThicknessFactor := 1.5;
     topsoilPerM3 := 15;
     revegetationPerHa := 8000;
     revegetationComplexityFactor := 1.0;
     demolitionPerBuilding := 150000;
     roadRehabPerKm := 50000;
     waterTreatmentCapex := 5000000;
     waterTreatmentOpexPerML := 500;
     monitoringPerYearLow := 200000;
     monitoringPerYearMedium := 500000;
     monitoringPerYearHigh := 1000000;
     hazardousMaterialsPerHa := 100000;
     communityHeritageLumpSum := 500000;
     bulkingFactor := 1.2;
     erosionControlsPerHa := 3000;
     mobilisationLumpSum := 2000000 |}.

Definition DEFAULT_INDIRECT_RATES : IndirectCostRates :=
  {| siteEstablishmentPercent := 12;
     contractorMarginPercent := 10;
     contingencyPercent := 15;
     ownersCostsPercent := 5 |}.

Definition DEFAULT_RISK_FACTORS : RiskFactors :=
  {| contaminationUncertainty := 30;
     geotechUncertainty := 25;
     waterQualityUncertainty := 35;
     regulatoryUncertainty := 20;
     logisticsComplexity := 25 |}.

Definition DEFAULT_FINANCIAL_PARAMS : FinancialParams :=
  {| closureStartYear := 2026;
     escalationRatePercent := 3.0;
     discountRatePercent := 7.0;
     discountRateMode := real |}.

Definition DEFAULT_PHASE_DURATIONS : PhaseDurations :=
  {| planningYears := 2;
     decommYears := 2;
     earthworksYears := 3;
     tsfWrdYears := 3;
     waterYears := 10;
     revegYears := 3;
     monitoringYears := 15;
     relinquishmentYears := 2 |}.

Definition DEFAULT_INPUT_STATE : InputState :=
  {| quantities := DEFAULT_QUANTITIES;
     unitRates := DEFAULT_UNIT_RATES;
     indirectRates := DEFAULT_INDIRECT_RATES;
     riskFactors := DEFAULT_RISK_FACTORS;
     financialParams := DEFAULT_FINANCIAL_PARAMS;
     phaseDurations := DEFAULT_PHASE_DURATIONS;
     scenarioName := "Default Scenario" |}.

(** ** Notions used to state the properties *)

(** The input with its discount-rate mode replaced. *)
Definition setDiscountRateMode (i : InputState) (m : DiscountRateMode) : InputState :=
  with_financialParams i (with_discountRateMode (financialParams i) m).


(** The sum of a list of amounts. *)
Definition sumQ (l : list Q) : Q := fold_right Qplus 0 l.


(** The nominal cost of each year [0..totalDuration] once the line items
    are distributed. *)
Definition yearlyNominalCosts (lineItems : list LineItemCost.t)
    (phaseDurations : PhaseDurations) : list Q :=
  let totalDuration := calculateTotalDuration phaseDurations in
  map yearNominalCost
    (distributeLineItems phaseDurations totalDuration lineItems
       (initYearlyPhaseBreakdown totalDuration)).

(** The discounted value of yearly nominal costs [ns], the first of which
    falls in relative year [i]: each is escalated at rate [e] and then
    discounted at rate [r] over its number of years. *)
Fixpoint discountedSum (e r : Q) (i : Z) (ns : list Q) : Q :=
  match ns with
  | [] => 0
  | n :: t =>
      n * Math_pow (1 + e) i / Math_pow (1 + r) i + discountedSum e r (i + 1) t
  end.

(** Phase durations that are all non-negative, as the schema requires. *)
Definition nonnegDurations (d : PhaseDurations) : Prop :=
  forall phase, (0 <= durationOf d phase)%Z.

(** An amount counted only when its condition holds. *)
Definition gated (cond : bool) (amount : Q) : Q := if cond then amount else 0.

(** The input with its discount rate replaced. *)
Definition setDiscountRatePercent (i : InputState) (v : Q) : InputState :=
  with_financialParams i (with_discountRatePercent (financialParams i) v).

(** The line items of the pipeline: direct works, then indirect costs. *)
Definition pipelineLineItems (inputs : InputState) : list LineItemCost.t :=
  let derived := calculateDerivedQuantities inputs in
  let directItems := calculateDirectWorksCosts inputs derived in
  let directTotal := sumSubtotals directItems in
  let indirectItems := calculateIndirectCosts directTotal inputs derived in
  directItems ++ indirectItems.

(** Inputs whose amounts are non-negative: what the lower bounds of the
    schema give, and all the engine relies on. *)
Record NonnegQuantities (q : DirectWorksQuantities) : Prop := {
  nn_disturbedAreaHa : 0 <= disturbedAreaHa q;
  nn_tsfAreaHa : 0 <= tsfAreaHa q;
  nn_tsfCoverThicknessM : 0 <= tsfCoverThicknessM q;
  nn_wrdFootprintHa : 0 <= wrdFootprintHa q;
  nn_wrdReshapingDepthM : 0 <= wrdReshapingDepthM q;
  nn_topsoilThicknessM : 0 <= topsoilThicknessM q;
  nn_recontouringAreaHa : 0 <= recontouringAreaHa q;
  nn_roadLengthKm : 0 <= roadLengthKm q;
  nn_numberOfBuildings : 0 <= numberOfBuildings q;
  nn_waterTreatmentFlowMLPerDay : 0 <= waterTreatmentFlowMLPerDay q;
  nn_waterTreatmentDurationYears : 0 <= waterTreatmentDurationYears q;
  nn_waterTreatmentIntensityFactor : 0 <= waterTreatmentIntensityFactor q;
  nn_monitoringDurationYears : 0 <= monitoringDurationYears q;
  nn_hazardousMaterialsAreaHa : 0 <= hazardousMaterialsAreaHa q
}.

Record NonnegUnitRates (u : UnitRates) : Prop := {
  nn_earthworksPerM3 : 0 <= earthworksPerM3 u;
  nn_cappingBasePerM2 : 0 <= cappingBasePerM2 u;
  nn_cappingThicknessFactor : 0 <= cappingThicknessFactor u;
  nn_topsoilPerM3 : 0 <= topsoilPerM3 u;
  nn_revegetationPerHa : 0 <= revegetationPerHa u;
  nn_revegetationComplexityFactor : 0 <= revegetationComplexityFactor u;
  nn_demolitionPerBuilding : 0 <= demolitionPerBuilding u;
  nn_roadRehabPerKm : 0 <= roadRehabPerKm u;
  nn_waterTreatmentCapex : 0 <= waterTreatmentCapex u;
  nn_waterTreatmentOpexPerML : 0 <= waterTreatmentOpexPerML u;
  nn_monitoringPerYearLow : 0 <= monitoringPerYearLow u;
  nn_monitoringPerYearMedium : 0 <= monitoringPerYearMedium u;
  nn_monitoringPerYearHigh : 0 <= monitoringPerYearHigh u;
  nn_hazardousMaterialsPerHa : 0 <= hazardousMaterialsPerHa u;
  nn_communityHeritageLumpSum : 0 <= communityHeritageLumpSum u;
  nn_bulkingFactor : 0 <= bulkingFactor u;
  nn_erosionControlsPerHa : 0 <= erosionControlsPerHa u;
  nn_mobilisationLumpSum : 0 <= mobilisationLumpSum u
}.

Record NonnegIndirectRates (r : IndirectCostRates) : Prop := {
  nn_siteEstablishmentPercent : 0 <= siteEstablishmentPercent r;
  nn_contractorMarginPercent : 0 <= contractorMarginPercent r;
  nn_contingencyPercent : 0 <= contingencyPercent r;
  nn_ownersCostsPercent : 0 <= ownersCostsPercent r
}.

Record NonnegRiskFactors (f : RiskFactors) : Prop := {
  nn_contaminationUncertainty : 0 <= contaminationUncertainty f;
  nn_geotechUncertainty : 0 <= geotechUncertainty f;
  nn_waterQualityUncertainty : 0 <= waterQualityUncertainty f;
  nn_regulatoryUncertainty : 0 <= regulatoryUncertainty f;
  nn_logisticsComplexity : 0 <= logisticsComplexity f
}.

Record NonnegInputs (i : InputState) : Prop := {
  nn_quantities : NonnegQuantities (quantities i);
  nn_unitRates : NonnegUnitRates (unitRates i);
  nn_indirectRates : NonnegIndirectRates (indirectRates i);
  nn_riskFactors : NonnegRiskFactors (riskFactors i)
}.

(** The order on inputs in which every amount, rate and percentage of the
    first is at most that of the second, the switches, the volume override
    and the risk factors being the same.  The financial parameters and the
    phase durations are free. *)
Record QuantitiesLe (a b : DirectWorksQuantities) : Prop := {
  le_disturbedAreaHa : disturbedAreaHa a <= disturbedAreaHa b;
  le_tsfAreaHa : tsfAreaHa a <= tsfAreaHa b;
  le_tsfCoverThicknessM : tsfCoverThicknessM a <= tsfCoverThicknessM b;
  le_wrdFootprintHa : wrdFootprintHa a <= wrdFootprintHa b;
  le_wrdReshapingDepthM : wrdReshapingDepthM a <= wrdReshapingDepthM b;
  le_topsoilThicknessM : topsoilThicknessM a <= topsoilThicknessM b;
  le_recontouringAreaHa : recontouringAreaHa a <= recontouringAreaHa b;
  le_roadLengthKm : roadLengthKm a <= roadLengthKm b;
  le_numberOfBuildings : numberOfBuildings a <= numberOfBuildings b;
  le_waterTreatmentFlowMLPerDay : waterTreatmentFlowMLPerDay a <= waterTreatmentFlowMLPerDay b;
  le_waterTreatmentDurationYears : waterTreatmentDurationYears a <= waterTreatmentDurationYears b;
  le_waterTreatmentIntensityFactor : waterTreatmentIntensityFactor a <= waterTreatmentIntensityFactor b;
  le_monitoringDurationYears : monitoringDurationYears a <= monitoringDurationYears b;
  le_hazardousMaterialsAreaHa : hazardousMaterialsAreaHa a <= hazardousMaterialsAreaHa b;
  same_earthworksVolumeM3Override : earthworksVolumeM3Override a = earthworksVolumeM3Override b;
  same_monitoringIntensity : monitoringIntensity a = monitoringIntensity b;
  same_hazardousMaterialsEnabled : hazardousMaterialsEnabled a = hazardousMaterialsEnabled b;
  same_communityHeritageEnabled : communityHeritageEnabled a = communityHeritageEnabled b
}.

Record UnitRatesLe (a b : UnitRates) : Prop := {
  le_earthworksPerM3 : earthworksPerM3 a <= earthworksPerM3 b;
  le_cappingBasePerM2 : cappingBasePerM2 a <= cappingBasePerM2 b;
  le_cappingThicknessFactor : cappingThicknessFactor a <= cappingThicknessFactor b;
  le_topsoilPerM3 : topsoilPerM3 a <= topsoilPerM3 b;
  le_revegetationPerHa : revegetationPerHa a <= revegetationPerHa b;
  le_revegetationComplexityFactor : revegetationComplexityFactor a <= revegetationComplexityFactor b;
  le_demolitionPerBuilding : demolitionPerBuilding a <= demolitionPerBuilding b;
  le_roadRehabPerKm : roadRehabPerKm a <= roadRehabPerKm b;
  le_waterTreatmentCapex : waterTreatmentCapex a <= waterTreatmentCapex b;
  le_waterTreatmentOpexPerML : waterTreatmentOpexPerML a <= waterTreatmentOpexPerML b;
  le_monitoringPerYearLow : monitoringPerYearLow a <= monitoringPerYearLow b;
  le_monitoringPerYearMedium : monitoringPerYearMedium a <= monitoringPerYearMedium b;
  le_monitoringPerYearHigh : monitoringPerYearHigh a <= monitoringPerYearHigh b;
  le_hazardousMaterialsPerHa : hazardousMaterialsPerHa a <= hazardousMaterialsPerHa b;
  le_communityHeritageLumpSum : communityHeritageLumpSum a <= communityHeritageLumpSum b;
  le_bulkingFactor : bulkingFactor a <= bulkingFactor b;
  le_erosionControlsPerHa : erosionControlsPerHa a <= erosionControlsPerHa b;
  le_mobilisationLumpSum : mobilisationLumpSum a <= mobilisationLumpSum b
}.

Record IndirectRatesLe (a b : IndirectCostRates) : Prop := {
  le_siteEstablishmentPercent : siteEstablishmentPercent a <= siteEstablishmentPercent b;
  le_contractorMarginPercent : contractorMarginPercent a <= contractorMarginPercent b;
  le_contingencyPercent : contingencyPercent a <= contingencyPercent b;
  le_ownersCostsPercent : ownersCostsPercent a <= ownersCostsPercent b
}.

Record InputLe (a b : InputState) : Prop := {
  le_quantities : QuantitiesLe (quantities a) (quantities b);
  le_unitRates : UnitRatesLe (unitRates a) (unitRates b);
  le_indirectRates : IndirectRatesLe (indirectRates a) (indirectRates b);
  same_riskFactors : riskFactors a = riskFactors b
}.

(** The sum of the direct works line items of an input. *)
Definition directWorksTotal (inputs : InputState) : Q :=
  sumSubtotals (calculateDirectWorksCosts inputs (calculateDerivedQuantities inputs)).

(** The factor by which the waterfall of indirect costs multiplies the
    direct works total. *)
Definition indirectFactor (r : IndirectCostRates) (riskUpliftPercent : Q) : Q :=
  (1 + siteEstablishmentPercent r / 100) *
  (1 + contractorMarginPercent r / 100) *
  (1 + contingencyPercent r / 100 + riskUpliftPercent / 100) *
  (1 + ownersCostsPercent r / 100).

(** A per-phase record without negative amounts. *)
Definition nonnegRecord (r : PhaseRecord) : Prop :=
  forall phase, 0 <= pr_get r phase.

(** ** Concrete scenarios *)

(** The default scenario on a schedule of one-year phases, with costs
    escalating at 10 percent and discounted at 5 percent. *)
Definition fastEscalationScenario : InputState :=
  {| quantities := DEFAULT_QUANTITIES;
     unitRates := DEFAULT_UNIT_RATES;
     indirectRates := DEFAULT_INDIRECT_RATES;
     riskFactors := DEFAULT_RISK_FACTORS;
     financialParams :=
       {| closureStartYear := 2026;
          escalationRatePercent := 10;
          discountRatePercent := 5;
          discountRateMode := real |};
     phaseDurations :=
       {| planningYears := 1; decommYears := 1; earthworksYears := 1;
          tsfWrdYears := 1; waterYears := 1; revegYears := 1;
          monitoringYears := 1; relinquishmentYears := 1 |};
     scenarioName := "Fast escalation" |}.

(** The default scenario with every phase duration set to zero: the whole
    cost falls in the start year. *)
Definition zeroDurationScenario : InputState :=
  {| quantities := DEFAULT_QUANTITIES;
     unitRates := DEFAULT_UNIT_RATES;
     indirectRates := DEFAULT_INDIRECT_RATES;
     riskFactors := DEFAULT_RISK_FACTORS;
     financialParams := DEFAULT_FINANCIAL_PARAMS;
     phaseDurations :=
       {| planningYears := 0; decommYears := 0; earthworksYears := 0;
          tsfWrdYears := 0; waterYears := 0; revegYears := 0;
          monitoringYears := 0; relinquishmentYears := 0 |};
     scenarioName := "Zero durations" |}.


(** ** Further functions of the repository *)

(** [clamp] (formatting.ts): [Math.min(Math.max(value, min), max)]. *)
Definition clamp (value min max : Q) : Q := Qmin (Qmax value min) max.

(** The spread [{ ...inputs, riskFactors: v }] of the store's reducer. *)
Definition with_riskFactors (i : InputState) (v : RiskFactors) : InputState :=
  {| quantities := quantities i; unitRates := unitRates i;
     indirectRates := indirectRates i; riskFactors := v;
     financialParams := financialParams i; phaseDurations := phaseDurations i;
     scenarioName := scenarioName i |}.

(** ** Scenario presets (presets.ts) *)

Module ScenarioPreset.
Record t : Type := mk {
  id : string;
  name : string;
  description : string;
  inputs : InputState
}.
End ScenarioPreset.

Definition PRESET_SMALL_OPEN_PIT : ScenarioPreset.t :=
  ScenarioPreset.mk
    "small-open-pit"
    "Small Open Pit, Low Water Risk"
    "A smaller open pit operation with limited tailings and minimal water treatment requirements. Suitable for sites with benign geology and low environmental risk."
    {| quantities :=
         {| disturbedAreaHa := 150;
            tsfAreaHa := 30;
            tsfCoverThicknessM := 0.3;
            wrdFootprintHa := 50;
            wrdReshapingDepthM := 0.5;
            earthworksVolumeM3Override := None;
            topsoilThicknessM := 0.15;
            recontouringAreaHa := 80;
            roadLengthKm := 8;
            numberOfBuildings := 8;
            waterTreatmentFlowMLPerDay := 0.5;
            waterTreatmentDurationYears := 5;
            waterTreatmentIntensityFactor := 0.8;
            monitoringDurationYears := 10;
            monitoringIntensity := low;
            hazardousMaterialsEnabled := false;
            hazardousMaterialsAreaHa := 0;
            communityHeritageEnabled := false |};
       unitRates :=
         unitRates DEFAULT_INPUT_STATE;
       indirectRates := indirectRates DEFAULT_INPUT_STATE;
       riskFactors :=
         {| contaminationUncertainty := 15;
            geotechUncertainty := 20;
            waterQualityUncertainty := 15;
            regulatoryUncertainty := 15;
            logisticsComplexity := 20 |};
       financialParams := financialParams DEFAULT_INPUT_STATE;
       phaseDurations :=
         {| planningYears := 1;
            decommYears := 1;
            earthworksYears := 2;
            tsfWrdYears := 2;
            waterYears := 5;
            revegYears := 2;
            monitoringYears := 10;
            relinquishmentYears := 1 |};
       scenarioName := "Small Open Pit, Low Water Risk" |}.

Definition PRESET_LARGE_OPEN_PIT_WRD : ScenarioPreset.t :=
  ScenarioPreset.mk
    "large-open-pit-wrd"
    "Large Open Pit + WRD"
    "A large-scale open pit operation with significant waste rock dump requiring extensive reshaping. Moderate water treatment needs and standard monitoring."
    {| quantities :=
         {| disturbedAreaHa := 800;
            tsfAreaHa := 150;
            tsfCoverThicknessM := 0.5;
            wrdFootprintHa := 400;
            wrdReshapingDepthM := 1.5;
            earthworksVolumeM3Override := None;
            topsoilThicknessM := 0.2;
            recontouringAreaHa := 500;
            roadLengthKm := 35;
            numberOfBuildings := 25;
            waterTreatmentFlowMLPerDay := 3;
            waterTreatmentDurationYears := 12;
            waterTreatmentIntensityFactor := 1.0;
            monitoringDurationYears := 20;
            monitoringIntensity := medium;
            hazardousMaterialsEnabled := true;
            hazardousMaterialsAreaHa := 5;
            communityHeritageEnabled := true |};
       unitRates :=
         {| earthworksPerM3 := 8;
            cappingBasePerM2 := 25;
            cappingThicknessFactor := 1.5;
            topsoilPerM3 := 15;
            revegetationPerHa := 8000;
            revegetationComplexityFactor := 1.0;
            demolitionPerBuilding := 180000;
            roadRehabPerKm := 50000;
            waterTreatmentCapex := 5000000;
            waterTreatmentOpexPerML := 500;
            monitoringPerYearLow := 200000;
            monitoringPerYearMedium := 500000;
            monitoringPerYearHigh := 1000000;
            hazardousMaterialsPerHa := 100000;
            communityHeritageLumpSum := 500000;
            bulkingFactor := 1.2;
            erosionControlsPerHa := 3000;
            mobilisationLumpSum := 3500000 |};
       indirectRates := indirectRates DEFAULT_INPUT_STATE;
       riskFactors :=
         {| contaminationUncertainty := 30;
            geotechUncertainty := 35;
            waterQualityUncertainty := 30;
            regulatoryUncertainty := 25;
            logisticsComplexity := 30 |};
       financialParams := financialParams DEFAULT_INPUT_STATE;
       phaseDurations :=
         {| planningYears := 2;
            decommYears := 3;
            earthworksYears := 4;
            tsfWrdYears := 4;
            waterYears := 12;
            revegYears := 4;
            monitoringYears := 20;
            relinquishmentYears := 2 |};
       scenarioName := "Large Open Pit + WRD" |}.

Definition PRESET_TSF_DOMINANT : ScenarioPreset.t :=
  ScenarioPreset.mk
    "tsf-dominant"
    "TSF-Dominant Site"
    "A site where the Tailings Storage Facility is the primary closure challenge. Large TSF requiring extensive capping and long-term seepage management."
    {| quantities :=
         {| disturbedAreaHa := 600;
            tsfAreaHa := 350;
            tsfCoverThicknessM := 0.8;
            wrdFootprintHa := 100;
            wrdReshapingDepthM := 0.8;
            earthworksVolumeM3Override := None;
            topsoilThicknessM := 0.15;
            recontouringAreaHa := 400;
            roadLengthKm := 25;
            numberOfBuildings := 18;
            waterTreatmentFlowMLPerDay := 2;
            waterTreatmentDurationYears := 15;
            waterTreatmentIntensityFactor := 1.2;
            monitoringDurationYears := 25;
            monitoringIntensity := medium;
            hazardousMaterialsEnabled := true;
            hazardousMaterialsAreaHa := 10;
            communityHeritageEnabled := true |};
       unitRates :=
         {| earthworksPerM3 := 8;
            cappingBasePerM2 := 30;
            cappingThicknessFactor := 1.6;
            topsoilPerM3 := 15;
            revegetationPerHa := 8000;
            revegetationComplexityFactor := 1.0;
            demolitionPerBuilding := 150000;
            roadRehabPerKm := 50000;
            waterTreatmentCapex := 8000000;
            waterTreatmentOpexPerML := 500;
            monitoringPerYearLow := 200000;
            monitoringPerYearMedium := 500000;
            monitoringPerYearHigh := 1000000;
            hazardousMaterialsPerHa := 100000;
            communityHeritageLumpSum := 500000;
            bulkingFactor := 1.2;
            erosionControlsPerHa := 3000;
            mobilisationLumpSum := 2000000 |};
       indirectRates := indirectRates DEFAULT_INPUT_STATE;
       riskFactors :=
         {| contaminationUncertainty := 40;
            geotechUncertainty := 45;
            waterQualityUncertainty := 50;
            regulatoryUncertainty := 35;
            logisticsComplexity := 25 |};
       financialParams := financialParams DEFAULT_INPUT_STATE;
       phaseDurations :=
         {| planningYears := 2;
            decommYears := 2;
            earthworksYears := 3;
            tsfWrdYears := 5;
            waterYears := 15;
            revegYears := 4;
            monitoringYears := 25;
            relinquishmentYears := 2 |};
       scenarioName := "TSF-Dominant Site" |}.

Definition PRESET_HIGH_WATER : ScenarioPreset.t :=
  ScenarioPreset.mk
    "high-water"
    "High Water Treatment, Long Monitoring"
    "A site with significant water quality challenges requiring intensive, long-term treatment (e.g., AMD). Extended monitoring period before relinquishment."
    {| quantities :=
         {| disturbedAreaHa := 450;
            tsfAreaHa := 120;
            tsfCoverThicknessM := 0.6;
            wrdFootprintHa := 180;
            wrdReshapingDepthM := 1.0;
            earthworksVolumeM3Override := None;
            topsoilThicknessM := 0.2;
            recontouringAreaHa := 300;
            roadLengthKm := 20;
            numberOfBuildings := 15;
            waterTreatmentFlowMLPerDay := 8;
            waterTreatmentDurationYears := 30;
            waterTreatmentIntensityFactor := 1.8;
            monitoringDurationYears := 40;
            monitoringIntensity := high;
            hazardousMaterialsEnabled := true;
            hazardousMaterialsAreaHa := 8;
            communityHeritageEnabled := true |};
       unitRates :=
         {| earthworksPerM3 := 8;
            cappingBasePerM2 := 25;
            cappingThicknessFactor := 1.5;
            topsoilPerM3 := 15;
            revegetationPerHa := 8000;
            revegetationComplexityFactor := 1.0;
            demolitionPerBuilding := 150000;
            roadRehabPerKm := 50000;
            waterTreatmentCapex := 15000000;
            waterTreatmentOpexPerML := 800;
            monitoringPerYearLow := 200000;
            monitoringPerYearMedium := 500000;
            monitoringPerYearHigh := 1500000;
            hazardousMaterialsPerHa := 100000;
            communityHeritageLumpSum := 500000;
            bulkingFactor := 1.2;
            erosionControlsPerHa := 3000;
            mobilisationLumpSum := 2000000 |};
       indirectRates := indirectRates DEFAULT_INPUT_STATE;
       riskFactors :=
         {| contaminationUncertainty := 50;
            geotechUncertainty := 30;
            waterQualityUncertainty := 70;
            regulatoryUncertainty := 45;
            logisticsComplexity := 30 |};
       financialParams := financialParams DEFAULT_INPUT_STATE;
       phaseDurations :=
         {| planningYears := 2;
            decommYears := 2;
            earthworksYears := 3;
            tsfWrdYears := 3;
            waterYears := 30;
            revegYears := 3;
            monitoringYears := 40;
            relinquishmentYears := 3 |};
       scenarioName := "High Water Treatment, Long Monitoring" |}.

Definition SCENARIO_PRESETS : list ScenarioPreset.t :=
  [ PRESET_SMALL_OPEN_PIT; PRESET_LARGE_OPEN_PIT_WRD; PRESET_TSF_DOMINANT;
    PRESET_HIGH_WATER ].

(** [SCENARIO_PRESETS.find((p) => p.id === id)] *)
Definition getPresetById (id : string) : option ScenarioPreset.t :=
  find (fun p => String.eqb (ScenarioPreset.id p) id) SCENARIO_PRESETS.

(** The clone of the preset's inputs, or [undefined]. *)
Definition getPresetInputs (id : string) : option InputState :=
  match getPresetById id with
  | Some preset => Some (ScenarioPreset.inputs preset)
  | None => None
  end.

(** ** Notions used to state the further properties *)



(** A list in non-increasing order of a key. *)
Fixpoint nonIncreasing {A : Type} (key : A -> Q) (l : list A) : Prop :=
  match l with
  | [] => True
  | x :: t => Forall (fun y => key y <= key x) t /\ nonIncreasing key t
  end.

(** The cashflow entries of the years whose per-phase records are [yearly],
    the first of which is relative year [i], after running totals
    [cumNominal] and [cumDiscounted]: what the loop of
    [calculateAnnualCashflows] builds, as a recursion over the years. *)
Fixpoint cashflowEntries (closureStartYear : Z) (escalationRate discountRate : Q)
    (i : Z) (cumNominal cumDiscounted : Q) (yearly : list PhaseRecord)
    : list AnnualCashflow.t :=
  match yearly with
  | [] => []
  | phaseBreakdown :: rest =>
      let nominalCost := yearNominalCost phaseBreakdown in
      let escalatedCost := nominalCost * Math_pow (1 + escalationRate) i in
      let discountedCost := escalatedCost / Math_pow (1 + discountRate) i in
      let cumulativeNominal := cumNominal + nominalCost in
      let cumulativeDiscounted := cumDiscounted + discountedCost in
      AnnualCashflow.mk (closureStartYear + i)%Z nominalCost escalatedCost
        discountedCost cumulativeNominal cumulativeDiscounted phaseBreakdown
      :: cashflowEntries closureStartYear escalationRate discountRate (i + 1)
           cumulativeNominal cumulativeDiscounted rest
  end.

(** Running totals: each entry's cumulative amounts are the previous ones
    plus the entry's own costs. *)
Fixpoint runningTotals (cumNominal cumDiscounted : Q)
    (cashflows : list AnnualCashflow.t) : Prop :=
  match cashflows with
  | [] => True
  | cf :: rest =>
      AnnualCashflow.cumulativeNominal cf ==
        cumNominal + AnnualCashflow.nominalCost cf /\
      AnnualCashflow.cumulativeDiscounted cf ==
        cumDiscounted + AnnualCashflow.discountedCost cf /\
      runningTotals (AnnualCashflow.cumulativeNominal cf)
        (AnnualCashflow.cumulativeDiscounted cf) rest
  end.



(** * Properties *)

(** ** Comparisons *)

Lemma Qgtb_true (x y : Q) : Qgtb x y = true <-> y < x.
Proof.
  unfold Qgtb. rewrite negb_true_iff. split; intro H.
  - apply Qnot_le_lt. intro Hle. apply Qle_bool_iff in Hle. congruence.
  - destruct (Qle_bool x y) eqn:E; [|reflexivity].
    apply Qle_bool_iff in E. exfalso. apply (Qlt_not_le _ _ H E).
Qed.

Lemma Qgtb_false (x y : Q) : Qgtb x y = false <-> x <= y.
Proof.
  unfold Qgtb. rewrite negb_false_iff. apply Qle_bool_iff.
Qed.

Lemma Qle_bool_false (x y : Q) : Qle_bool x y = false <-> y < x.
Proof.
  rewrite <- Qgtb_true. unfold Qgtb. rewrite negb_true_iff. reflexivity.
Qed.

(** Case analysis on a comparison, leaving the order fact in the context. *)
Ltac case_Qle x y :=
  let E := fresh "E" in
  destruct (Qle_bool x y) eqn:E;
  [ apply Qle_bool_iff in E | apply Qle_bool_false in E ].

Ltac case_Qgt x y :=
  let E := fresh "E" in
  destruct (Qgtb x y) eqn:E;
  [ apply Qgtb_true in E | apply Qgtb_false in E ].

(** ** Phase scheduler *)

(** C1. For every assignment of phase durations, the total duration is
    planning + decomm + max(earthworks, tsfWrd) + reveg + max(water,
    monitoring) + relinquishment, and the start years follow the overlap
    model: planning at 0; decommissioning after planning; earthworks,
    tailings/WRD and water management after decommissioning; revegetation
    when the longer of earthworks and tailings/WRD ends; monitoring after
    revegetation; relinquishment max(water, monitoring) years after the
    monitoring start. *)
Theorem phase_schedule_overlap_model (d : PhaseDurations) :
  let start := fun phase => getPhaseStartYear phase d in
  let dur := durationOf d in
  (calculateTotalDuration d =
     dur PlanningApprovals + dur DecommissioningDemolition +
     Z.max (dur EarthworksLandform) (dur TailingsWRDRehabilitation) +
     dur RevegetationEcosystem +
     Z.max (dur WaterManagement) (dur MonitoringMaintenance) +
     dur RelinquishmentPostClosure)%Z /\
  start PlanningApprovals = 0%Z /\
  start DecommissioningDemolition =
    (start PlanningApprovals + dur PlanningApprovals)%Z /\
  start EarthworksLandform =
    (start DecommissioningDemolition + dur DecommissioningDemolition)%Z /\
  start TailingsWRDRehabilitation =
    (start DecommissioningDemolition + dur DecommissioningDemolition)%Z /\
  start WaterManagement =
    (start DecommissioningDemolition + dur DecommissioningDemolition)%Z /\
  start RevegetationEcosystem =
    Z.max (start EarthworksLandform + dur EarthworksLandform)
          (start TailingsWRDRehabilitation + dur TailingsWRDRehabilitation) /\
  start MonitoringMaintenance =
    (start RevegetationEcosystem + dur RevegetationEcosystem)%Z /\
  start RelinquishmentPostClosure =
    (start MonitoringMaintenance +
     Z.max (dur WaterManagement) (dur MonitoringMaintenance))%Z.
Proof.
  cbv zeta. unfold calculateTotalDuration, getPhaseStartYear.
  repeat split; lia.
Qed.

(** ** Risk uplift *)

(** Divisions by the engine's constants, as multiplications. *)
Ltac div_consts :=
  unfold Qdiv in *;
  change (/ 20) with (1 # 20) in *;
  change (/ 10) with (1 # 10) in *;
  change (/ 100) with (1 # 100) in *;
  change (/ 10000) with (1 # 10000) in *.

Lemma riskScoreToUplift_mono (x y : Q) :
  x <= y -> riskScoreToUplift x <= riskScoreToUplift y.
Proof.
  intro Hxy. unfold riskScoreToUplift. div_consts.
  case_Qle x 20; case_Qle y 20; try lra;
  case_Qle x 40; case_Qle y 40; try lra;
  case_Qle x 60; case_Qle y 60; try lra;
  case_Qle x 80; case_Qle y 80; lra.
Qed.

Lemma riskScoreToUplift_lipschitz (x y : Q) :
  x <= y -> riskScoreToUplift y - riskScoreToUplift x <= (3 # 4) * (y - x).
Proof.
  intro Hxy. unfold riskScoreToUplift. div_consts.
  case_Qle x 20; case_Qle y 20; try lra;
  case_Qle x 40; case_Qle y 40; try lra;
  case_Qle x 60; case_Qle y 60; try lra;
  case_Qle x 80; case_Qle y 80; lra.
Qed.

Lemma riskScoreToUplift_close (x y : Q) :
  Qabs (riskScoreToUplift y - riskScoreToUplift x) <= (3 # 4) * Qabs (y - x).
Proof.
  destruct (Qlt_le_dec y x) as [Hlt | Hle].
  - assert (Hyx : y <= x) by lra.
    pose proof (riskScoreToUplift_mono _ _ Hyx).
    pose proof (riskScoreToUplift_lipschitz _ _ Hyx).
    rewrite (Qabs_neg (riskScoreToUplift y - riskScoreToUplift x)) by lra.
    rewrite (Qabs_neg (y - x)) by lra. lra.
  - pose proof (riskScoreToUplift_mono _ _ Hle).
    pose proof (riskScoreToUplift_lipschitz _ _ Hle).
    rewrite (Qabs_pos (riskScoreToUplift y - riskScoreToUplift x)) by lra.
    rewrite (Qabs_pos (y - x)) by lra. lra.
Qed.

(** C6. [riskScoreToUplift] is non-decreasing on [0,100], continuous at every
    point of [0,100] (for every tolerance [eps] there is a [delta] such that
    scores within [delta] have uplifts within [eps]), and takes the values
    0, 5, 10, 20, 35, 50 at the scores 0, 20, 40, 60, 80, 100. *)
Theorem riskScoreToUplift_monotone_continuous :
  (forall x y, 0 <= x -> x <= y -> y <= 100 ->
     riskScoreToUplift x <= riskScoreToUplift y) /\
  (forall x eps, 0 <= x -> x <= 100 -> 0 < eps ->
     exists delta, 0 < delta /\
       forall y, 0 <= y -> y <= 100 -> Qabs (y - x) < delta ->
         Qabs (riskScoreToUplift y - riskScoreToUplift x) < eps) /\
  riskScoreToUplift 0 == 0 /\
  riskScoreToUplift 20 == 5 /\
  riskScoreToUplift 40 == 10 /\
  riskScoreToUplift 60 == 20 /\
  riskScoreToUplift 80 == 35 /\
  riskScoreToUplift 100 == 50.
Proof.
  split; [| split].
  - intros x y _ Hxy _. now apply riskScoreToUplift_mono.
  - intros x eps _ _ Heps. exists eps. split; [assumption|].
    intros y _ _ Hy.
    pose proof (riskScoreToUplift_close x y) as Hc.
    pose proof (Qabs_nonneg (y - x)). lra.
  - repeat split; reflexivity.
Qed.

(** The statement at concrete scores. *)
Lemma riskScoreToUplift_monotone_continuous_witness :
  riskScoreToUplift 30 <= riskScoreToUplift 70 /\
  exists delta, 0 < delta /\
    forall y, 0 <= y -> y <= 100 -> Qabs (y - 40) < delta ->
      Qabs (riskScoreToUplift y - riskScoreToUplift 40) < 1 # 2.
Proof.
  destruct riskScoreToUplift_monotone_continuous as [Hmono [Hcont _]].
  split.
  - apply Hmono; vm_compute; discriminate.
  - apply Hcont; vm_compute; first [reflexivity | discriminate].
Defined.

(** ** Indirect costs *)

(** C5. [calculateIndirectCosts] returns exactly five line items, in the
    order SiteEstablishment, ContractorMargin, Contingency, RiskUplift,
    OwnersCosts, whose subtotals form the waterfall: each percentage applies
    to the running subtotal, Contingency and RiskUplift sharing one base. *)
Theorem indirect_costs_waterfall
    (direct : Q) (inputs : InputState) (derived : DerivedQuantities) :
  exists siteEst margin contingency riskUplift owners,
    map LineItemCost.category (calculateIndirectCosts direct inputs derived) =
      [SiteEstablishment; ContractorMargin; Contingency; RiskUplift; OwnersCosts] /\
    map LineItemCost.subtotal (calculateIndirectCosts direct inputs derived) =
      [siteEst; margin; contingency; riskUplift; owners] /\
    siteEst == direct * siteEstablishmentPercent (indirectRates inputs) / 100 /\
    margin ==
      (direct + siteEst) * contractorMarginPercent (indirectRates inputs) / 100 /\
    contingency ==
      (direct + siteEst + margin) * contingencyPercent (indirectRates inputs) / 100 /\
    riskUplift ==
      (direct + siteEst + margin) * riskUpliftPercent derived / 100 /\
    owners ==
      (direct + siteEst + margin + contingency + riskUplift) *
      ownersCostsPercent (indirectRates inputs) / 100.
Proof.
  unfold calculateIndirectCosts, push. cbv zeta. cbn [app map LineItemCost.category LineItemCost.subtotal].
  do 5 eexists.
  split; [reflexivity|].
  split; [reflexivity|].
  unfold Qdiv. repeat split; ring.
Qed.

Lemma validInputState_default : validInputState DEFAULT_INPUT_STATE.
Proof. vm_compute. reflexivity. Qed.

(** ** Sums of subtotals *)

Lemma fold_subtotals_acc (items : list LineItemCost.t) (a : Q) :
  fold_left (fun sum item => sum + LineItemCost.subtotal item) items a ==
  a + sumSubtotals items.
Proof.
  unfold sumSubtotals. revert a.
  induction items as [|x t IH]; intro a; cbn [fold_left].
  - ring.
  - rewrite IH. rewrite (IH (0 + _)). ring.
Qed.

Lemma sumSubtotals_nil : sumSubtotals [] == 0.
Proof. reflexivity. Qed.

Lemma sumSubtotals_cons (x : LineItemCost.t) (t : list LineItemCost.t) :
  sumSubtotals (x :: t) == LineItemCost.subtotal x + sumSubtotals t.
Proof.
  unfold sumSubtotals at 1. cbn [fold_left]. rewrite fold_subtotals_acc. ring.
Qed.

Lemma sumSubtotals_app (l1 l2 : list LineItemCost.t) :
  sumSubtotals (l1 ++ l2) == sumSubtotals l1 + sumSubtotals l2.
Proof.
  induction l1 as [|x t IH]; cbn [app].
  - rewrite sumSubtotals_nil. ring.
  - rewrite !sumSubtotals_cons, IH. ring.
Qed.

Lemma sumSubtotals_push (l : list LineItemCost.t) (x : LineItemCost.t) :
  sumSubtotals (push l x) == sumSubtotals l + LineItemCost.subtotal x.
Proof.
  unfold push. rewrite sumSubtotals_app, sumSubtotals_cons, sumSubtotals_nil. ring.
Qed.

(** ** The simplified pipeline of the sensitivity analysis *)

Lemma lastCumulativeDiscounted_nil : lastCumulativeDiscounted [] = 0.
Proof. reflexivity. Qed.



(** ** The discount-rate mode *)

Lemma cashflows_mode (items : list LineItemCost.t) (i : InputState) (m : DiscountRateMode) :
  calculateAnnualCashflows items (setDiscountRateMode i m) =
  calculateAnnualCashflows items i.
Proof.
  unfold calculateAnnualCashflows. cbv zeta.
  cbn [setDiscountRateMode with_financialParams with_discountRateMode financialParams
       phaseDurations closureStartYear escalationRatePercent discountRatePercent
       discountRateMode].
  destruct (DiscountRateMode_eqb m nominal);
    destruct (DiscountRateMode_eqb (discountRateMode (financialParams i)) nominal);
    reflexivity.
Qed.

Lemma totalForSensitivity_mode (i : InputState) (m : DiscountRateMode) :
  calculateTotalForSensitivity (setDiscountRateMode i m) =
  calculateTotalForSensitivity i.
Proof.
  unfold calculateTotalForSensitivity. cbv zeta.
  rewrite cashflows_mode. reflexivity.
Qed.

(** Every driver's setter commutes with the replacement of the mode, and no
    driver reads the mode. *)
Lemma driver_mode (driver : SensitivityDriver.t) (i : InputState)
    (m : DiscountRateMode) :
  In driver SENSITIVITY_DRIVERS ->
  SensitivityDriver.getValue driver (setDiscountRateMode i m) =
    SensitivityDriver.getValue driver i /\
  forall v,
    SensitivityDriver.setValue driver (setDiscountRateMode i m) v =
    setDiscountRateMode (SensitivityDriver.setValue driver i v) m.
Proof.
  intro Hin. unfold SENSITIVITY_DRIVERS in Hin. cbn [In] in Hin.
  repeat (destruct Hin as [<- | Hin]; [split; [reflexivity | intro; reflexivity] |]).
  contradiction.
Qed.

Lemma sensitivityStep_mode (i : InputState) (m : DiscountRateMode) (v : Q)
    (results : list SensitivityResult.t) (driver : SensitivityDriver.t) :
  In driver SENSITIVITY_DRIVERS ->
  sensitivityStep (setDiscountRateMode i m) v results driver =
  sensitivityStep i v results driver.
Proof.
  intro Hin. destruct (driver_mode driver i m Hin) as [Hget Hset].
  unfold sensitivityStep, perturbDriver. cbv zeta.
  rewrite Hget, !Hset, !totalForSensitivity_mode. reflexivity.
Qed.

Lemma fold_left_ext_in {A B : Type} (f g : A -> B -> A) (l : list B) (a : A) :
  (forall a x, In x l -> f a x = g a x) ->
  fold_left f l a = fold_left g l a.
Proof.
  revert a. induction l as [|x t IH]; intros a H; cbn [fold_left].
  - reflexivity.
  - rewrite (H a x) by (left; reflexivity).
    apply IH. intros a' y Hy. apply H. right. exact Hy.
Qed.

Lemma calculateSensitivity_mode (i : InputState) (m : DiscountRateMode) (v : Q) :
  calculateSensitivity (setDiscountRateMode i m) v = calculateSensitivity i v.
Proof.
  unfold calculateSensitivity. cbv zeta. f_equal.
  apply fold_left_ext_in. intros a x Hx. now apply sensitivityStep_mode.
Qed.

(** C9. On every valid input state, replacing [discountRateMode] by either
    mode (hence flipping it) and keeping every other input leaves the whole
    [Results] of [calculateClosureCosts] unchanged. *)
Theorem discount_mode_has_no_effect (inputs : InputState) (m : DiscountRateMode) :
  validInputState inputs ->
  calculateClosureCosts (setDiscountRateMode inputs m) = calculateClosureCosts inputs.
Proof.
  intros _. unfold calculateClosureCosts. cbv zeta.
  rewrite calculateSensitivity_mode, cashflows_mode.
  reflexivity.
Qed.

Lemma discount_mode_has_no_effect_witness :
  calculateClosureCosts (setDiscountRateMode DEFAULT_INPUT_STATE nominal) =
  calculateClosureCosts DEFAULT_INPUT_STATE.
Proof.
  apply (discount_mode_has_no_effect DEFAULT_INPUT_STATE nominal).
  vm_compute. reflexivity.
Defined.


(** ** Sorting and building lists *)

Lemma sort_insert_In {A : Type} (cmp : A -> A -> Q) (x y : A) (l : list A) :
  In y (sort_insert cmp x l) <-> y = x \/ In y l.
Proof.
  induction l as [|z t IH]; cbn [sort_insert In].
  - intuition congruence.
  - destruct (Qgtb (cmp x z) 0); cbn [In]; rewrite ?IH; intuition congruence.
Qed.

Lemma array_sort_In {A : Type} (cmp : A -> A -> Q) (y : A) (l : list A) :
  In y (array_sort cmp l) <-> In y l.
Proof.
  unfold array_sort. induction l as [|x t IH]; cbn [fold_right In].
  - reflexivity.
  - rewrite sort_insert_In, IH. intuition congruence.
Qed.

Lemma In_push {A : Type} (l : list A) (x y : A) :
  In y (push l x) <-> In y l \/ y = x.
Proof.
  unfold push. rewrite in_app_iff. cbn [In]. intuition congruence.
Qed.

(** An invariant of the elements collected by a loop that pushes. *)
Lemma fold_left_Forall {A B : Type} (P : A -> Prop) (f : list A -> B -> list A)
    (l : list B) (acc : list A) :
  (forall acc x, In x l -> Forall P acc -> Forall P (f acc x)) ->
  Forall P acc -> Forall P (fold_left f l acc).
Proof.
  revert acc. induction l as [|x t IH]; intros acc Hf Hacc; cbn [fold_left].
  - exact Hacc.
  - apply IH.
    + intros acc' y Hy. apply Hf. right. exact Hy.
    + apply Hf; [left; reflexivity | exact Hacc].
Qed.

Lemma Forall_push {A : Type} (P : A -> Prop) (l : list A) (x : A) :
  Forall P l -> P x -> Forall P (push l x).
Proof.
  intros Hl Hx. unfold push. apply Forall_app. split; [exact Hl | now constructor].
Qed.

(** ** Guards against a zero denominator *)




(** ** The results of the sensitivity analysis *)

(** Every result comes from a driver of the table whose base value is not
    zero, and is that driver's perturbation record. *)
Lemma calculateSensitivity_results (inputs : InputState) (v : Q)
    (r : SensitivityResult.t) :
  In r (calculateSensitivity inputs v) ->
  exists driver,
    In driver SENSITIVITY_DRIVERS /\
    ~ SensitivityDriver.getValue driver inputs == 0 /\
    r = perturbDriver inputs v driver (SensitivityDriver.getValue driver inputs).
Proof.
  unfold calculateSensitivity. cbv zeta. intro Hr.
  apply array_sort_In in Hr. revert r Hr. apply Forall_forall.
  apply fold_left_Forall; [| constructor].
  intros acc driver Hin Hacc. unfold sensitivityStep. cbv zeta.
  destruct (Qeqb (SensitivityDriver.getValue driver inputs) 0) eqn:E;
    [exact Hacc |].
  apply Forall_push; [exact Hacc |].
  exists driver. split; [exact Hin |]. split; [| reflexivity].
  apply Qeq_bool_neq. exact E.
Qed.





(** ** Windows of the phases *)

Lemma intRange_true (lo hi x : Z) : intRange lo hi x = true -> (lo <= x <= hi)%Z.
Proof. unfold intRange. rewrite andb_true_iff, !Z.leb_le. tauto. Qed.

Lemma schema_nonnegDurations (d : PhaseDurations) :
  PhaseDurationsSchema d = true -> nonnegDurations d.
Proof.
  unfold PhaseDurationsSchema. rewrite !andb_true_iff.
  intros [[[[[[[H1 H2] H3] H4] H5] H6] H7] H8] phase.
  apply intRange_true in H1, H2, H3, H4, H5, H6, H7, H8.
  destruct phase; lia.
Qed.

Lemma valid_nonnegDurations (inputs : InputState) :
  validInputState inputs -> nonnegDurations (phaseDurations inputs).
Proof.
  unfold validInputState, InputStateSchema. rewrite !andb_true_iff.
  intros [[_ H] _]. now apply schema_nonnegDurations.
Qed.

(** Every phase's allocation window lies within [0, totalDuration]. *)
Lemma phase_window (d : PhaseDurations) (phase : ClosurePhase) :
  nonnegDurations d ->
  (0 <= getPhaseStartYear phase d /\
   getPhaseStartYear phase d + durationOf d phase <= calculateTotalDuration d)%Z.
Proof.
  intro H.
  pose proof (H PlanningApprovals). pose proof (H DecommissioningDemolition).
  pose proof (H EarthworksLandform). pose proof (H TailingsWRDRehabilitation).
  pose proof (H WaterManagement). pose proof (H RevegetationEcosystem).
  pose proof (H MonitoringMaintenance). pose proof (H RelinquishmentPostClosure).
  unfold calculateTotalDuration, getPhaseStartYear.
  destruct phase; cbn [durationOf] in *; lia.
Qed.

Lemma totalDuration_nonneg (d : PhaseDurations) :
  nonnegDurations d -> (0 <= calculateTotalDuration d)%Z.
Proof.
  intro H. pose proof (phase_window d PlanningApprovals H).
  pose proof (H PlanningApprovals). lia.
Qed.

(** ** Arrays of yearly records *)

Lemma Zrange_length (n : Z) : List.length (Zrange n) = Z.to_nat n.
Proof. unfold Zrange. now rewrite length_map, length_seq. Qed.

Lemma Zrange_In (n y : Z) : In y (Zrange n) -> (0 <= y < n)%Z.
Proof.
  unfold Zrange. rewrite in_map_iff. intros [k [<- Hk]].
  apply in_seq in Hk. lia.
Qed.

Lemma list_update_length {A : Type} (l : list A) (n : nat) (f : A -> A) :
  List.length (list_update l n f) = List.length l.
Proof.
  revert n. induction l as [|x t IH]; intros [|n]; cbn; auto.
Qed.

Lemma arr_update_length {A : Type} (l : list A) (i : Z) (f : A -> A) :
  List.length (arr_update l i f) = List.length l.
Proof.
  unfold arr_update. destruct (i <? 0)%Z; [reflexivity | apply list_update_length].
Qed.

Lemma hasYear_true (yearly : list PhaseRecord) (year : Z) :
  (0 <= year < Z.of_nat (List.length yearly))%Z -> hasYear yearly year = true.
Proof.
  intro H. unfold hasYear, arr_get.
  destruct (year <? 0)%Z eqn:E; [apply Z.ltb_lt in E; lia |].
  destruct (nth_error yearly (Z.to_nat year)) eqn:N; [reflexivity |].
  apply nth_error_None in N. lia.
Qed.


Lemma yearNominalCost_unfold (r : PhaseRecord) :
  yearNominalCost r ==
  pr_planning r + pr_decomm r + pr_earthworks r + pr_tsfWrd r +
  pr_water r + pr_reveg r + pr_monitoring r + pr_relinquishment r.
Proof.
  unfold yearNominalCost, CLOSURE_PHASES. cbn [fold_left pr_get]. ring.
Qed.

Lemma yearNominalCost_add (r : PhaseRecord) (phase : ClosurePhase) (a : Q) :
  yearNominalCost (pr_set r phase (pr_get r phase + a)) == yearNominalCost r + a.
Proof.
  rewrite !yearNominalCost_unfold.
  destruct phase; cbn [pr_set pr_get pr_planning pr_decomm pr_earthworks pr_tsfWrd
                       pr_water pr_reveg pr_monitoring pr_relinquishment]; ring.
Qed.

Lemma list_update_sum (l : list PhaseRecord) (n : nat) (phase : ClosurePhase) (a : Q) :
  (n < List.length l)%nat ->
  sumQ (map yearNominalCost
          (list_update l n (fun r => pr_set r phase (pr_get r phase + a)))) ==
  sumQ (map yearNominalCost l) + a.
Proof.
  revert n. induction l as [|x t IH]; intros n Hn; cbn [List.length] in Hn.
  - lia.
  - destruct n as [|n]; cbn [list_update map sumQ fold_right].
    + rewrite yearNominalCost_add. ring.
    + fold (sumQ (map yearNominalCost
               (list_update t n (fun r => pr_set r phase (pr_get r phase + a))))).
      fold (sumQ (map yearNominalCost t)).
      rewrite IH by lia. ring.
Qed.

Lemma addToYear_sum (yearly : list PhaseRecord) (year : Z) (phase : ClosurePhase)
    (a : Q) :
  (0 <= year < Z.of_nat (List.length yearly))%Z ->
  sumQ (map yearNominalCost (addToYear yearly year phase a)) ==
  sumQ (map yearNominalCost yearly) + a.
Proof.
  intro H. unfold addToYear, arr_update.
  destruct (year <? 0)%Z eqn:E; [apply Z.ltb_lt in E; lia |].
  apply list_update_sum. lia.
Qed.

Lemma addToYear_length (yearly : list PhaseRecord) (year : Z) (phase : ClosurePhase)
    (a : Q) :
  List.length (addToYear yearly year phase a) = List.length yearly.
Proof. apply arr_update_length. Qed.

(** ** Distribution of the line items over the years *)

(** The inner loop over the years of a phase: when every year it visits is
    one of the [totalDuration + 1] buckets, each visit adds the annual cost. *)
Lemma spread_sum (phaseStart totalDuration : Z) (phase : ClosurePhase)
    (annualCost : Q) (ys : list Z) (yearly : list PhaseRecord) :
  Z.of_nat (List.length yearly) = (totalDuration + 1)%Z ->
  (forall y, In y ys -> (0 <= phaseStart + y <= totalDuration)%Z) ->
  let yearly' :=
    fold_left
      (fun yearly y =>
         let year := (phaseStart + y)%Z in
         if (year <=? totalDuration)%Z && hasYear yearly year
         then addToYear yearly year phase annualCost
         else yearly)
      ys yearly in
  List.length yearly' = List.length yearly /\
  sumQ (map yearNominalCost yearly') ==
  sumQ (map yearNominalCost yearly) +
  inject_Z (Z.of_nat (List.length ys)) * annualCost.
Proof.
  cbv zeta. revert yearly.
  induction ys as [|y t IH]; intros yearly Hlen Hys; cbn [fold_left List.length].
  - split; [reflexivity |]. change (inject_Z (Z.of_nat 0)) with 0. ring.
  - assert (Hy : (0 <= phaseStart + y <= totalDuration)%Z)
      by (apply Hys; left; reflexivity).
    assert (Hle : (phaseStart + y <=? totalDuration)%Z = true)
      by (apply Z.leb_le; lia).
    rewrite Hle, hasYear_true by lia. cbn [andb].
    destruct (IH (addToYear yearly (phaseStart + y) phase annualCost)) as [IHlen IHsum].
    + rewrite addToYear_length. exact Hlen.
    + intros y' Hy'. apply Hys. right. exact Hy'.
    + split.
      * rewrite IHlen. apply addToYear_length.
      * rewrite IHsum, addToYear_sum by lia.
        rewrite Nat2Z.inj_succ. unfold Z.succ. rewrite inject_Z_plus. ring.
Qed.

Lemma distributeItem_sum (d : PhaseDurations) (yearly : list PhaseRecord)
    (item : LineItemCost.t) :
  nonnegDurations d ->
  Z.of_nat (List.length yearly) = (calculateTotalDuration d + 1)%Z ->
  List.length (distributeItem d (calculateTotalDuration d) yearly item) =
    List.length yearly /\
  sumQ (map yearNominalCost (distributeItem d (calculateTotalDuration d) yearly item)) ==
  sumQ (map yearNominalCost yearly) + LineItemCost.subtotal item.
Proof.
  intros Hd Hlen. unfold distributeItem. cbv zeta.
  destruct (phase_window d (LineItemCost.phase item) Hd) as [Hstart Hend].
  pose proof (Hd (LineItemCost.phase item)) as Hdur.
  destruct (durationOf d (LineItemCost.phase item) >? 0)%Z eqn:E.
  - rewrite Z.gtb_ltb in E. apply Z.ltb_lt in E.
    destruct (spread_sum (getPhaseStartYear (LineItemCost.phase item) d)
                (calculateTotalDuration d) (LineItemCost.phase item)
                (LineItemCost.subtotal item /
                 inject_Z (durationOf d (LineItemCost.phase item)))
                (Zrange (durationOf d (LineItemCost.phase item))) yearly Hlen)
      as [Hl Hs].
    + intros y Hy. apply Zrange_In in Hy. lia.
    + split; [exact Hl |]. rewrite Hs, Zrange_length, Z2Nat.id by lia.
      field. intro H0. 
      assert (Hlt : inject_Z 0 < inject_Z (durationOf d (LineItemCost.phase item)))
        by (rewrite <- Zlt_Qlt; exact E).
      rewrite H0 in Hlt. discriminate Hlt.
  - rewrite Z.gtb_ltb in E. apply Z.ltb_ge in E.
    rewrite hasYear_true by lia.
    split; [apply addToYear_length | apply addToYear_sum; lia].
Qed.

Lemma distributeLineItems_sum (d : PhaseDurations) (lineItems : list LineItemCost.t)
    (yearly : list PhaseRecord) :
  nonnegDurations d ->
  Z.of_nat (List.length yearly) = (calculateTotalDuration d + 1)%Z ->
  List.length (distributeLineItems d (calculateTotalDuration d) lineItems yearly) =
    List.length yearly /\
  sumQ (map yearNominalCost
          (distributeLineItems d (calculateTotalDuration d) lineItems yearly)) ==
  sumQ (map yearNominalCost yearly) + sumSubtotals lineItems.
Proof.
  intro Hd. unfold distributeLineItems. revert yearly.
  induction lineItems as [|item t IH]; intros yearly Hlen; cbn [fold_left].
  - split; [reflexivity |]. rewrite sumSubtotals_nil. ring.
  - destruct (distributeItem_sum d yearly item Hd Hlen) as [Hl Hs].
    destruct (IH (distributeItem d (calculateTotalDuration d) yearly item)) as [Hl' Hs'].
    + rewrite Hl. exact Hlen.
    + split; [rewrite Hl'; exact Hl |].
      rewrite Hs', Hs, sumSubtotals_cons. ring.
Qed.

Lemma initYearly_length (totalDuration : Z) :
  (0 <= totalDuration)%Z ->
  Z.of_nat (List.length (initYearlyPhaseBreakdown totalDuration)) =
  (totalDuration + 1)%Z.
Proof.
  intro H. unfold initYearlyPhaseBreakdown.
  rewrite length_map, Zrange_length. lia.
Qed.



Lemma yearlyNominalCosts_length (lineItems : list LineItemCost.t) (d : PhaseDurations) :
  nonnegDurations d ->
  Z.of_nat (List.length (yearlyNominalCosts lineItems d)) =
  (calculateTotalDuration d + 1)%Z.
Proof.
  intro Hd. unfold yearlyNominalCosts. cbv zeta. rewrite length_map.
  destruct (distributeLineItems_sum d lineItems
              (initYearlyPhaseBreakdown (calculateTotalDuration d)) Hd) as [Hl _].
  - apply initYearly_length. now apply totalDuration_nonneg.
  - rewrite Hl. apply initYearly_length. now apply totalDuration_nonneg.
Qed.


(** ** The loop that builds the cashflow entries *)

Lemma arr_get_middle {A : Type} (pre suf : list A) (x : A) :
  arr_get (pre ++ x :: suf) (Z.of_nat (List.length pre)) = Some x.
Proof.
  unfold arr_get.
  destruct (Z.of_nat (List.length pre) <? 0)%Z eqn:E; [apply Z.ltb_lt in E; lia |].
  rewrite Nat2Z.id, nth_error_app2 by lia.
  now rewrite Nat.sub_diag.
Qed.

Lemma lastCumulativeDiscounted_push (l : list AnnualCashflow.t) (cf : AnnualCashflow.t) :
  lastCumulativeDiscounted (push l cf) = AnnualCashflow.cumulativeDiscounted cf.
Proof.
  unfold lastCumulativeDiscounted, push.
  replace (Z.of_nat (List.length (l ++ [cf])) - 1)%Z with (Z.of_nat (List.length l))
    by (rewrite length_app; cbn [List.length]; lia).
  now rewrite arr_get_middle.
Qed.

Lemma cashflowStep_middle (sy : Z) (e r : Q) (pre suf : list PhaseRecord)
    (x : PhaseRecord) (acc : CashflowAcc) :
  cashflowStep sy e r (pre ++ x :: suf) acc (Z.of_nat (List.length pre)) =
  let i := Z.of_nat (List.length pre) in
  let discountedCost := yearNominalCost x * Math_pow (1 + e) i / Math_pow (1 + r) i in
  {| acc_cumulativeNominal := acc_cumulativeNominal acc + yearNominalCost x;
     acc_cumulativeDiscounted := acc_cumulativeDiscounted acc + discountedCost;
     acc_cashflows :=
       push (acc_cashflows acc)
         (AnnualCashflow.mk (sy + i)%Z (yearNominalCost x)
            (yearNominalCost x * Math_pow (1 + e) i) discountedCost
            (acc_cumulativeNominal acc + yearNominalCost x)
            (acc_cumulativeDiscounted acc + discountedCost) x) |}.
Proof.
  unfold cashflowStep. rewrite arr_get_middle. reflexivity.
Qed.

Lemma cashflow_loop (sy : Z) (e r : Q) (suf pre : list PhaseRecord)
    (acc : CashflowAcc) :
  lastCumulativeDiscounted (acc_cashflows acc) = acc_cumulativeDiscounted acc ->
  let final :=
    fold_left (cashflowStep sy e r (pre ++ suf))
      (map Z.of_nat (seq (List.length pre) (List.length suf))) acc in
  map AnnualCashflow.nominalCost (acc_cashflows final) =
    map AnnualCashflow.nominalCost (acc_cashflows acc) ++ map yearNominalCost suf /\
  lastCumulativeDiscounted (acc_cashflows final) = acc_cumulativeDiscounted final /\
  acc_cumulativeDiscounted final ==
    acc_cumulativeDiscounted acc +
    discountedSum e r (Z.of_nat (List.length pre)) (map yearNominalCost suf).
Proof.
  cbv zeta. revert pre acc.
  induction suf as [|x t IH]; intros pre acc Hacc.
  - cbn [List.length seq map fold_left discountedSum].
    rewrite app_nil_r. split; [reflexivity |]. split; [exact Hacc | ring].
  - cbn [List.length seq map fold_left discountedSum].
    rewrite cashflowStep_middle. cbv zeta.
    set (acc' := {| acc_cumulativeNominal := _ |}).
    specialize (IH (pre ++ [x]) acc').
    rewrite <- app_assoc in IH. cbn [app] in IH.
    rewrite length_app in IH. cbn [List.length] in IH.
    rewrite Nat.add_1_r in IH.
    destruct IH as [IHn [IHl IHd]].
    + subst acc'. cbn [acc_cashflows acc_cumulativeDiscounted].
      apply lastCumulativeDiscounted_push.
    + split; [| split].
      * rewrite IHn. subst acc'. cbn [acc_cashflows]. unfold push.
        rewrite map_app, <- app_assoc. reflexivity.
      * exact IHl.
      * rewrite IHd. subst acc'. cbn [acc_cumulativeDiscounted].
        rewrite Nat2Z.inj_succ. unfold Z.succ. ring.
Qed.

(** The entries of [calculateAnnualCashflows] in terms of the yearly nominal
    costs: one entry per year, and the last running discounted total is the
    discounted sum of them all. *)
Lemma calculateAnnualCashflows_spec (lineItems : list LineItemCost.t)
    (inputs : InputState) :
  nonnegDurations (phaseDurations inputs) ->
  map AnnualCashflow.nominalCost (calculateAnnualCashflows lineItems inputs) =
    yearlyNominalCosts lineItems (phaseDurations inputs) /\
  lastCumulativeDiscounted (calculateAnnualCashflows lineItems inputs) ==
    discountedSum (escalationRatePercent (financialParams inputs) / 100)
      (discountRatePercent (financialParams inputs) / 100) 0
      (yearlyNominalCosts lineItems (phaseDurations inputs)).
Proof.
  intro Hd. unfold calculateAnnualCashflows, yearlyNominalCosts. cbv zeta.
  set (D := calculateTotalDuration (phaseDurations inputs)).
  set (yearly := distributeLineItems (phaseDurations inputs) D lineItems
                   (initYearlyPhaseBreakdown D)).
  assert (Hlen : Z.to_nat (D + 1) = List.length yearly).
  { subst yearly D.
    destruct (distributeLineItems_sum (phaseDurations inputs) lineItems
                (initYearlyPhaseBreakdown (calculateTotalDuration (phaseDurations inputs)))
                Hd) as [Hl _].
    - apply initYearly_length. now apply totalDuration_nonneg.
    - rewrite Hl. unfold initYearlyPhaseBreakdown.
      now rewrite length_map, Zrange_length. }
  assert (Heff :
    (if DiscountRateMode_eqb (discountRateMode (financialParams inputs)) nominal
     then discountRatePercent (financialParams inputs) / 100
     else discountRatePercent (financialParams inputs) / 100) =
    discountRatePercent (financialParams inputs) / 100)
    by (destruct (DiscountRateMode_eqb _ _); reflexivity).
  rewrite Heff. unfold Zrange. rewrite Hlen.
  pose proof (cashflow_loop (closureStartYear (financialParams inputs))
                (escalationRatePercent (financialParams inputs) / 100)
                (discountRatePercent (financialParams inputs) / 100)
                yearly []
                {| acc_cumulativeNominal := 0; acc_cumulativeDiscounted := 0;
                   acc_cashflows := [] |} eq_refl) as H.
  cbv zeta in H. cbn [app List.length acc_cashflows acc_cumulativeDiscounted map] in H.
  destruct H as [Hn [Hl Hs]].
  split; [exact Hn |].
  rewrite Hl, Hs. change (Z.of_nat 0) with 0%Z. ring.
Qed.





(** ** What the schema gives *)

Lemma inRange_true (lo hi x : Q) : inRange lo hi x = true -> lo <= x /\ x <= hi.
Proof. unfold inRange. rewrite andb_true_iff, !Qle_bool_iff. tauto. Qed.

(** Turn the accepted range checks of a schema into order facts. *)
Ltac schema_facts H :=
  rewrite ?andb_true_iff in H; decompose [and] H; clear H;
  repeat match goal with
         | R : inRange _ _ _ = true |- _ =>
             apply inRange_true in R; destruct R
         end.

Lemma schema_NonnegQuantities (q : DirectWorksQuantities) :
  DirectWorksQuantitiesSchema q = true -> NonnegQuantities q.
Proof.
  unfold DirectWorksQuantitiesSchema, positiveNumberMax. intro H.
  schema_facts H. constructor; lra.
Qed.

Lemma schema_NonnegUnitRates (u : UnitRates) :
  UnitRatesSchema u = true -> NonnegUnitRates u.
Proof.
  unfold UnitRatesSchema, positiveNumberMax. intro H.
  schema_facts H. constructor; lra.
Qed.

Lemma schema_NonnegIndirectRates (r : IndirectCostRates) :
  IndirectCostRatesSchema r = true -> NonnegIndirectRates r.
Proof.
  unfold IndirectCostRatesSchema, percentage. intro H.
  schema_facts H. constructor; lra.
Qed.

Lemma schema_NonnegRiskFactors (f : RiskFactors) :
  RiskFactorsSchema f = true -> NonnegRiskFactors f.
Proof.
  unfold RiskFactorsSchema, riskFactor. intro H.
  schema_facts H. constructor; lra.
Qed.

Lemma valid_NonnegInputs (inputs : InputState) :
  validInputState inputs -> NonnegInputs inputs.
Proof.
  unfold validInputState, InputStateSchema. rewrite !andb_true_iff.
  intros [[[[[[Hq Hu] Hr] Hf] _] _] _].
  constructor.
  - now apply schema_NonnegQuantities.
  - now apply schema_NonnegUnitRates.
  - now apply schema_NonnegIndirectRates.
  - now apply schema_NonnegRiskFactors.
Qed.

Lemma valid_rates (inputs : InputState) :
  validInputState inputs ->
  0 <= escalationRatePercent (financialParams inputs) /\
  0 <= discountRatePercent (financialParams inputs).
Proof.
  unfold validInputState, InputStateSchema. rewrite !andb_true_iff.
  intros [[[_ Hf] _] _]. unfold FinancialParamsSchema in Hf.
  schema_facts Hf. split; assumption.
Qed.

(** ** Risk uplift is non-negative *)

Lemma Math_round_nonneg (x : Q) : 0 <= x -> 0 <= Math_round x.
Proof.
  intro H. unfold Math_round.
  change 0 with (inject_Z 0). rewrite <- Zle_Qle.
  change 0%Z with (Qfloor 0). apply Qfloor_resp_le. lra.
Qed.

Lemma calculateRiskScore_nonneg (f : RiskFactors) :
  NonnegRiskFactors f -> 0 <= calculateRiskScore f.
Proof.
  intros [H1 H2 H3 H4 H5]. unfold calculateRiskScore. cbv zeta.
  div_consts.
  assert (Hr : 0 <= Math_round
    ((contaminationUncertainty f * 0.25 + geotechUncertainty f * 0.2 +
      waterQualityUncertainty f * 0.25 + regulatoryUncertainty f * 0.15 +
      logisticsComplexity f * 0.15) * 10)) by (apply Math_round_nonneg; lra).
  lra.
Qed.

Lemma riskScoreToUplift_nonneg (x : Q) : 0 <= x -> 0 <= riskScoreToUplift x.
Proof.
  intro H. apply (Qle_trans _ (riskScoreToUplift 0)).
  - vm_compute. discriminate.
  - now apply riskScoreToUplift_mono.
Qed.

Lemma riskUpliftPercent_nonneg (inputs : InputState) :
  NonnegRiskFactors (riskFactors inputs) ->
  0 <= riskUpliftPercent (calculateDerivedQuantities inputs).
Proof.
  intro H. unfold calculateDerivedQuantities. cbv zeta. cbn [riskUpliftPercent].
  apply riskScoreToUplift_nonneg. now apply calculateRiskScore_nonneg.
Qed.


(** ** Closed forms of the line-item sums *)

Lemma sumSubtotals_push_if (c : bool) (l : list LineItemCost.t) (x : LineItemCost.t) :
  sumSubtotals (push_if c l x) == sumSubtotals l + gated c (LineItemCost.subtotal x).
Proof.
  unfold push_if, gated. destruct c.
  - apply sumSubtotals_push.
  - ring.
Qed.

Lemma sumSubtotals_if_push2 (c : bool) (l : list LineItemCost.t)
    (x y : LineItemCost.t) :
  sumSubtotals (if c then push (push l x) y else l) ==
  sumSubtotals l + gated c (LineItemCost.subtotal x + LineItemCost.subtotal y).
Proof.
  unfold gated. destruct c.
  - rewrite !sumSubtotals_push. ring.
  - ring.
Qed.

Lemma directWorks_sum (inputs : InputState) (derived : DerivedQuantities) :
  let q := quantities inputs in
  let u := unitRates inputs in
  sumSubtotals (calculateDirectWorksCosts inputs derived) ==
    mobilisationLumpSum u +
    gated (Qgtb (numberOfBuildings q) 0)
      (numberOfBuildings q * demolitionPerBuilding u) +
    gated (Qgtb (totalEarthworksVolumeM3 derived) 0)
      (totalEarthworksVolumeM3 derived * earthworksPerM3 u) +
    gated (Qgtb (topsoilVolumeM3 derived) 0)
      (topsoilVolumeM3 derived * topsoilPerM3 u) +
    gated (Qgtb (tsfAreaHa q) 0)
      (tsfAreaM2 derived *
       (cappingBasePerM2 u * (tsfCoverThicknessM q * cappingThicknessFactor u))) +
    gated (Qgtb (wrdFootprintHa q) 0)
      (wrdAreaM2 derived *
       (cappingBasePerM2 u *
        (wrdReshapingDepthM q * cappingThicknessFactor u * 0.5))) +
    gated (Qgtb (waterTreatmentDurationYears q) 0 &&
           Qgtb (waterTreatmentFlowMLPerDay q) 0)
      (waterTreatmentCapex u * waterTreatmentIntensityFactor q +
       waterTreatmentFlowMLPerDay q * 365 * waterTreatmentOpexPerML u *
       waterTreatmentIntensityFactor q * waterTreatmentDurationYears q) +
    gated (Qgtb (disturbedAreaHa q) 0)
      (disturbedAreaHa q *
       (revegetationPerHa u * revegetationComplexityFactor u)) +
    gated (Qgtb (disturbedAreaHa q) 0)
      (disturbedAreaHa q * erosionControlsPerHa u) +
    gated (Qgtb (roadLengthKm q) 0) (roadLengthKm q * roadRehabPerKm u) +
    gated (hazardousMaterialsEnabled q && Qgtb (hazardousMaterialsAreaHa q) 0)
      (hazardousMaterialsAreaHa q * hazardousMaterialsPerHa u) +
    monitoringDurationYears q *
      getMonitoringRate (monitoringIntensity q) (monitoringPerYearLow u)
        (monitoringPerYearMedium u) (monitoringPerYearHigh u) +
    gated (communityHeritageEnabled q) (communityHeritageLumpSum u).
Proof.
  cbv zeta. unfold calculateDirectWorksCosts. cbv zeta.
  repeat first [ rewrite sumSubtotals_push_if
               | rewrite sumSubtotals_push
               | rewrite sumSubtotals_if_push2 ].
  cbn [LineItemCost.subtotal]. rewrite sumSubtotals_nil. ring.
Qed.

Lemma indirectCosts_sum (direct : Q) (inputs : InputState) (derived : DerivedQuantities) :
  direct + sumSubtotals (calculateIndirectCosts direct inputs derived) ==
  direct * indirectFactor (indirectRates inputs) (riskUpliftPercent derived).
Proof.
  unfold calculateIndirectCosts, indirectFactor. cbv zeta.
  rewrite !sumSubtotals_push. cbn [LineItemCost.subtotal].
  rewrite sumSubtotals_nil. unfold Qdiv. ring.
Qed.

(** The total of the pipeline is the direct works total times the factor of
    the indirect waterfall. *)
Lemma pipeline_total (inputs : InputState) :
  sumSubtotals (pipelineLineItems inputs) ==
  directWorksTotal inputs *
  indirectFactor (indirectRates inputs)
    (riskUpliftPercent (calculateDerivedQuantities inputs)).
Proof.
  unfold pipelineLineItems, directWorksTotal. cbv zeta.
  rewrite sumSubtotals_app. apply indirectCosts_sum.
Qed.


(** ** Monotonicity of the total cost *)

Lemma mul_mono (a b c d : Q) :
  0 <= a -> a <= b -> 0 <= c -> c <= d -> a * c <= b * d.
Proof. intros. nra. Qed.

Lemma plus_nonneg (a b : Q) : 0 <= a -> 0 <= b -> 0 <= a + b.
Proof. intros. lra. Qed.

Lemma gated_mono_gt (x1 x2 v1 v2 : Q) :
  x1 <= x2 -> (0 < x1 -> v1 <= v2) -> (0 < x2 -> 0 <= v2) ->
  gated (Qgtb x1 0) v1 <= gated (Qgtb x2 0) v2.
Proof.
  intros Hx Hv H2. unfold gated.
  case_Qgt x1 0; case_Qgt x2 0; first [lra | now auto | apply Qle_refl].
Qed.

Lemma gated_mono_gt2 (x1 x2 y1 y2 v1 v2 : Q) :
  x1 <= x2 -> y1 <= y2 -> v1 <= v2 -> 0 <= v2 ->
  gated (Qgtb x1 0 && Qgtb y1 0) v1 <= gated (Qgtb x2 0 && Qgtb y2 0) v2.
Proof.
  intros Hx Hy Hv H2. unfold gated.
  case_Qgt x1 0; case_Qgt x2 0; case_Qgt y1 0; case_Qgt y2 0;
    cbn [andb]; try lra.
Qed.

Lemma gated_mono_bool_gt (b : bool) (x1 x2 v1 v2 : Q) :
  x1 <= x2 -> v1 <= v2 -> 0 <= v2 ->
  gated (b && Qgtb x1 0) v1 <= gated (b && Qgtb x2 0) v2.
Proof.
  intros Hx Hv H2. unfold gated.
  destruct b; cbn [andb]; [| apply Qle_refl].
  case_Qgt x1 0; case_Qgt x2 0; lra.
Qed.

Lemma gated_mono_bool (b : bool) (v1 v2 : Q) :
  v1 <= v2 -> gated b v1 <= gated b v2.
Proof. intro H. unfold gated. destruct b; [exact H | apply Qle_refl]. Qed.

Lemma gated_nonneg (c : bool) (v : Q) : (c = true -> 0 <= v) -> 0 <= gated c v.
Proof. intro H. unfold gated. destruct c; [now apply H | apply Qle_refl]. Qed.

(** Goals [0 <= e] and [e1 <= e2] on sums and products of amounts that the
    context bounds. *)
Ltac nonneg :=
  lazymatch goal with
  | |- 0 <= _ * _ => apply Qmult_le_0_compat; nonneg
  | |- 0 <= _ + _ => apply plus_nonneg; nonneg
  | |- _ => first [assumption | lra]
  end.

Ltac mono :=
  lazymatch goal with
  | |- _ * _ <= _ * _ => apply mul_mono; [nonneg | mono | nonneg | mono]
  | |- _ + _ <= _ + _ => apply Qplus_le_compat; mono
  | |- _ => first [assumption | apply Qle_refl | lra]
  end.

Lemma InputLe_nonneg (a b : InputState) :
  NonnegInputs a -> InputLe a b -> NonnegInputs b.
Proof.
  intros [Hq Hu Hr Hf] [Lq Lu Lr Lf].
  destruct Hq, Hu, Hr, Lq, Lu, Lr.
  constructor; [constructor; lra | constructor; lra | constructor; lra |].
  rewrite <- Lf. exact Hf.
Qed.

Lemma directWorksTotal_mono (a b : InputState) :
  NonnegInputs a -> InputLe a b -> directWorksTotal a <= directWorksTotal b.
Proof.
  intros Ha Hle. pose proof (InputLe_nonneg a b Ha Hle) as Hb.
  destruct Ha as [Haq Hau _ _], Hb as [Hbq Hbu _ _], Hle as [Lq Lu _ _].
  pose proof (same_earthworksVolumeM3Override _ _ Lq) as Hoverride.
  pose proof (same_monitoringIntensity _ _ Lq) as Hintensity.
  pose proof (same_hazardousMaterialsEnabled _ _ Lq) as Hhazardous.
  pose proof (same_communityHeritageEnabled _ _ Lq) as Hcommunity.
  destruct Haq, Hau, Hbq, Hbu, Lq, Lu.
  unfold directWorksTotal. rewrite !directWorks_sum. cbv zeta.
  unfold calculateDerivedQuantities, haToM2. cbv zeta.
  cbn [totalEarthworksVolumeM3 topsoilVolumeM3 tsfAreaM2 wrdAreaM2].
  repeat apply Qplus_le_compat.
  - assumption.
  - apply gated_mono_gt; [assumption | intros _; mono | intros _; nonneg].
  - rewrite Hoverride.
    destruct (earthworksVolumeM3Override (quantities b)) as [override |].
    + apply gated_mono_gt; [apply Qle_refl | |];
        intro G; apply Qlt_le_weak in G; [mono | nonneg].
    + apply gated_mono_gt; [mono | intros _; mono | intros _; nonneg].
  - apply gated_mono_gt; [mono | intros _; mono | intros _; nonneg].
  - apply gated_mono_gt; [assumption | intros _; mono | intros _; nonneg].
  - apply gated_mono_gt; [assumption | intros _; mono | intros _; nonneg].
  - apply gated_mono_gt2; [assumption | assumption | mono | nonneg].
  - apply gated_mono_gt; [assumption | intros _; mono | intros _; nonneg].
  - apply gated_mono_gt; [assumption | intros _; mono | intros _; nonneg].
  - apply gated_mono_gt; [assumption | intros _; mono | intros _; nonneg].
  - rewrite Hhazardous.
    apply gated_mono_bool_gt; [assumption | mono | nonneg].
  - rewrite Hintensity.
    destruct (monitoringIntensity (quantities b)); cbn [getMonitoringRate]; mono.
  - rewrite Hcommunity. apply gated_mono_bool. assumption.
Qed.

Lemma InputLe_refl (a : InputState) : InputLe a a.
Proof.
  constructor; [constructor | constructor | constructor |];
    first [apply Qle_refl | reflexivity].
Qed.

Lemma directWorksTotal_nonneg (a : InputState) :
  NonnegInputs a -> 0 <= directWorksTotal a.
Proof.
  intros [Haq Hau _ _]. destruct Haq, Hau.
  unfold directWorksTotal. rewrite !directWorks_sum. cbv zeta.
  unfold calculateDerivedQuantities, haToM2. cbv zeta.
  cbn [totalEarthworksVolumeM3 topsoilVolumeM3 tsfAreaM2 wrdAreaM2].
  repeat apply plus_nonneg;
    try (apply gated_nonneg; intro G;
         try (apply Qgtb_true in G; apply Qlt_le_weak in G)); try nonneg.
  destruct (monitoringIntensity (quantities a)); cbn [getMonitoringRate]; nonneg.
Qed.

Lemma indirectFactor_mono (r1 r2 : IndirectCostRates) (u : Q) :
  NonnegIndirectRates r1 -> IndirectRatesLe r1 r2 -> 0 <= u ->
  0 <= indirectFactor r1 u /\ indirectFactor r1 u <= indirectFactor r2 u.
Proof.
  intros [] [] Hu. unfold indirectFactor. div_consts.
  split; [nonneg | mono].
Qed.

(** The total cost never decreases when amounts, rates and percentages grow. *)
Lemma pipeline_total_mono (a b : InputState) :
  NonnegInputs a -> InputLe a b ->
  sumSubtotals (pipelineLineItems a) <= sumSubtotals (pipelineLineItems b).
Proof.
  intros Ha Hle. rewrite !pipeline_total.
  pose proof (directWorksTotal_mono a b Ha Hle) as HD.
  pose proof (directWorksTotal_nonneg a Ha) as HD0.
  pose proof (riskUpliftPercent_nonneg a (nn_riskFactors a Ha)) as Hu.
  assert (Hsame : riskUpliftPercent (calculateDerivedQuantities b) =
                  riskUpliftPercent (calculateDerivedQuantities a)).
  { unfold calculateDerivedQuantities. cbv zeta. cbn [riskUpliftPercent].
    now rewrite (same_riskFactors a b Hle). }
  rewrite Hsame.
  destruct (indirectFactor_mono (indirectRates a) (indirectRates b) _
              (nn_indirectRates a Ha) (le_indirectRates a b Hle) Hu) as [HK0 HK].
  now apply mul_mono.
Qed.


(** ** Low and high ends of the sensitivity analysis *)

Lemma totalForSensitivity_total (inputs : InputState) :
  total (calculateTotalForSensitivity inputs) = sumSubtotals (pipelineLineItems inputs).
Proof. reflexivity. Qed.

(** Setting a driver to two ordered non-negative values gives two ordered
    inputs, the lower of which is non-negative. *)
Lemma driver_order (driver : SensitivityDriver.t) (i : InputState) (lo hi : Q) :
  In driver SENSITIVITY_DRIVERS -> NonnegInputs i -> 0 <= lo -> lo <= hi ->
  NonnegInputs (SensitivityDriver.setValue driver i lo) /\
  InputLe (SensitivityDriver.setValue driver i lo)
          (SensitivityDriver.setValue driver i hi).
Proof.
  intros Hin [Hq Hu Hr Hf] Hlo Hle.
  pose proof Hq as Hq'. pose proof Hu as Hu'. pose proof Hr as Hr'.
  destruct Hq', Hu', Hr'.
  unfold SENSITIVITY_DRIVERS in Hin. cbn [In] in Hin.
  repeat (destruct Hin as [<- | Hin];
          [ split;
            [ constructor; cbn;
              first [assumption | constructor; cbn; assumption]
            | constructor; cbn;
              first [reflexivity
                    | constructor; cbn;
                      first [assumption | apply Qle_refl | reflexivity]] ]
          | ]).
  contradiction.
Qed.

Lemma driver_base_nonneg (driver : SensitivityDriver.t) (i : InputState) :
  In driver SENSITIVITY_DRIVERS -> validInputState i ->
  0 <= SensitivityDriver.getValue driver i.
Proof.
  intros Hin Hv. destruct (valid_rates i Hv) as [_ Hrate].
  destruct (valid_NonnegInputs i Hv) as [Hq Hu Hr _]. destruct Hq, Hu, Hr.
  unfold SENSITIVITY_DRIVERS in Hin. cbn [In] in Hin.
  repeat (destruct Hin as [<- | Hin]; [cbn; assumption |]).
  contradiction.
Qed.

Lemma perturbDriver_low_le_high (inputs : InputState) (v : Q)
    (driver : SensitivityDriver.t) :
  validInputState inputs -> In driver SENSITIVITY_DRIVERS ->
  0 <= v -> v <= 100 ->
  let r := perturbDriver inputs v driver (SensitivityDriver.getValue driver inputs) in
  SensitivityResult.lowTotalCost r <= SensitivityResult.highTotalCost r.
Proof.
  intros Hv Hin Hv0 Hv100. cbv zeta. unfold perturbDriver. cbv zeta.
  cbn [SensitivityResult.lowTotalCost SensitivityResult.highTotalCost].
  rewrite !totalForSensitivity_total.
  pose proof (driver_base_nonneg driver inputs Hin Hv) as Hbase.
  destruct (driver_order driver inputs
              (SensitivityDriver.getValue driver inputs * (1 - v / 100))
              (SensitivityDriver.getValue driver inputs * (1 + v / 100))
              Hin (valid_NonnegInputs inputs Hv)) as [Hnn Hle].
  - div_consts. nra.
  - div_consts. nra.
  - now apply pipeline_total_mono.
Qed.

(** C8. On every valid input state, every result of [calculateSensitivity]
    at the default variation of 10 percent, and so every sensitivity result
    of [calculateClosureCosts], has [lowTotalCost <= highTotalCost]. *)
Theorem sensitivity_low_le_high (inputs : InputState) :
  validInputState inputs ->
  Forall (fun r => SensitivityResult.lowTotalCost r <= SensitivityResult.highTotalCost r)
    (calculateSensitivity inputs defaultVariationPercent) /\
  Forall (fun r => SensitivityResult.lowTotalCost r <= SensitivityResult.highTotalCost r)
    (sensitivityResults (calculateClosureCosts inputs)).
Proof.
  intro Hv.
  assert (H : Forall
    (fun r => SensitivityResult.lowTotalCost r <= SensitivityResult.highTotalCost r)
    (calculateSensitivity inputs defaultVariationPercent)).
  { apply Forall_forall. intros r Hr.
    destruct (calculateSensitivity_results inputs _ r Hr) as [driver [Hin [_ ->]]].
    apply perturbDriver_low_le_high; try assumption.
    - vm_compute. discriminate.
    - vm_compute. discriminate. }
  split; exact H.
Qed.

Lemma sensitivity_low_le_high_witness :
  Forall (fun r => SensitivityResult.lowTotalCost r <= SensitivityResult.highTotalCost r)
    (calculateSensitivity DEFAULT_INPUT_STATE defaultVariationPercent) /\
  Forall (fun r => SensitivityResult.lowTotalCost r <= SensitivityResult.highTotalCost r)
    (sensitivityResults (calculateClosureCosts DEFAULT_INPUT_STATE)).
Proof.
  apply (sensitivity_low_le_high DEFAULT_INPUT_STATE).
  vm_compute. reflexivity.
Defined.


(** ** No line item is negative *)

Lemma Forall_push_if {A : Type} (P : A -> Prop) (c : bool) (l : list A) (x : A) :
  Forall P l -> (c = true -> P x) -> Forall P (push_if c l x).
Proof.
  intros Hl Hx. unfold push_if. destruct c; [| exact Hl].
  apply Forall_push; auto.
Qed.

Lemma directWorks_nonneg (inputs : InputState) :
  NonnegInputs inputs ->
  Forall (fun item => 0 <= LineItemCost.subtotal item)
    (calculateDirectWorksCosts inputs (calculateDerivedQuantities inputs)).
Proof.
  intros [Hq Hu _ _]. destruct Hq, Hu.
  unfold calculateDirectWorksCosts, calculateDerivedQuantities, haToM2. cbv zeta.
  cbn [totalEarthworksVolumeM3 topsoilVolumeM3 tsfAreaM2 wrdAreaM2].
  repeat first
    [ apply Forall_push_if; [| intro G; cbn [LineItemCost.subtotal]]
    | apply Forall_push; [| cbn [LineItemCost.subtotal]]
    | match goal with
      | |- Forall _ (if ?c then _ else _) => destruct c
      end
    | apply Forall_nil ];
    try (apply Qgtb_true in G; apply Qlt_le_weak in G);
    try nonneg.
  destruct (monitoringIntensity (quantities inputs)); cbn [getMonitoringRate]; nonneg.
Qed.

Lemma indirectCosts_nonneg (direct : Q) (inputs : InputState)
    (derived : DerivedQuantities) :
  0 <= direct -> NonnegIndirectRates (indirectRates inputs) ->
  0 <= riskUpliftPercent derived ->
  Forall (fun item => 0 <= LineItemCost.subtotal item)
    (calculateIndirectCosts direct inputs derived).
Proof.
  intros Hd [] Hu. unfold calculateIndirectCosts. cbv zeta.
  repeat (apply Forall_push; [| cbn [LineItemCost.subtotal]; div_consts; nonneg]).
  apply Forall_nil.
Qed.

Lemma pipelineLineItems_nonneg (inputs : InputState) :
  NonnegInputs inputs ->
  Forall (fun item => 0 <= LineItemCost.subtotal item) (pipelineLineItems inputs).
Proof.
  intro H. unfold pipelineLineItems. cbv zeta. apply Forall_app. split.
  - now apply directWorks_nonneg.
  - apply indirectCosts_nonneg.
    + now apply directWorksTotal_nonneg.
    + now destruct H.
    + apply riskUpliftPercent_nonneg. now destruct H.
Qed.

(** ** No year has a negative nominal cost *)

Lemma pr_set_nonneg (r : PhaseRecord) (phase : ClosurePhase) (v : Q) :
  nonnegRecord r -> 0 <= v -> nonnegRecord (pr_set r phase v).
Proof.
  intros Hr Hv phase'.
  pose proof (Hr PlanningApprovals). pose proof (Hr DecommissioningDemolition).
  pose proof (Hr EarthworksLandform). pose proof (Hr TailingsWRDRehabilitation).
  pose proof (Hr WaterManagement). pose proof (Hr RevegetationEcosystem).
  pose proof (Hr MonitoringMaintenance). pose proof (Hr RelinquishmentPostClosure).
  destruct phase, phase'; cbn in *; assumption.
Qed.

Lemma list_update_Forall {A : Type} (P : A -> Prop) (f : A -> A) (l : list A)
    (n : nat) :
  (forall x, P x -> P (f x)) -> Forall P l -> Forall P (list_update l n f).
Proof.
  intros Hf Hl. revert n.
  induction Hl as [|x t Hx Ht IH]; intros [|n]; cbn [list_update];
    constructor; auto.
Qed.

Lemma addToYear_nonneg (yearly : list PhaseRecord) (year : Z) (phase : ClosurePhase)
    (a : Q) :
  0 <= a -> Forall nonnegRecord yearly ->
  Forall nonnegRecord (addToYear yearly year phase a).
Proof.
  intros Ha Hy. unfold addToYear, arr_update.
  destruct (year <? 0)%Z; [exact Hy |].
  apply list_update_Forall; [| exact Hy].
  intros r Hr. apply pr_set_nonneg; [exact Hr |].
  pose proof (Hr phase). lra.
Qed.

Lemma distributeItem_nonneg (d : PhaseDurations) (D : Z) (yearly : list PhaseRecord)
    (item : LineItemCost.t) :
  0 <= LineItemCost.subtotal item -> Forall nonnegRecord yearly ->
  Forall nonnegRecord (distributeItem d D yearly item).
Proof.
  intros Hs Hy. unfold distributeItem. cbv zeta.
  destruct (durationOf d (LineItemCost.phase item) >? 0)%Z eqn:E.
  - rewrite Z.gtb_ltb in E. apply Z.ltb_lt in E.
    assert (Ha : 0 <= LineItemCost.subtotal item /
                      inject_Z (durationOf d (LineItemCost.phase item))).
    { apply Qle_shift_div_l.
      - change 0 with (inject_Z 0). now rewrite <- Zlt_Qlt.
      - lra. }
    revert yearly Hy.
    induction (Zrange (durationOf d (LineItemCost.phase item))) as [|y t IH];
      intros yearly Hy; cbn [fold_left]; [exact Hy |].
    apply IH.
    destruct ((_ <=? D)%Z && hasYear yearly _); [| exact Hy].
    now apply addToYear_nonneg.
  - destruct (hasYear yearly _); [| exact Hy].
    now apply addToYear_nonneg.
Qed.

Lemma yearNominalCost_nonneg (r : PhaseRecord) :
  nonnegRecord r -> 0 <= yearNominalCost r.
Proof.
  intro Hr. rewrite yearNominalCost_unfold.
  pose proof (Hr PlanningApprovals). pose proof (Hr DecommissioningDemolition).
  pose proof (Hr EarthworksLandform). pose proof (Hr TailingsWRDRehabilitation).
  pose proof (Hr WaterManagement). pose proof (Hr RevegetationEcosystem).
  pose proof (Hr MonitoringMaintenance). pose proof (Hr RelinquishmentPostClosure).
  cbn [pr_get] in *. lra.
Qed.

Lemma yearlyNominalCosts_nonneg (lineItems : list LineItemCost.t) (d : PhaseDurations) :
  Forall (fun item => 0 <= LineItemCost.subtotal item) lineItems ->
  Forall (fun n => 0 <= n) (yearlyNominalCosts lineItems d).
Proof.
  intro Hitems. unfold yearlyNominalCosts. cbv zeta.
  apply Forall_map.
  assert (H : Forall nonnegRecord
                (distributeLineItems d (calculateTotalDuration d) lineItems
                   (initYearlyPhaseBreakdown (calculateTotalDuration d)))).
  { unfold distributeLineItems.
    assert (H0 : Forall nonnegRecord
                   (initYearlyPhaseBreakdown (calculateTotalDuration d))).
    { unfold initYearlyPhaseBreakdown. apply Forall_map. apply Forall_forall.
      intros x _ phase. destruct phase; cbn; apply Qle_refl. }
    revert H0. generalize (initYearlyPhaseBreakdown (calculateTotalDuration d)).
    induction Hitems as [|item t Hi Ht IH]; intros yearly Hy; cbn [fold_left].
    - exact Hy.
    - apply IH. now apply distributeItem_nonneg. }
  revert H. apply Forall_impl. exact yearNominalCost_nonneg.
Qed.


(** ** Powers and quotients *)

Lemma pow_le_mono (a b : Q) (i : Z) :
  0 < a -> a <= b -> (0 <= i)%Z -> Math_pow a i <= Math_pow b i.
Proof.
  intros Ha Hab Hi. unfold Math_pow.
  assert (Hp : b ^ i == (b / a) ^ i * a ^ i).
  { rewrite <- Qmult_power. apply Qpower_comp; [field; lra | reflexivity]. }
  rewrite Hp.
  assert (H1 : 1 <= (b / a) ^ i).
  { apply Qpower_1_le; [| exact Hi].
    apply Qle_shift_div_l; [exact Ha | lra]. }
  pose proof (Qpower_0_lt a i Ha). nra.
Qed.



Lemma div_antitone (x b1 b2 : Q) : 0 <= x -> 0 < b1 -> b1 <= b2 -> x / b2 <= x / b1.
Proof.
  intros Hx Hb1 Hb. apply Qle_shift_div_r; [lra |].
  assert (Hq : 0 <= x / b1) by (apply Qle_shift_div_l; [exact Hb1 | lra]).
  assert (He : x == x / b1 * b1) by (field; lra).
  rewrite He at 1. nra.
Qed.


(** ** Discounted sums *)



(** A higher discount rate never gives a higher discounted sum. *)
Lemma discountedSum_antitone (e r1 r2 : Q) (ns : list Q) (i : Z) :
  0 <= e -> 0 <= r1 -> r1 <= r2 -> (0 <= i)%Z -> Forall (fun n => 0 <= n) ns ->
  discountedSum e r2 i ns <= discountedSum e r1 i ns.
Proof.
  intros He Hr1 Hr Hi Hns. revert i Hi.
  induction Hns as [|n t Hn Ht IH]; intros i Hi; cbn [discountedSum].
  - apply Qle_refl.
  - apply Qplus_le_compat; [| apply IH; lia].
    apply div_antitone.
    + apply Qmult_le_0_compat; [exact Hn |]. apply Qpower_0_le. lra.
    + apply Qpower_0_lt. lra.
    + apply pow_le_mono; [lra | lra | exact Hi].
Qed.



(** ** Nominal and discounted totals *)

Lemma totalNominalCost_spec (inputs : InputState) :
  totalNominalCost (calculateClosureCosts inputs) ==
  sumSubtotals (pipelineLineItems inputs).
Proof.
  unfold calculateClosureCosts, pipelineLineItems. cbv zeta.
  cbn [totalNominalCost]. now rewrite sumSubtotals_app.
Qed.

Lemma annualCashflows_spec (inputs : InputState) :
  annualCashflows (calculateClosureCosts inputs) =
  calculateAnnualCashflows (pipelineLineItems inputs) inputs.
Proof. reflexivity. Qed.





(** ** Raising the discount rate *)







(** ** Worked examples *)

(** The risk scores the test suite expects. *)
Example riskScore_all_zero :
  calculateRiskScore
    {| contaminationUncertainty := 0; geotechUncertainty := 0;
       waterQualityUncertainty := 0; regulatoryUncertainty := 0;
       logisticsComplexity := 0 |} == 0.
Proof. reflexivity. Qed.

Example riskScore_all_fifty :
  calculateRiskScore
    {| contaminationUncertainty := 50; geotechUncertainty := 50;
       waterQualityUncertainty := 50; regulatoryUncertainty := 50;
       logisticsComplexity := 50 |} == 50.
Proof. reflexivity. Qed.

Example riskScore_all_hundred :
  calculateRiskScore
    {| contaminationUncertainty := 100; geotechUncertainty := 100;
       waterQualityUncertainty := 100; regulatoryUncertainty := 100;
       logisticsComplexity := 100 |} == 100.
Proof. reflexivity. Qed.

Example default_risk :
  calculateRiskScore DEFAULT_RISK_FACTORS == 28 /\
  riskUpliftPercent (calculateDerivedQuantities DEFAULT_INPUT_STATE) == 7.
Proof. split; reflexivity. Qed.

Example default_derived_quantities :
  let derived := calculateDerivedQuantities DEFAULT_INPUT_STATE in
  tsfAreaM2 derived == 1000000 /\
  wrdAreaM2 derived == 2000000 /\
  tsfCappingVolumeM3 derived == 500000 /\
  totalEarthworksVolumeM3 derived == 2900000 /\
  totalWaterTreatmentML derived == 7300.
Proof. repeat split; reflexivity. Qed.

Example default_schedule :
  calculateTotalDuration DEFAULT_PHASE_DURATIONS = 27%Z /\
  map (fun phase => getPhaseStartYear phase DEFAULT_PHASE_DURATIONS) CLOSURE_PHASES =
    [0; 2; 4; 4; 4; 7; 10; 25]%Z.
Proof. split; reflexivity. Qed.

Example default_direct_works :
  directWorksTotal DEFAULT_INPUT_STATE == 118100000 /\
  map LineItemCost.category
    (calculateDirectWorksCosts DEFAULT_INPUT_STATE
       (calculateDerivedQuantities DEFAULT_INPUT_STATE)) =
    [Mobilisation; Demolition; Earthworks; Earthworks; TSFClosure;
     WRDRehabilitation; WaterTreatmentCapex; WaterTreatmentOpex; Revegetation;
     ErosionControls; RoadRehabilitation; Monitoring; CommunityHeritage].
Proof. split; reflexivity. Qed.

(** The yearly nominal costs of the fast-escalation scenario, over its
    schedule of six years and the closing year. *)
Example fastEscalation_yearly :
  Forall2 Qeq
    (yearlyNominalCosts (pipelineLineItems fastEscalationScenario)
       (phaseDurations fastEscalationScenario))
    [277786376 # 5; 17477200; 101850000; 4000000; 7500000; 0; 0].
Proof. lazy. repeat constructor. Qed.

Example fastEscalation_totals :
  totalNominalCost (calculateClosureCosts fastEscalationScenario) == 931922376 # 5 /\
  totalDiscountedCost (calculateClosureCosts fastEscalationScenario) ==
    64593829200952 # 324135.
Proof. split; lazy; reflexivity. Qed.

(** With zero durations there is one cashflow entry, and the discounted
    total is the nominal total at either discount rate. *)
Example zeroDuration_totals :
  List.length (annualCashflows (calculateClosureCosts zeroDurationScenario)) = 1%nat /\
  totalDiscountedCost (calculateClosureCosts zeroDurationScenario) ==
    931922376 # 5 /\
  totalDiscountedCost
    (calculateClosureCosts (setDiscountRatePercent zeroDurationScenario 15)) ==
    931922376 # 5.
Proof. repeat split; lazy; reflexivity. Qed.


(** * Further properties of the engine *)

(** ** Unit conversions *)


(** ** Clamping *)

(** X2. With [min <= max], [clamp] lands in [min, max], leaves a value that is
    already there unchanged, and maps anything below to [min] and anything
    above to [max]. *)
Theorem clamp_within_bounds (value min max : Q) :
  min <= max ->
  min <= clamp value min max /\ clamp value min max <= max /\
  (min <= value -> value <= max -> clamp value min max == value) /\
  (value <= min -> clamp value min max == min) /\
  (max <= value -> clamp value min max == max).
Proof.
  intro H. unfold clamp.
  destruct (Q.max_spec value min) as [[H1 E1] | [H1 E1]];
    destruct (Q.min_spec (Qmax value min) max) as [[H2 E2] | [H2 E2]];
    rewrite E2; rewrite ?E1 in *; repeat split; intros; lra.
Qed.

Lemma clamp_within_bounds_witness :
  0 <= clamp 150 0 100 /\ clamp 150 0 100 <= 100 /\
  (0 <= 150 -> 150 <= 100 -> clamp 150 0 100 == 150) /\
  (150 <= 0 -> clamp 150 0 100 == 0) /\
  (100 <= 150 -> clamp 150 0 100 == 100).
Proof.
  apply (clamp_within_bounds 150 0 100). vm_compute. discriminate.
Defined.

(** ** Risk score *)

Lemma Math_round_mono (x y : Q) : x <= y -> Math_round x <= Math_round y.
Proof.
  intro H. unfold Math_round. rewrite <- Zle_Qle. apply Qfloor_resp_le. lra.
Qed.


(** The weighted sum of the risk factors, before rounding. *)
Lemma calculateRiskScore_unfold (f : RiskFactors) :
  calculateRiskScore f ==
  Math_round
    ((contaminationUncertainty f * 0.25 + geotechUncertainty f * 0.2 +
      waterQualityUncertainty f * 0.25 + regulatoryUncertainty f * 0.15 +
      logisticsComplexity f * 0.15) * 10) * (1 # 10).
Proof. unfold calculateRiskScore. cbv zeta. unfold Qdiv. reflexivity. Qed.

Lemma calculateRiskScore_mono (f g : RiskFactors) :
  contaminationUncertainty f <= contaminationUncertainty g ->
  geotechUncertainty f <= geotechUncertainty g ->
  waterQualityUncertainty f <= waterQualityUncertainty g ->
  regulatoryUncertainty f <= regulatoryUncertainty g ->
  logisticsComplexity f <= logisticsComplexity g ->
  calculateRiskScore f <= calculateRiskScore g.
Proof.
  intros H1 H2 H3 H4 H5. rewrite !calculateRiskScore_unfold.
  assert (H : Math_round
    ((contaminationUncertainty f * 0.25 + geotechUncertainty f * 0.2 +
      waterQualityUncertainty f * 0.25 + regulatoryUncertainty f * 0.15 +
      logisticsComplexity f * 0.15) * 10) <=
    Math_round
    ((contaminationUncertainty g * 0.25 + geotechUncertainty g * 0.2 +
      waterQualityUncertainty g * 0.25 + regulatoryUncertainty g * 0.15 +
      logisticsComplexity g * 0.15) * 10)) by (apply Math_round_mono; lra).
  lra.
Qed.

Lemma calculateRiskScore_range (f : RiskFactors) :
  RiskFactorsSchema f = true ->
  0 <= calculateRiskScore f /\ calculateRiskScore f <= 100.
Proof.
  intro Hs. pose proof (schema_NonnegRiskFactors f Hs) as Hnn.
  unfold RiskFactorsSchema, riskFactor in Hs. schema_facts Hs.
  split; [now apply calculateRiskScore_nonneg |].
  rewrite calculateRiskScore_unfold.
  assert (Hr : Math_round
    ((contaminationUncertainty f * 0.25 + geotechUncertainty f * 0.2 +
      waterQualityUncertainty f * 0.25 + regulatoryUncertainty f * 0.15 +
      logisticsComplexity f * 0.15) * 10) <= 1000).
  { apply (Qle_trans _ (Math_round 1000)).
    - apply Math_round_mono. lra.
    - vm_compute. discriminate. }
  lra.
Qed.



(** X4. On a valid input state the risk uplift the engine derives lies
    between 0 and 50 percent. *)
Theorem risk_uplift_range (inputs : InputState) :
  validInputState inputs ->
  0 <= riskUpliftPercent (calculateDerivedQuantities inputs) /\
  riskUpliftPercent (calculateDerivedQuantities inputs) <= 50.
Proof.
  intro Hv.
  assert (Hs : RiskFactorsSchema (riskFactors inputs) = true).
  { unfold validInputState, InputStateSchema in Hv.
    rewrite !andb_true_iff in Hv. tauto. }
  destruct (calculateRiskScore_range (riskFactors inputs) Hs) as [H0 H100].
  unfold calculateDerivedQuantities. cbv zeta. cbn [riskUpliftPercent].
  split.
  - now apply riskScoreToUplift_nonneg.
  - apply (Qle_trans _ (riskScoreToUplift 100)).
    + now apply riskScoreToUplift_mono.
    + vm_compute. discriminate.
Qed.

Lemma risk_uplift_range_witness :
  0 <= riskUpliftPercent (calculateDerivedQuantities DEFAULT_INPUT_STATE) /\
  riskUpliftPercent (calculateDerivedQuantities DEFAULT_INPUT_STATE) <= 50.
Proof.
  apply (risk_uplift_range DEFAULT_INPUT_STATE). vm_compute. reflexivity.
Defined.


(** ** Line items *)



Lemma map_push {A B : Type} (f : A -> B) (l : list A) (x : A) :
  map f (push l x) = map f l ++ [f x].
Proof. unfold push. now rewrite map_app. Qed.

Lemma map_push_if {A B : Type} (f : A -> B) (c : bool) (l : list A) (x : A) :
  map f (push_if c l x) = map f l ++ (if c then [f x] else []).
Proof.
  unfold push_if. destruct c; [apply map_push | now rewrite app_nil_r].
Qed.

Lemma map_if_push2 {A B : Type} (f : A -> B) (c : bool) (l : list A) (x y : A) :
  map f (if c then push (push l x) y else l) =
  map f l ++ (if c then [f x] else []) ++ (if c then [f y] else []).
Proof.
  destruct c; [| now rewrite app_nil_r].
  rewrite !map_push, <- app_assoc. reflexivity.
Qed.

Lemma filter_table_cons {A : Type} (a : A) (c : bool) (t : list (A * bool)) :
  map fst (filter snd ((a, c) :: t)) =
  (if c then [a] else []) ++ map fst (filter snd t).
Proof. cbn [filter snd]. destruct c; reflexivity. Qed.

(** X6. Which direct works items appear, in which order and in which phase:
    Mobilisation and Monitoring always; every other item exactly when its
    driving quantity is positive or its switch is on; the two water
    treatment items together or not at all. *)
Theorem direct_works_items_table (inputs : InputState) :
  let q := quantities inputs in
  let derived := calculateDerivedQuantities inputs in
  let water :=
    Qgtb (waterTreatmentDurationYears q) 0 &&
    Qgtb (waterTreatmentFlowMLPerDay q) 0 in
  map (fun item => (LineItemCost.category item, LineItemCost.phase item))
    (calculateDirectWorksCosts inputs derived) =
  map fst
    (filter snd
       [ ((Mobilisation, DecommissioningDemolition), true);
         ((Demolition, DecommissioningDemolition), Qgtb (numberOfBuildings q) 0);
         ((Earthworks, EarthworksLandform),
          Qgtb (totalEarthworksVolumeM3 derived) 0);
         ((Earthworks, EarthworksLandform), Qgtb (topsoilVolumeM3 derived) 0);
         ((TSFClosure, TailingsWRDRehabilitation), Qgtb (tsfAreaHa q) 0);
         ((WRDRehabilitation, TailingsWRDRehabilitation),
          Qgtb (wrdFootprintHa q) 0);
         ((WaterTreatmentCapex, WaterManagement), water);
         ((WaterTreatmentOpex, WaterManagement), water);
         ((Revegetation, RevegetationEcosystem), Qgtb (disturbedAreaHa q) 0);
         ((ErosionControls, EarthworksLandform), Qgtb (disturbedAreaHa q) 0);
         ((RoadRehabilitation, EarthworksLandform), Qgtb (roadLengthKm q) 0);
         ((HazardousMaterials, DecommissioningDemolition),
          hazardousMaterialsEnabled q && Qgtb (hazardousMaterialsAreaHa q) 0);
         ((Monitoring, MonitoringMaintenance), true);
         ((CommunityHeritage, PlanningApprovals), communityHeritageEnabled q) ]).
Proof.
  cbv zeta. unfold calculateDirectWorksCosts. cbv zeta.
  repeat first [rewrite map_push_if | rewrite map_push | rewrite map_if_push2].
  rewrite !filter_table_cons.
  cbn [LineItemCost.category LineItemCost.phase map filter fst].
  rewrite <- !app_assoc. rewrite app_nil_r. cbn [app]. reflexivity.
Qed.


(** ** Direct, indirect and total cost *)




(** ** Monotonicity in the inputs *)

(** X8. Starting from a valid input state, raising any quantities, unit rates
    or indirect percentages (switches, volume override and risk factors
    unchanged) never lowers the direct works cost or the total nominal cost. *)
Theorem total_cost_monotone_in_inputs (a b : InputState) :
  validInputState a -> InputLe a b ->
  directWorksCost (calculateClosureCosts a) <=
    directWorksCost (calculateClosureCosts b) /\
  totalNominalCost (calculateClosureCosts a) <=
    totalNominalCost (calculateClosureCosts b).
Proof.
  intros Hv Hle. pose proof (valid_NonnegInputs a Hv) as Hnn. split.
  - now apply directWorksTotal_mono.
  - rewrite !totalNominalCost_spec. now apply pipeline_total_mono.
Qed.

Lemma total_cost_monotone_in_inputs_witness :
  let dearer :=
    with_unitRates DEFAULT_INPUT_STATE
      (with_earthworksPerM3 DEFAULT_UNIT_RATES 12) in
  directWorksCost (calculateClosureCosts DEFAULT_INPUT_STATE) <=
    directWorksCost (calculateClosureCosts dearer) /\
  totalNominalCost (calculateClosureCosts DEFAULT_INPUT_STATE) <=
    totalNominalCost (calculateClosureCosts dearer).
Proof.
  apply (total_cost_monotone_in_inputs DEFAULT_INPUT_STATE).
  - vm_compute. reflexivity.
  - constructor; [constructor | constructor | constructor |];
      first [reflexivity | vm_compute; discriminate].
Defined.

(** ** Risk factors and the total *)

Lemma indirectFactor_mono_uplift (r : IndirectCostRates) (u1 u2 : Q) :
  NonnegIndirectRates r -> 0 <= u1 -> u1 <= u2 ->
  indirectFactor r u1 <= indirectFactor r u2.
Proof.
  intros [] H0 Hu. unfold indirectFactor. div_consts. mono.
Qed.

(** X9. On a valid input state, raising risk factors (none lowered, all else
    fixed) never lowers the risk uplift or the total nominal cost, and leaves
    the direct works cost as it is: risk acts through the RiskUplift item and
    the owner's costs computed on it. *)
Theorem raising_risk_never_lowers_total (inputs : InputState) (factors : RiskFactors) :
  validInputState inputs ->
  contaminationUncertainty (riskFactors inputs) <= contaminationUncertainty factors ->
  geotechUncertainty (riskFactors inputs) <= geotechUncertainty factors ->
  waterQualityUncertainty (riskFactors inputs) <= waterQualityUncertainty factors ->
  regulatoryUncertainty (riskFactors inputs) <= regulatoryUncertainty factors ->
  logisticsComplexity (riskFactors inputs) <= logisticsComplexity factors ->
  let riskier := with_riskFactors inputs factors in
  riskUpliftPercent (calculateDerivedQuantities inputs) <=
    riskUpliftPercent (calculateDerivedQuantities riskier) /\
  directWorksCost (calculateClosureCosts riskier) =
    directWorksCost (calculateClosureCosts inputs) /\
  totalNominalCost (calculateClosureCosts inputs) <=
    totalNominalCost (calculateClosureCosts riskier).
Proof.
  intros Hv H1 H2 H3 H4 H5. cbv zeta.
  pose proof (valid_NonnegInputs inputs Hv) as Hnn.
  assert (Hu : riskUpliftPercent (calculateDerivedQuantities inputs) <=
               riskUpliftPercent
                 (calculateDerivedQuantities (with_riskFactors inputs factors))).
  { unfold calculateDerivedQuantities. cbv zeta.
    cbn [riskUpliftPercent with_riskFactors riskFactors].
    apply riskScoreToUplift_mono. now apply calculateRiskScore_mono. }
  split; [exact Hu |]. split; [reflexivity |].
  rewrite !totalNominalCost_spec, !pipeline_total.
  change (directWorksTotal (with_riskFactors inputs factors))
    with (directWorksTotal inputs).
  change (indirectRates (with_riskFactors inputs factors))
    with (indirectRates inputs).
  apply mul_mono.
  - now apply directWorksTotal_nonneg.
  - apply Qle_refl.
  - destruct (indirectFactor_mono (indirectRates inputs) (indirectRates inputs)
                (riskUpliftPercent (calculateDerivedQuantities inputs))) as [H0 _].
    + now destruct Hnn.
    + constructor; apply Qle_refl.
    + apply riskUpliftPercent_nonneg. now destruct Hnn.
    + exact H0.
  - apply indirectFactor_mono_uplift.
    + now destruct Hnn.
    + apply riskUpliftPercent_nonneg. now destruct Hnn.
    + exact Hu.
Qed.

Lemma raising_risk_never_lowers_total_witness :
  let factors :=
    {| contaminationUncertainty := 80; geotechUncertainty := 80;
       waterQualityUncertainty := 80; regulatoryUncertainty := 80;
       logisticsComplexity := 80 |} in
  let riskier := with_riskFactors DEFAULT_INPUT_STATE factors in
  riskUpliftPercent (calculateDerivedQuantities DEFAULT_INPUT_STATE) <=
    riskUpliftPercent (calculateDerivedQuantities riskier) /\
  directWorksCost (calculateClosureCosts riskier) =
    directWorksCost (calculateClosureCosts DEFAULT_INPUT_STATE) /\
  totalNominalCost (calculateClosureCosts DEFAULT_INPUT_STATE) <=
    totalNominalCost (calculateClosureCosts riskier).
Proof.
  apply (raising_risk_never_lowers_total DEFAULT_INPUT_STATE);
    first [ vm_compute; reflexivity | vm_compute; discriminate ].
Defined.


(** ** Insertion-ordered maps *)

Section MapLemmas.
Context {K : Type} (K_eqb : K -> K -> bool).
Hypothesis K_eqb_eq : forall a b, K_eqb a b = true <-> a = b.








End MapLemmas.




(** ** Phase breakdown *)











(** ** Sorting by a key, largest first *)

Lemma sort_insert_perm {A : Type} (cmp : A -> A -> Q) (x : A) (l : list A) :
  Permutation (sort_insert cmp x l) (x :: l).
Proof.
  induction l as [|y t IH]; cbn [sort_insert].
  - apply Permutation_refl.
  - destruct (Qgtb (cmp x y) 0); [| apply Permutation_refl].
    apply (perm_trans (perm_skip y IH)). apply perm_swap.
Qed.

Lemma array_sort_perm {A : Type} (cmp : A -> A -> Q) (l : list A) :
  Permutation (array_sort cmp l) l.
Proof.
  unfold array_sort. induction l as [|x t IH]; cbn [fold_right].
  - apply Permutation_refl.
  - apply (perm_trans (sort_insert_perm cmp x _)). now apply perm_skip.
Qed.


Lemma nonIncreasing_insert {A : Type} (key : A -> Q) (x : A) (l : list A) :
  nonIncreasing key l ->
  nonIncreasing key (sort_insert (fun a b => key b - key a) x l).
Proof.
  induction l as [|y t IH]; cbn [sort_insert nonIncreasing]; intro H.
  - split; [constructor | exact I].
  - destruct H as [Hy Ht].
    case_Qgt (key y - key x) 0; cbn [nonIncreasing].
    + split; [| now apply IH].
      apply Forall_forall. intros z Hz.
      apply (Permutation_in _ (sort_insert_perm _ x t)) in Hz.
      destruct Hz as [<- | Hz]; [lra |].
      rewrite Forall_forall in Hy. now apply Hy.
    + split; [| split; assumption].
      constructor; [lra |].
      revert Hy. apply Forall_impl. intros z Hz. lra.
Qed.

Lemma array_sort_nonIncreasing {A : Type} (key : A -> Q) (l : list A) :
  nonIncreasing key (array_sort (fun a b => key b - key a) l).
Proof.
  unfold array_sort. induction l as [|x t IH]; cbn [fold_right].
  - exact I.
  - now apply nonIncreasing_insert.
Qed.

(** A loop that pushes the image of the entries that pass a test. *)
Lemma fold_left_push_filter {A B : Type} (p : A -> bool) (f : A -> B)
    (l : list A) (acc : list B) :
  fold_left (fun acc a => if p a then push acc (f a) else acc) l acc =
  acc ++ map f (filter p l).
Proof.
  revert acc. induction l as [|a t IH]; intro acc; cbn [fold_left filter map].
  - now rewrite app_nil_r.
  - rewrite IH. destruct (p a); [| reflexivity].
    unfold push. cbn [map]. now rewrite <- app_assoc.
Qed.

(** ** Category breakdown *)












(** ** Structure of the sensitivity results *)

(** [calculateSensitivity] as: perturb the drivers whose base value is not
    zero, sort by absolute cost delta. *)
Lemma calculateSensitivity_shape (inputs : InputState) (v : Q) :
  calculateSensitivity inputs v =
  array_sort
    (fun a b => Math_abs (SensitivityResult.deltaCost b) -
                Math_abs (SensitivityResult.deltaCost a))
    (map (fun d => perturbDriver inputs v d (SensitivityDriver.getValue d inputs))
       (filter (fun d => negb (Qeqb (SensitivityDriver.getValue d inputs) 0))
          SENSITIVITY_DRIVERS)).
Proof.
  unfold calculateSensitivity. cbv zeta. f_equal.
  rewrite <- (app_nil_l (map _ (filter _ _))).
  rewrite <- fold_left_push_filter.
  apply fold_left_ext_in. intros acc d _. unfold sensitivityStep. cbv zeta.
  destruct (Qeqb (SensitivityDriver.getValue d inputs) 0); reflexivity.
Qed.

Lemma driver_keys_NoDup : NoDup (map SensitivityDriver.key SENSITIVITY_DRIVERS).
Proof.
  unfold SENSITIVITY_DRIVERS. cbn [map SensitivityDriver.key].
  repeat (constructor; [cbn [In]; intuition discriminate |]).
  constructor.
Qed.

Lemma kept_keys_NoDup (keep : SensitivityDriver.t -> bool)
    (drivers : list SensitivityDriver.t)
    (Hkeys : NoDup (map SensitivityDriver.key drivers)) :
  NoDup (map SensitivityDriver.key (filter keep drivers)).
Proof.
  induction drivers as [|d rest IH]; cbn [map filter] in *.
  - constructor.
  - apply NoDup_cons_iff in Hkeys. destruct Hkeys as [Hfresh Hrest].
    specialize (IH Hrest).
    destruct (keep d); [| exact IH].
    cbn [map]. apply NoDup_cons_iff. split; [| exact IH].
    intro Hin. apply Hfresh. apply in_map_iff in Hin.
    destruct Hin as [d' [Hkey Hd']]. apply filter_In in Hd'.
    apply in_map_iff. exists d'. tauto.
Qed.

(** X13. [calculateSensitivity] returns one result per driver whose base value
    is not zero (so at most eight), each driver at most once, in order of
    non-increasing absolute cost delta; in every result the low and high
    values are the base value less and plus the variation, and the deltas
    are high minus low. *)
Theorem sensitivity_results_structure (inputs : InputState) (variationPercent : Q) :
  let results := calculateSensitivity inputs variationPercent in
  List.length results =
    List.length
      (filter (fun d => negb (Qeqb (SensitivityDriver.getValue d inputs) 0))
         SENSITIVITY_DRIVERS) /\
  (List.length results <= 8)%nat /\
  NoDup (map SensitivityResult.driverKey results) /\
  nonIncreasing (fun r => Math_abs (SensitivityResult.deltaCost r)) results /\
  Forall
    (fun r =>
       ~ SensitivityResult.baseValue r == 0 /\
       SensitivityResult.lowValue r ==
         SensitivityResult.baseValue r * (1 - variationPercent / 100) /\
       SensitivityResult.highValue r ==
         SensitivityResult.baseValue r * (1 + variationPercent / 100) /\
       SensitivityResult.deltaCost r ==
         SensitivityResult.highTotalCost r - SensitivityResult.lowTotalCost r /\
       SensitivityResult.deltaNPV r ==
         SensitivityResult.highNPV r - SensitivityResult.lowNPV r)
    results.
Proof.
  cbv zeta. rewrite calculateSensitivity_shape.
  set (kept := filter _ SENSITIVITY_DRIVERS).
  set (perturbed := map _ kept).
  pose proof (array_sort_perm
    (fun a b => Math_abs (SensitivityResult.deltaCost b) -
                Math_abs (SensitivityResult.deltaCost a)) perturbed) as Hperm.
  assert (Hlen : List.length (array_sort
    (fun a b => Math_abs (SensitivityResult.deltaCost b) -
                Math_abs (SensitivityResult.deltaCost a)) perturbed) =
    List.length kept).
  { rewrite (Permutation_length Hperm). subst perturbed. apply length_map. }
  split; [exact Hlen |]. split; [| split; [| split]].
  - rewrite Hlen. subst kept.
    apply (Nat.le_trans _ _ _ (filter_length_le _ _)). cbn. lia.
  - apply (Permutation_NoDup (Permutation_sym (Permutation_map _ Hperm))).
    subst perturbed kept. rewrite map_map. cbn [perturbDriver SensitivityResult.driverKey].
    apply kept_keys_NoDup. exact driver_keys_NoDup.
  - apply (array_sort_nonIncreasing
             (fun r => Math_abs (SensitivityResult.deltaCost r))).
  - apply Forall_forall. intros r Hr.
    apply (Permutation_in _ Hperm) in Hr. subst perturbed kept.
    apply in_map_iff in Hr. destruct Hr as [d [<- Hd]].
    apply filter_In in Hd. destruct Hd as [_ Hnz].
    apply negb_true_iff in Hnz. apply Qeq_bool_neq in Hnz.
    unfold perturbDriver. cbv zeta.
    cbn [SensitivityResult.baseValue SensitivityResult.lowValue
         SensitivityResult.highValue SensitivityResult.deltaCost
         SensitivityResult.deltaNPV SensitivityResult.highTotalCost
         SensitivityResult.lowTotalCost SensitivityResult.highNPV
         SensitivityResult.lowNPV].
    repeat split; try reflexivity. exact Hnz.
Qed.

Lemma totalForSensitivity_npv (inputs : InputState) :
  npv (calculateTotalForSensitivity inputs) =
  lastCumulativeDiscounted
    (calculateAnnualCashflows (pipelineLineItems inputs) inputs).
Proof.
  unfold calculateTotalForSensitivity, pipelineLineItems. cbv zeta. cbn [npv].
  destruct (calculateAnnualCashflows _ inputs) as [|cf cfs]; [reflexivity |].
  cbn [List.length].
  destruct (Z.of_nat (S (List.length cfs)) >? 0)%Z eqn:E; [reflexivity |].
  rewrite Z.gtb_ltb in E. apply Z.ltb_ge in E. lia.
Qed.

(** The NPV of the simplified pipeline at a replaced discount rate. *)
Lemma npv_at_rate (inputs : InputState) (rate : Q) :
  nonnegDurations (phaseDurations inputs) ->
  npv (calculateTotalForSensitivity (setDiscountRatePercent inputs rate)) ==
  discountedSum (escalationRatePercent (financialParams inputs) / 100)
    (rate / 100) 0
    (yearlyNominalCosts (pipelineLineItems inputs) (phaseDurations inputs)).
Proof.
  intro Hd. rewrite totalForSensitivity_npv.
  destruct (calculateAnnualCashflows_spec
              (pipelineLineItems (setDiscountRatePercent inputs rate))
              (setDiscountRatePercent inputs rate) Hd) as [_ H].
  exact H.
Qed.

(** X14. On a valid input state and at the default variation, every
    sensitivity result has a positive base value lying strictly between its
    low and high values, and a non-negative cost delta; the result of the
    discount-rate driver has a zero cost delta and a non-positive NPV delta. *)
Theorem sensitivity_results_on_valid_inputs (inputs : InputState) :
  validInputState inputs ->
  Forall
    (fun r =>
       0 < SensitivityResult.baseValue r /\
       SensitivityResult.lowValue r < SensitivityResult.baseValue r /\
       SensitivityResult.baseValue r < SensitivityResult.highValue r /\
       0 <= SensitivityResult.deltaCost r /\
       (SensitivityResult.driverKey r = "discountRate"%string ->
        SensitivityResult.deltaCost r == 0 /\
        SensitivityResult.deltaNPV r <= 0))
    (calculateSensitivity inputs defaultVariationPercent).
Proof.
  intro Hv. apply Forall_forall. intros r Hr.
  destruct (calculateSensitivity_results inputs _ r Hr) as [d [Hin [Hnz ->]]].
  pose proof (driver_base_nonneg d inputs Hin Hv) as Hbase.
  assert (Hpos : 0 < SensitivityDriver.getValue d inputs).
  { destruct (Qlt_le_dec 0 (SensitivityDriver.getValue d inputs)) as [H | H];
      [exact H |].
    exfalso. apply Hnz. lra. }
  assert (H0 : 0 <= defaultVariationPercent) by (vm_compute; discriminate).
  assert (H100 : defaultVariationPercent <= 100) by (vm_compute; discriminate).
  pose proof (perturbDriver_low_le_high inputs defaultVariationPercent d
                Hv Hin H0 H100) as Hlh.
  cbv zeta in Hlh. revert Hlh. unfold perturbDriver. cbv zeta.
  cbn [SensitivityResult.baseValue SensitivityResult.lowValue
       SensitivityResult.highValue SensitivityResult.deltaCost
       SensitivityResult.deltaNPV SensitivityResult.highTotalCost
       SensitivityResult.lowTotalCost SensitivityResult.driverKey].
  intro Hlh. unfold defaultVariationPercent in *.
  split; [exact Hpos |].
  split; [div_consts; lra |].
  split; [div_consts; lra |].
  split; [lra |].
  intro Hkey.
  unfold SENSITIVITY_DRIVERS in Hin. cbn [In] in Hin.
  repeat (destruct Hin as [<- | Hin];
          [ try (cbn [SensitivityDriver.key] in Hkey; discriminate Hkey) | ]);
    [| contradiction].
  cbn [SensitivityDriver.getValue SensitivityDriver.setValue] in *.
  split.
  - rewrite !totalForSensitivity_total.
    change (pipelineLineItems
              (with_financialParams inputs
                 (with_discountRatePercent (financialParams inputs)
                    (discountRatePercent (financialParams inputs) * (1 + 10 / 100)))))
      with (pipelineLineItems inputs).
    change (pipelineLineItems
              (with_financialParams inputs
                 (with_discountRatePercent (financialParams inputs)
                    (discountRatePercent (financialParams inputs) * (1 - 10 / 100)))))
      with (pipelineLineItems inputs).
    ring.
  - pose proof (valid_nonnegDurations inputs Hv) as Hd.
    destruct (valid_rates inputs Hv) as [He _].
    pose proof (npv_at_rate inputs
      (discountRatePercent (financialParams inputs) * (1 + 10 / 100)) Hd) as Hhi.
    pose proof (npv_at_rate inputs
      (discountRatePercent (financialParams inputs) * (1 - 10 / 100)) Hd) as Hlo.
    unfold setDiscountRatePercent in Hhi, Hlo. rewrite Hhi, Hlo.
    assert (Hanti :
      discountedSum (escalationRatePercent (financialParams inputs) / 100)
        (discountRatePercent (financialParams inputs) * (1 + 10 / 100) / 100) 0
        (yearlyNominalCosts (pipelineLineItems inputs) (phaseDurations inputs)) <=
      discountedSum (escalationRatePercent (financialParams inputs) / 100)
        (discountRatePercent (financialParams inputs) * (1 - 10 / 100) / 100) 0
        (yearlyNominalCosts (pipelineLineItems inputs) (phaseDurations inputs))).
    { apply discountedSum_antitone.
      - div_consts. lra.
      - div_consts. lra.
      - div_consts. lra.
      - lia.
      - apply yearlyNominalCosts_nonneg. apply pipelineLineItems_nonneg.
        now apply valid_NonnegInputs. }
    lra.
Qed.

Lemma sensitivity_results_on_valid_inputs_witness :
  Forall
    (fun r =>
       0 < SensitivityResult.baseValue r /\
       SensitivityResult.lowValue r < SensitivityResult.baseValue r /\
       SensitivityResult.baseValue r < SensitivityResult.highValue r /\
       0 <= SensitivityResult.deltaCost r /\
       (SensitivityResult.driverKey r = "discountRate"%string ->
        SensitivityResult.deltaCost r == 0 /\
        SensitivityResult.deltaNPV r <= 0))
    (calculateSensitivity DEFAULT_INPUT_STATE defaultVariationPercent).
Proof.
  apply (sensitivity_results_on_valid_inputs DEFAULT_INPUT_STATE).
  vm_compute. reflexivity.
Defined.


(** ** The cashflow series *)

Lemma cashflow_loop_entries (sy : Z) (e r : Q) (suf pre : list PhaseRecord)
    (acc : CashflowAcc) :
  acc_cashflows
    (fold_left (cashflowStep sy e r (pre ++ suf))
       (map Z.of_nat (seq (List.length pre) (List.length suf))) acc) =
  acc_cashflows acc ++
  cashflowEntries sy e r (Z.of_nat (List.length pre))
    (acc_cumulativeNominal acc) (acc_cumulativeDiscounted acc) suf.
Proof.
  revert pre acc. induction suf as [|x t IH]; intros pre acc.
  - cbn [List.length seq map fold_left cashflowEntries]. now rewrite app_nil_r.
  - cbn [List.length seq map fold_left cashflowEntries].
    rewrite cashflowStep_middle. cbv zeta.
    set (acc' := {| acc_cumulativeNominal := _ |}).
    specialize (IH (pre ++ [x]) acc').
    rewrite <- app_assoc in IH. cbn [app] in IH.
    rewrite length_app in IH. cbn [List.length] in IH.
    rewrite Nat.add_1_r in IH. rewrite IH.
    subst acc'. cbn [acc_cashflows acc_cumulativeNominal acc_cumulativeDiscounted].
    unfold push. rewrite <- app_assoc. cbn [app].
    rewrite Nat2Z.inj_succ. unfold Z.succ. reflexivity.
Qed.

(** The cashflows are the entries of the distributed years, from year 0 and
    zero running totals. *)
Lemma calculateAnnualCashflows_entries (lineItems : list LineItemCost.t)
    (inputs : InputState) :
  nonnegDurations (phaseDurations inputs) ->
  let D := calculateTotalDuration (phaseDurations inputs) in
  calculateAnnualCashflows lineItems inputs =
  cashflowEntries (closureStartYear (financialParams inputs))
    (escalationRatePercent (financialParams inputs) / 100)
    (discountRatePercent (financialParams inputs) / 100) 0 0 0
    (distributeLineItems (phaseDurations inputs) D lineItems
       (initYearlyPhaseBreakdown D)).
Proof.
  intro Hd. cbv zeta. unfold calculateAnnualCashflows. cbv zeta.
  set (D := calculateTotalDuration (phaseDurations inputs)).
  set (yearly := distributeLineItems (phaseDurations inputs) D lineItems
                   (initYearlyPhaseBreakdown D)).
  assert (Hlen : Z.to_nat (D + 1) = List.length yearly).
  { subst yearly D.
    destruct (distributeLineItems_sum (phaseDurations inputs) lineItems
                (initYearlyPhaseBreakdown (calculateTotalDuration (phaseDurations inputs)))
                Hd) as [Hl _].
    - apply initYearly_length. now apply totalDuration_nonneg.
    - rewrite Hl. unfold initYearlyPhaseBreakdown.
      now rewrite length_map, Zrange_length. }
  assert (Heff :
    (if DiscountRateMode_eqb (discountRateMode (financialParams inputs)) nominal
     then discountRatePercent (financialParams inputs) / 100
     else discountRatePercent (financialParams inputs) / 100) =
    discountRatePercent (financialParams inputs) / 100)
    by (destruct (DiscountRateMode_eqb _ _); reflexivity).
  rewrite Heff. unfold Zrange. rewrite Hlen.
  pose proof (cashflow_loop_entries (closureStartYear (financialParams inputs))
                (escalationRatePercent (financialParams inputs) / 100)
                (discountRatePercent (financialParams inputs) / 100)
                yearly []
                {| acc_cumulativeNominal := 0; acc_cumulativeDiscounted := 0;
                   acc_cashflows := [] |}) as H.
  cbn [app List.length acc_cashflows acc_cumulativeNominal
       acc_cumulativeDiscounted] in H.
  exact H.
Qed.

Lemma cashflowEntries_length (sy : Z) (e r : Q) (i : Z) (n0 d0 : Q)
    (yearly : list PhaseRecord) :
  List.length (cashflowEntries sy e r i n0 d0 yearly) = List.length yearly.
Proof.
  revert i n0 d0. induction yearly as [|x t IH]; intros; cbn; [| rewrite IH];
    reflexivity.
Qed.

Lemma cashflowEntries_years (sy : Z) (e r : Q) (i : Z) (n0 d0 : Q)
    (yearly : list PhaseRecord) :
  map AnnualCashflow.year (cashflowEntries sy e r i n0 d0 yearly) =
  map (fun k => (sy + i + Z.of_nat k)%Z) (seq 0 (List.length yearly)).
Proof.
  revert i n0 d0. induction yearly as [|x t IH]; intros i n0 d0.
  - reflexivity.
  - cbn [cashflowEntries List.length seq map AnnualCashflow.year].
    f_equal; [cbn; lia |]. rewrite IH, <- seq_shift, map_map.
    apply map_ext. intro k. lia.
Qed.

Lemma cashflowEntries_running (sy : Z) (e r : Q) (i : Z) (n0 d0 : Q)
    (yearly : list PhaseRecord) :
  runningTotals n0 d0 (cashflowEntries sy e r i n0 d0 yearly).
Proof.
  revert i n0 d0. induction yearly as [|x t IH]; intros i n0 d0.
  - exact I.
  - cbn [cashflowEntries runningTotals AnnualCashflow.cumulativeNominal
         AnnualCashflow.cumulativeDiscounted AnnualCashflow.nominalCost
         AnnualCashflow.discountedCost].
    split; [reflexivity |]. split; [reflexivity |]. apply IH.
Qed.

(** X15. On a valid input state the cashflow series has one entry per year
    from the closure start year to that year plus the total duration, in
    consecutive years, and its cumulative columns are running totals: each
    entry's cumulative nominal and discounted cost is the previous entry's
    plus its own nominal and discounted cost, from zero. *)
Theorem cashflow_series_structure (lineItems : list LineItemCost.t)
    (inputs : InputState) :
  validInputState inputs ->
  let cashflows := calculateAnnualCashflows lineItems inputs in
  let D := calculateTotalDuration (phaseDurations inputs) in
  Z.of_nat (List.length cashflows) = (D + 1)%Z /\
  map AnnualCashflow.year cashflows =
    map (fun i => (closureStartYear (financialParams inputs) + i)%Z)
      (Zrange (D + 1)) /\
  runningTotals 0 0 cashflows.
Proof.
  intro Hv. cbv zeta. pose proof (valid_nonnegDurations inputs Hv) as Hd.
  rewrite (calculateAnnualCashflows_entries lineItems inputs Hd).
  set (D := calculateTotalDuration (phaseDurations inputs)).
  assert (Hlen : Z.of_nat (List.length
    (distributeLineItems (phaseDurations inputs) D lineItems
       (initYearlyPhaseBreakdown D))) = (D + 1)%Z).
  { subst D.
    destruct (distributeLineItems_sum (phaseDurations inputs) lineItems
                (initYearlyPhaseBreakdown (calculateTotalDuration (phaseDurations inputs)))
                Hd) as [Hl _].
    - apply initYearly_length. now apply totalDuration_nonneg.
    - rewrite Hl. apply initYearly_length. now apply totalDuration_nonneg. }
  split; [| split].
  - rewrite cashflowEntries_length. exact Hlen.
  - rewrite cashflowEntries_years. unfold Zrange. rewrite map_map.
    replace (Z.to_nat (D + 1)) with (List.length
      (distributeLineItems (phaseDurations inputs) D lineItems
         (initYearlyPhaseBreakdown D))) by lia.
    apply map_ext. intro k. lia.
  - apply cashflowEntries_running.
Qed.

Lemma cashflow_series_structure_witness :
  let cashflows :=
    calculateAnnualCashflows (pipelineLineItems DEFAULT_INPUT_STATE)
      DEFAULT_INPUT_STATE in
  let D := calculateTotalDuration (phaseDurations DEFAULT_INPUT_STATE) in
  Z.of_nat (List.length cashflows) = (D + 1)%Z /\
  map AnnualCashflow.year cashflows =
    map (fun i => (closureStartYear (financialParams DEFAULT_INPUT_STATE) + i)%Z)
      (Zrange (D + 1)) /\
  runningTotals 0 0 cashflows.
Proof.
  apply (cashflow_series_structure (pipelineLineItems DEFAULT_INPUT_STATE)
           DEFAULT_INPUT_STATE).
  vm_compute. reflexivity.
Defined.

(** ** Nominal, escalated and discounted cost *)

Lemma pow_ge_1 (x : Q) (i : Z) : 0 <= x -> (0 <= i)%Z -> 1 <= Math_pow (1 + x) i.
Proof. intros Hx Hi. unfold Math_pow. apply Qpower_1_le; [lra | exact Hi]. Qed.

Lemma cashflowEntries_costs (sy : Z) (e r : Q) (i : Z) (n0 d0 : Q)
    (yearly : list PhaseRecord) :
  0 <= e -> 0 <= r -> (0 <= i)%Z ->
  Forall (fun pb => 0 <= yearNominalCost pb) yearly ->
  Forall
    (fun cf =>
       AnnualCashflow.nominalCost cf ==
         yearNominalCost (AnnualCashflow.phaseBreakdown cf) /\
       0 <= AnnualCashflow.nominalCost cf /\
       AnnualCashflow.nominalCost cf <= AnnualCashflow.escalatedCost cf /\
       0 <= AnnualCashflow.discountedCost cf /\
       AnnualCashflow.discountedCost cf <= AnnualCashflow.escalatedCost cf)
    (cashflowEntries sy e r i n0 d0 yearly).
Proof.
  intros He Hr Hi Hy. revert i n0 d0 Hi.
  induction Hy as [|pb t Hpb Ht IH]; intros i n0 d0 Hi; cbn [cashflowEntries].
  - constructor.
  - constructor; [| apply IH; lia].
    cbn [AnnualCashflow.nominalCost AnnualCashflow.escalatedCost
         AnnualCashflow.discountedCost AnnualCashflow.phaseBreakdown].
    pose proof (pow_ge_1 e i He Hi) as H1. pose proof (pow_ge_1 r i Hr Hi) as H2.
    assert (Hesc : 0 <= yearNominalCost pb * Math_pow (1 + e) i) by nra.
    split; [reflexivity |]. split; [exact Hpb |]. split; [nra |].
    split.
    + apply Qle_shift_div_l; lra.
    + apply Qle_shift_div_r; [lra | nra].
Qed.

Lemma distributed_years_nonneg (inputs : InputState) :
  NonnegInputs inputs ->
  Forall (fun pb => 0 <= yearNominalCost pb)
    (distributeLineItems (phaseDurations inputs)
       (calculateTotalDuration (phaseDurations inputs))
       (pipelineLineItems inputs)
       (initYearlyPhaseBreakdown (calculateTotalDuration (phaseDurations inputs)))).
Proof.
  intro Hnn.
  pose proof (yearlyNominalCosts_nonneg (pipelineLineItems inputs)
                (phaseDurations inputs) (pipelineLineItems_nonneg inputs Hnn)) as H.
  unfold yearlyNominalCosts in H. cbv zeta in H.
  rewrite Forall_map in H. exact H.
Qed.

Lemma pipeline_cashflows_ordered (inputs : InputState) :
  validInputState inputs ->
  Forall
    (fun cf =>
       AnnualCashflow.nominalCost cf ==
         yearNominalCost (AnnualCashflow.phaseBreakdown cf) /\
       0 <= AnnualCashflow.nominalCost cf /\
       AnnualCashflow.nominalCost cf <= AnnualCashflow.escalatedCost cf /\
       0 <= AnnualCashflow.discountedCost cf /\
       AnnualCashflow.discountedCost cf <= AnnualCashflow.escalatedCost cf)
    (calculateAnnualCashflows (pipelineLineItems inputs) inputs).
Proof.
  intro Hv.
  rewrite (calculateAnnualCashflows_entries _ inputs (valid_nonnegDurations inputs Hv)).
  destruct (valid_rates inputs Hv) as [He Hr].
  apply cashflowEntries_costs.
  - div_consts. lra.
  - div_consts. lra.
  - lia.
  - apply distributed_years_nonneg. now apply valid_NonnegInputs.
Qed.

(** X16. On a valid input state, every annual cashflow of the results has a
    nominal cost that is the sum of its per-phase breakdown and is not
    negative, an escalated cost at least the nominal cost, and a discounted
    cost between zero and the escalated cost. *)
Theorem cashflow_costs_ordered (inputs : InputState) :
  validInputState inputs ->
  Forall
    (fun cf =>
       AnnualCashflow.nominalCost cf ==
         yearNominalCost (AnnualCashflow.phaseBreakdown cf) /\
       0 <= AnnualCashflow.nominalCost cf /\
       AnnualCashflow.nominalCost cf <= AnnualCashflow.escalatedCost cf /\
       0 <= AnnualCashflow.discountedCost cf /\
       AnnualCashflow.discountedCost cf <= AnnualCashflow.escalatedCost cf)
    (annualCashflows (calculateClosureCosts inputs)).
Proof.
  intro Hv. rewrite annualCashflows_spec. now apply pipeline_cashflows_ordered.
Qed.

Lemma cashflow_costs_ordered_witness :
  Forall
    (fun cf =>
       AnnualCashflow.nominalCost cf ==
         yearNominalCost (AnnualCashflow.phaseBreakdown cf) /\
       0 <= AnnualCashflow.nominalCost cf /\
       AnnualCashflow.nominalCost cf <= AnnualCashflow.escalatedCost cf /\
       0 <= AnnualCashflow.discountedCost cf /\
       AnnualCashflow.discountedCost cf <= AnnualCashflow.escalatedCost cf)
    (annualCashflows (calculateClosureCosts DEFAULT_INPUT_STATE)).
Proof.
  apply (cashflow_costs_ordered DEFAULT_INPUT_STATE). vm_compute. reflexivity.
Defined.







(** ** Peak cashflow *)








(** ** Where each phase's cost lands in the schedule *)















(** ** The sensitivity drivers as accessors *)

Ltac each_driver H :=
  unfold SENSITIVITY_DRIVERS in H; cbn [In] in H;
  repeat (destruct H as [H | H]; [subst |]); [.. | contradiction H].

(** X20. Each sensitivity driver reads and writes one input of its own:
    reading after writing gives the written value, writing back the value
    read changes nothing, the value of every other driver is untouched, and
    so are the risk factors, the phase durations and the scenario name. *)
Theorem sensitivity_driver_get_set (driver : SensitivityDriver.t)
    (inputs : InputState) (value : Q) :
  In driver SENSITIVITY_DRIVERS ->
  SensitivityDriver.getValue driver
    (SensitivityDriver.setValue driver inputs value) = value /\
  SensitivityDriver.setValue driver inputs
    (SensitivityDriver.getValue driver inputs) = inputs /\
  (forall other,
     In other SENSITIVITY_DRIVERS ->
     SensitivityDriver.key other <> SensitivityDriver.key driver ->
     SensitivityDriver.getValue other
       (SensitivityDriver.setValue driver inputs value) =
     SensitivityDriver.getValue other inputs) /\
  riskFactors (SensitivityDriver.setValue driver inputs value) = riskFactors inputs /\
  phaseDurations (SensitivityDriver.setValue driver inputs value) =
    phaseDurations inputs /\
  scenarioName (SensitivityDriver.setValue driver inputs value) = scenarioName inputs.
Proof.
  intro Hin.
  destruct inputs as [q u ir rf fp pd sn].
  destruct q, u, ir, fp.
  each_driver Hin;
    (split; [reflexivity |]; split; [reflexivity |];
     split; [| split; [reflexivity |]; split; reflexivity];
     intros other Ho Hk; each_driver Ho;
     first [reflexivity | exfalso; apply Hk; reflexivity]).
Qed.

Lemma sensitivity_driver_get_set_witness :
  let driver :=
    SensitivityDriver.mk "Contingency %" "contingency"
      (fun i => contingencyPercent (indirectRates i))
      (fun i v => with_indirectRates i (with_contingencyPercent (indirectRates i) v))
      "%" in
  SensitivityDriver.getValue driver
    (SensitivityDriver.setValue driver DEFAULT_INPUT_STATE 25) = 25 /\
  SensitivityDriver.setValue driver DEFAULT_INPUT_STATE
    (SensitivityDriver.getValue driver DEFAULT_INPUT_STATE) = DEFAULT_INPUT_STATE.
Proof.
  cbv zeta.
  destruct (sensitivity_driver_get_set
              (SensitivityDriver.mk "Contingency %" "contingency"
                 (fun i => contingencyPercent (indirectRates i))
                 (fun i v =>
                    with_indirectRates i
                      (with_contingencyPercent (indirectRates i) v))
                 "%")
              DEFAULT_INPUT_STATE 25) as [H1 [H2 _]].
  - unfold SENSITIVITY_DRIVERS. cbn [In]. do 5 right. left. reflexivity.
  - split; [exact H1 | exact H2].
Defined.

(** ** Scenario presets *)

Lemma find_by_id (id : string) (l : list ScenarioPreset.t) :
  match find (fun p => String.eqb (ScenarioPreset.id p) id) l with
  | Some p => In p l /\ ScenarioPreset.id p = id
  | None => ~ In id (map ScenarioPreset.id l)
  end.
Proof.
  destruct (find _ l) as [p|] eqn:F.
  - apply find_some in F. destruct F as [Hin He]. apply String.eqb_eq in He. auto.
  - intro Hin. apply in_map_iff in Hin. destruct Hin as [p [Hid Hp]].
    pose proof (find_none _ _ F p Hp) as He. cbv beta in He.
    rewrite Hid, String.eqb_refl in He. discriminate He.
Qed.

(** X21. Looking a preset up by identifier returns a preset of the list that
    carries this identifier, whose inputs pass the input schema and are what
    [getPresetInputs] returns; an identifier no preset carries gives nothing
    from either function; and every preset of the list is the one found
    under its own identifier. *)
Theorem preset_lookup (id : string) :
  match getPresetById id with
  | Some preset =>
      In preset SCENARIO_PRESETS /\
      ScenarioPreset.id preset = id /\
      validInputState (ScenarioPreset.inputs preset) /\
      getPresetInputs id = Some (ScenarioPreset.inputs preset)
  | None =>
      ~ In id (map ScenarioPreset.id SCENARIO_PRESETS) /\
      getPresetInputs id = None
  end /\
  Forall (fun preset => getPresetById (ScenarioPreset.id preset) = Some preset)
    SCENARIO_PRESETS.
Proof.
  split.
  - unfold getPresetInputs.
    pose proof (find_by_id id SCENARIO_PRESETS) as H.
    unfold getPresetById.
    destruct (find _ SCENARIO_PRESETS) as [p|].
    + destruct H as [Hin Hid].
      split; [exact Hin |]. split; [exact Hid |]. split; [| reflexivity].
      unfold SCENARIO_PRESETS in Hin. cbn [In] in Hin.
      repeat (destruct Hin as [Hin | Hin]; [subst p; vm_compute; reflexivity |]).
      contradiction Hin.
    + split; [exact H | reflexivity].
  - unfold SCENARIO_PRESETS. repeat constructor.
Qed.
